(** * Region-extraction pipeline of [script/02_get_SNP_data.py]

    A shallow embedding of the Python script that derives a population
    allowlist from a reference panel, computes a window around every locus
    of a coordinates table and calls [bcftools view] on it, together with
    the properties of that script that its specification states.

    Modelling conventions.
    - A Python [str] is a Rocq [string]; every character stands for the code
      point of the same number (so the model covers code points below 256).
    - A Python [int] is a [Z].
    - The script runs in a monad [M] that threads a [world] (text files,
      standard output, the list of external commands started so far) and
      propagates Python exceptions; [sys.exit n] raises [SystemExit n],
      which [except Exception] does not catch.
    - What the operating system, the csv module and the external tool decide
      is an [environment]: a parameter of every definition. A file is read
      as the list of rows its csv reader yields; errors raised while a file
      is being read are not modelled. *)

From Stdlib Require Import ZArith Lia Ascii String.
From stdpp Require Import base option list strings gmap pretty.

Local Open Scope Z_scope.

(** ** Strings *)

Definition NL : string := String "010"%char EmptyString.

(** [str.startswith]. *)
Fixpoint startswith (p s : string) : bool :=
  match p, s with
  | EmptyString, _ => true
  | String a p', String b s' => if decide (a = b) then startswith p' s' else false
  | String _ _, EmptyString => false
  end.

(** [str.endswith], through the reversed strings. *)
Definition endswith (p s : string) : bool :=
  startswith (String.rev p) (String.rev s).

(** [str.replace(old, new)] for a non-empty [old]: a left-to-right scan that
    replaces every non-overlapping occurrence. [skip] counts the characters
    of the occurrence just replaced that are still to be passed over. *)
Fixpoint replace_scan (old new : string) (skip : nat) (s : string) : string :=
  match s with
  | EmptyString => EmptyString
  | String c rest =>
      match skip with
      | S k => replace_scan old new k rest
      | O =>
          if startswith old s
          then new +:+ replace_scan old new (Nat.pred (String.length old)) rest
          else String c (replace_scan old new O rest)
      end
  end.

(** With an empty [old], Python puts [new] before every character and at
    the end. *)
Fixpoint replace_empty (new s : string) : string :=
  match s with
  | EmptyString => new
  | String c rest => new +:+ String c (replace_empty new rest)
  end.

Definition str_replace (s old new : string) : string :=
  match old with
  | EmptyString => replace_empty new s
  | String _ _ => replace_scan old new O s
  end.

(** Characters for which [str.isspace] holds, among code points below 256. *)
Definition isspace (c : ascii) : bool :=
  let n := nat_of_ascii c in
  ((9 <=? n) && (n <=? 13) || (28 <=? n) && (n <=? 32)
   || (n =? 133) || (n =? 160))%nat.

(** Dropping the leading characters, or those at both ends, that are in a
    class. *)
Fixpoint lstrip_class (class : ascii -> bool) (s : string) : string :=
  match s with
  | EmptyString => EmptyString
  | String c rest => if class c then lstrip_class class rest else s
  end.

Definition strip_class (class : ascii -> bool) (s : string) : string :=
  String.rev (lstrip_class class (String.rev (lstrip_class class s))).

(** [str.strip()]. *)
Definition strip (s : string) : string := strip_class isspace s.

(** [sep.join(l)]. *)
Fixpoint join (sep : string) (l : list string) : string :=
  match l with
  | [] => EmptyString
  | [x] => x
  | x :: rest => x +:+ sep +:+ join sep rest
  end.

(** [str(n)] for an [int]. *)
Definition str_int (n : Z) : string := pretty n.

(** *** [int(s)]

    Base-10 conversion of a string: surrounding white space is dropped, one
    sign is allowed, then digits, where a single underscore may stand between
    two digits. [None] is the [ValueError] case. (The limit on the number of
    digits that recent interpreters put on the conversion is not modelled.) *)

(** The white space [int] drops: the C white space and, above the ASCII
    range, the Unicode spaces; unlike [str.strip], not the separators 28 to
    31. *)
Definition int_space (c : ascii) : bool :=
  let n := nat_of_ascii c in
  ((9 <=? n) && (n <=? 13) || (n =? 32) || (n =? 133) || (n =? 160))%nat.

Definition digit_value (c : ascii) : option Z :=
  let n := nat_of_ascii c in
  if ((48 <=? n) && (n <=? 57))%nat then Some (Z.of_nat n - 48) else None.

(** [after_underscore] also holds at the start: a literal may neither begin
    nor end with an underscore, and the empty string is no literal. *)
Fixpoint int_digits (acc : Z) (after_underscore : bool) (s : string) : option Z :=
  match s with
  | EmptyString => if after_underscore then None else Some acc
  | String c rest =>
      match digit_value c with
      | Some d => int_digits (10 * acc + d) false rest
      | None =>
          if decide (c = "_"%char)
          then if after_underscore then None else int_digits acc true rest
          else None
      end
  end.

Definition int_of_str (s : string) : option Z :=
  match strip_class int_space s with
  | EmptyString => None
  | String c rest =>
      if decide (c = "-"%char) then Z.opp <$> int_digits 0 true rest
      else if decide (c = "+"%char) then int_digits 0 true rest
      else int_digits 0 true (String c rest)
  end.

(** ** Paths ([posixpath]) *)

Definition all_slashes (s : string) : bool :=
  forallb (fun c => bool_decide (c = "/"%char)) (String.list_ascii_of_string s).

Fixpoint lstrip_slashes (s : string) : string :=
  match s with
  | EmptyString => EmptyString
  | String c rest => if decide (c = "/"%char) then lstrip_slashes rest else s
  end.

(** The part of [s] up to and including its last slash, given reversed. *)
Fixpoint from_first_slash (s : string) : string :=
  match s with
  | EmptyString => EmptyString
  | String c rest => if decide (c = "/"%char) then s else from_first_slash rest
  end.

(** [os.path.dirname]. *)
Definition path_dirname (p : string) : string :=
  let head_rev := from_first_slash (String.rev p) in
  if all_slashes head_rev then String.rev head_rev
  else String.rev (lstrip_slashes head_rev).

(** [os.path.join] of two components. *)
Definition path_join (a b : string) : string :=
  if startswith "/" b then b
  else if decide (a = EmptyString) then b
  else if endswith "/" a then a +:+ b
  else a +:+ "/" +:+ b.

(** ** Exceptions *)

(** The exception classes the script can meet; [Exception] is their common
    base class. *)
Inductive exc_class :=
  | Exception | OSError | FileNotFoundError | PermissionError
  | IndexError | ValueError | StopIteration | UnboundLocalError.

#[global] Instance exc_class_eq_dec : EqDecision exc_class.
Proof. solve_decision. Defined.

(** [issubclass c d]. *)
Definition issubclass (c d : exc_class) : bool :=
  match d with
  | Exception => true
  | OSError =>
      match c with
      | OSError | FileNotFoundError | PermissionError => true
      | _ => false
      end
  | _ => bool_decide (c = d)
  end.

(** An exception object: its class and [str(e)]. *)
Record pyexc := PyExc { exc_cls : exc_class; exc_msg : string }.

(** What a statement can raise: [SystemExit], which derives from
    [BaseException] only, or an instance of a class under [Exception]. *)
Inductive exn :=
  | SystemExit (code : Z)
  | Exc (e : pyexc).

(** ** The world and the monad of the script *)

Record world := World {
  files : gmap string string;     (* text files, by path *)
  stdout : list string;           (* one entry per [print] call *)
  calls : list (list string)      (* commands given to [subprocess.run] *)
}.

Inductive outcome (A : Type) :=
  | Returned (a : A)
  | Raised (e : exn).
Arguments Returned {A} a.
Arguments Raised {A} e.

Definition M (A : Type) : Type := world -> outcome A * world.

Definition ret {A} (a : A) : M A := fun w => (Returned a, w).

Definition bind {A B} (m : M A) (k : A -> M B) : M B :=
  fun w =>
    match m w with
    | (Returned a, w') => k a w'
    | (Raised e, w') => (Raised e, w')
    end.

Definition raise {A} (e : exn) : M A := fun w => (Raised e, w).

Notation "x <- m ;; k" := (bind m (fun x => k))
  (at level 100, m at next level, right associativity).
Notation "m ;; k" := (bind m (fun _ => k))
  (at level 100, right associativity).

(** An [except] clause: the classes it names and its body. *)
Definition clause (A : Type) : Type := list exc_class * (pyexc -> M A).

Fixpoint find_clause {A} (e : pyexc) (cs : list (clause A)) : option (M A) :=
  match cs with
  | [] => None
  | (classes, h) :: rest =>
      if existsb (issubclass (exc_cls e)) classes then Some (h e)
      else find_clause e rest
  end.

(** [try: body except ...]: the first clause that names a base class of the
    exception runs; [SystemExit] passes through every clause. *)
Definition try_except {A} (body : M A) (cs : list (clause A)) : M A :=
  fun w =>
    match body w with
    | (Raised (Exc e), w') =>
        match find_clause e cs with
        | Some h => h w'
        | None => (Raised (Exc e), w')
        end
    | r => r
    end.

(** [for x in l: s = body x s]. *)
Fixpoint for_each {A S} (l : list A) (body : A -> S -> M S) (s : S) : M S :=
  match l with
  | [] => ret s
  | x :: rest => s' <- body x s ;; for_each rest body s'
  end.

(** [enumerate(l)], counting from [n]. *)
Fixpoint enumerate_from {A} (n : Z) (l : list A) : list (Z * A) :=
  match l with
  | [] => []
  | x :: rest => (n, x) :: enumerate_from (n + 1) rest
  end.

Definition enumerate {A} (l : list A) : list (Z * A) := enumerate_from 0 l.

(** The exit status of the process when [main] ends with [r]: an uncaught
    exception other than [SystemExit] ends the interpreter with status 1. *)
Definition exit_status {A} (r : outcome A) : Z :=
  match r with
  | Returned _ => 0
  | Raised (SystemExit n) => n
  | Raised (Exc _) => 1
  end.

Definition print (s : string) : M unit :=
  fun w => (Returned tt, World (files w) (stdout w ++ [s]) (calls w)).

Definition sys_exit {A} (n : Z) : M A := raise (SystemExit n).

(** [os.path.isfile]. *)
Definition isfile (p : string) : M bool :=
  fun w => (Returned (bool_decide (is_Some (files w !! p))), w).

(** ** The environment *)

(** The result of [subprocess.run(..., capture_output=True, text=True)]. *)
Record completed := Completed {
  returncode : Z;
  proc_stdout : string;
  proc_stderr : string
}.

Record environment := Environment {
  (* [repr] of a [str] *)
  repr_str : string -> string;
  (* the rows [csv.reader(f, delimiter=TAB)] yields for the text of [f];
     the flag says whether [f] was opened with [newline=''] *)
  csv_reader : bool -> string -> list (list string);
  (* the error, if any, of opening a path for writing *)
  open_w_error : string -> option pyexc;
  (* the error, if any, of [os.makedirs(path, exist_ok=True)] *)
  os_makedirs_error : string -> option pyexc;
  (* what starting a command does, given the commands started before it:
     the exception of a failed launch, or the completed process *)
  subprocess_run : list (list string) -> list string -> pyexc + completed
}.

(** ** Configuration (the module-level constants of the script, lines 7 to 35) *)

Definition REGIONS_FILE_TSV : string := "data/snp_coordinates_grch37.tsv".
Definition PANEL_FILE_LOCAL : string :=
  "data/integrated_call_samples_v3.20130502.ALL.panel.txt".
Definition SAMPLES_FILE : string := "ID_files/sas_samples.txt".
Definition POPULATION_CODE : string := "SAS".
Definition BASE_VCF_FTP_PATH : string :=
  "http://ftp.1000genomes.ebi.ac.uk/vol1/ftp/release/20130502/".
Definition VCF_FILENAME_TEMPLATE : string :=
  "ALL.chr{CHROMOSOME}.phase3_shapeit2_mvncall_integrated_v5b.20130502.genotypes.vcf.gz".
Definition BCFTOOLS_CMD : string := "/opt/anaconda3/envs/bcftools/bin/bcftools".
Definition REGION_WINDOW_SIZE : Z := 10000.
Definition OUTPUT_DIR : string := "output_vcfs".

(** ** The script *)

Section Script.

Variable env : environment.

(** [repr] of a list of strings, as an f-string prints it. *)
Definition repr_list (l : list string) : string :=
  "[" +:+ join ", " (map (repr_str env) l) +:+ "]".

(** [open(p, 'r')]: the path must name a file. *)
Definition open_read (p : string) : M unit :=
  fun w =>
    match files w !! p with
    | Some _ => (Returned tt, w)
    | None =>
        (Raised (Exc (PyExc FileNotFoundError
           ("[Errno 2] No such file or directory: " +:+ repr_str env p))), w)
    end.

(** [open(p, 'w')]: creates the file or empties it. *)
Definition open_write (p : string) : M unit :=
  fun w =>
    match open_w_error env p with
    | Some e => (Raised (Exc e), w)
    | None => (Returned tt, World (<[p := EmptyString]> (files w)) (stdout w) (calls w))
    end.

(** [f.write(s)] on the file opened for writing at [p]. *)
Definition write (p s : string) : M unit :=
  fun w =>
    (Returned tt,
     World (<[p := default EmptyString (files w !! p) +:+ s]> (files w))
           (stdout w) (calls w)).

(** The rows a [csv.reader] over the open file [p] yields; the text is read
    when the reader is first advanced. *)
Definition reader_rows (newline_kept : bool) (p : string) : M (list (list string)) :=
  fun w => (Returned (csv_reader env newline_kept (default EmptyString (files w !! p))), w).

(** [next(reader)], together with the rows that remain. *)
Definition next (rows : list (list string)) : M (list string * list (list string)) :=
  match rows with
  | [] => raise (Exc (PyExc StopIteration EmptyString))
  | r :: rest => ret (r, rest)
  end.

Fixpoint index_from (n : Z) (l : list string) (x : string) : option Z :=
  match l with
  | [] => None
  | y :: rest => if decide (y = x) then Some n else index_from (n + 1) rest x
  end.

(** [l.index(x)]. *)
Definition list_index (l : list string) (x : string) : M Z :=
  match index_from 0 l x with
  | Some n => ret n
  | None => raise (Exc (PyExc ValueError (repr_str env x +:+ " is not in list")))
  end.

(** [x in l]. *)
Definition contains (l : list string) (x : string) : bool :=
  bool_decide (x ∈ l).

(** [len(l)]. *)
Definition len {A} (l : list A) : Z := Z.of_nat (length l).

(** [l[k]]: a negative [k] counts from the end; [None] when [k] is out of
    range. *)
Definition item (l : list string) (k : Z) : option string :=
  let k' := if k <? 0 then k + len l else k in
  if k' <? 0 then None else l !! Z.to_nat k'.

Definition getitem (l : list string) (k : Z) : M string :=
  match item l k with
  | Some x => ret x
  | None => raise (Exc (PyExc IndexError "list index out of range"))
  end.

(** [int(s)]. *)
Definition py_int (s : string) : M Z :=
  match int_of_str s with
  | Some n => ret n
  | None =>
      raise (Exc (PyExc ValueError
        ("invalid literal for int() with base 10: " +:+ repr_str env s)))
  end.

(** [os.makedirs(p, exist_ok=True)]. *)
Definition os_makedirs (p : string) : M unit :=
  match os_makedirs_error env p with
  | Some e => raise (Exc e)
  | None => ret tt
  end.

(** [subprocess.run(command, check=False, capture_output=True, text=True)]. *)
Definition run_process (command : list string) : M completed :=
  fun w =>
    let w' := World (files w) (stdout w) (calls w ++ [command]) in
    match subprocess_run env (calls w) command with
    | inl e => (Raised (Exc e), w')
    | inr r => (Returned r, w')
    end.

(** *** [extract_samples] (lines 39 to 77) *)

(** The body of the loop over the panel rows (lines 59 to 63). *)
Definition extract_samples_row (sample_col_idx pop_col_idx : Z)
    (population_code samples_output_file : string)
    (row : list string) (sample_count : Z) : M Z :=
  matches <-
    (if len row >? Z.max sample_col_idx pop_col_idx
     then pop <- getitem row pop_col_idx ;; ret (bool_decide (pop = population_code))
     else ret false) ;;
  if (matches : bool)
  then
    sample <- getitem row sample_col_idx ;;
    write samples_output_file (sample +:+ NL) ;;
    ret (sample_count + 1)
  else ret sample_count.

Definition extract_samples (panel_file population_code samples_output_file : string)
    : M Z :=
  print (NL +:+ "--- Step 2: Extracting " +:+ population_code +:+ " sample IDs ---") ;;
  try_except
    (found <-
       (open_read panel_file ;;
        open_write samples_output_file ;;
        reader <- reader_rows false panel_file ;;
        hr <- next reader ;;
        let header := fst hr in
        idx <-
          try_except
            (sample_col_idx <- list_index header "sample" ;;
             pop_col_idx <- list_index header "super_pop" ;;
             ret (sample_col_idx, pop_col_idx))
            [([ValueError], fun e =>
               print ("ERROR: Missing expected column in panel file header: "
                      +:+ exc_msg e) ;;
               print ("Expected columns like 'sample' and 'super_pop'. Found: "
                      +:+ repr_list header) ;;
               sys_exit 1)] ;;
        sample_count <-
          for_each (snd hr)
            (extract_samples_row (fst idx) (snd idx) population_code
               samples_output_file) 0 ;;
        ret (sample_count, snd idx)) ;;
     let sample_count := fst found in
     let pop_col_idx := snd found in
     if sample_count >? 0
     then
       print ("Extraction successful. " +:+ str_int sample_count +:+ " "
              +:+ population_code +:+ " IDs saved to " +:+ samples_output_file) ;;
       ret sample_count
     else
       print ("ERROR: No samples found for " +:+ population_code +:+ " in '"
              +:+ panel_file +:+ "' (check column " +:+ str_int (pop_col_idx + 1)
              +:+ " and population code).") ;;
       sys_exit 1)
    [([FileNotFoundError], fun _ =>
        print ("ERROR: Panel file '" +:+ panel_file +:+ "' not found!") ;;
        sys_exit 1);
     ([Exception], fun e =>
        print ("ERROR: Failed to process panel file '" +:+ panel_file +:+ "': "
               +:+ exc_msg e) ;;
        sys_exit 1)].

(** *** [run_bcftools] (lines 80 to 135) *)

(** The list [command] of [run_bcftools]. *)
Definition bcftools_command
    (bcftools_cmd vcf_url_for_chr region samples_file output_vcf_file : string)
    : list string :=
  [bcftools_cmd; "view"; vcf_url_for_chr; "-r"; region; "-S"; samples_file;
   "-O"; "z"; "-o"; output_vcf_file].

Definition run_bcftools
    (bcftools_cmd vcf_url_for_chr region samples_file output_vcf_file : string)
    : M bool :=
  print (NL +:+ "--- Step 3: Extracting region " +:+ region +:+ " with bcftools ---") ;;
  print ("  Region target (GRCh37): " +:+ region) ;;
  print ("  VCF source (GRCh37): " +:+ vcf_url_for_chr) ;;
  print ("  Target samples: " +:+ samples_file) ;;
  print ("  Output file: " +:+ output_vcf_file) ;;
  let command :=
    bcftools_command bcftools_cmd vcf_url_for_chr region samples_file
      output_vcf_file in
  try_except
    (os_makedirs (path_dirname output_vcf_file) ;;
     result <- run_process command ;;
     if negb (returncode result =? 0)
     then
       print ("ERROR: bcftools failed for region " +:+ region +:+ ".") ;;
       print ("  Return Code: " +:+ str_int (returncode result)) ;;
       print ("  Stderr: " +:+ strip (proc_stderr result)) ;;
       print ("  Stdout: " +:+ strip (proc_stdout result)) ;;
       print "  Check VCF URL (is it valid for this chromosome? is the server accessible?), region format," ;;
       print "  existence of the index (.tbi) on the server for this chromosome file," ;;
       print ("  and the sample file ('" +:+ samples_file +:+ "').") ;;
       ret false
     else
       print ("bcftools extraction completed successfully for region "
              +:+ region +:+ ".") ;;
       (if decide (proc_stderr result = EmptyString) then ret tt
        else print ("  bcftools stderr output:" +:+ NL
                    +:+ strip (proc_stderr result))) ;;
       ret true)
    [([FileNotFoundError], fun _ =>
        print ("ERROR: bcftools command '" +:+ bcftools_cmd +:+ "' not found.") ;;
        print "  Please ensure bcftools is installed and the path in BCFTOOLS_CMD is correct." ;;
        sys_exit 1);
     ([Exception], fun e =>
        print ("ERROR: An unexpected error occurred while running bcftools for region "
               +:+ region +:+ ": " +:+ exc_msg e) ;;
        ret false)].

(** *** [main] (lines 139 to 247) *)

(** The local variables of [main] that the loop over the table updates. [i]
    is unbound until the loop binds it. *)
Record locals := Locals {
  successful_extractions : list string;
  failed_regions : list string;
  i : option Z
}.

(** [max(1, position - W)] and [position + W]. *)
Definition region_window (W position : Z) : Z * Z :=
  (Z.max 1 (position - W), position + W).

(** The region string and the archive URL of a chromosome value and a
    position, as the loop body computes them. *)
Definition clean_chromosome (chromosome : string) : string :=
  str_replace chromosome "chr" EmptyString.

Definition region_string (chromosome_cleaned : string) (start_pos end_pos : Z) : string :=
  chromosome_cleaned +:+ ":" +:+ str_int start_pos +:+ "-" +:+ str_int end_pos.

Definition vcf_url (chromosome_cleaned : string) : string :=
  BASE_VCF_FTP_PATH +:+ str_replace VCF_FILENAME_TEMPLATE "{CHROMOSOME}" chromosome_cleaned.

(** The name of the output file of a row. *)
Definition output_path (rsid chromosome : string) (start_pos end_pos : Z) : string :=
  path_join OUTPUT_DIR
    (rsid +:+ "_chr" +:+ chromosome +:+ "_" +:+ str_int start_pos +:+ "_"
     +:+ str_int end_pos +:+ "_GRCh37_" +:+ POPULATION_CODE +:+ "_subset.vcf.gz").

(** One iteration of [for i, row in enumerate(reader)] (lines 179 to 215). *)
Definition process_row (chr_col_idx pos_col_idx rsid_col_idx : Z)
    (ir : Z * list string) (st : locals) : M locals :=
  let idx := fst ir in
  let row := snd ir in
  let st := Locals (successful_extractions st) (failed_regions st) (Some idx) in
  try_except
    (chromosome <- getitem row chr_col_idx ;;
     let chromosome_cleaned := clean_chromosome chromosome in
     pos_field <- getitem row pos_col_idx ;;
     position <- py_int pos_field ;;
     rsid <-
       (if negb (rsid_col_idx =? -1) then getitem row rsid_col_idx
        else ret ("region_" +:+ str_int (idx + 1))) ;;
     let start_pos := fst (region_window REGION_WINDOW_SIZE position) in
     let end_pos := snd (region_window REGION_WINDOW_SIZE position) in
     let region_str := region_string chromosome_cleaned start_pos end_pos in
     let dynamic_vcf_url := vcf_url chromosome_cleaned in
     let output_filename := output_path rsid chromosome start_pos end_pos in
     ok <- run_bcftools BCFTOOLS_CMD dynamic_vcf_url region_str SAMPLES_FILE
             output_filename ;;
     if (ok : bool)
     then ret (Locals (successful_extractions st ++ [output_filename])
                      (failed_regions st) (i st))
     else ret (Locals (successful_extractions st)
                      (failed_regions st
                       ++ [region_str +:+ " (Source: " +:+ dynamic_vcf_url +:+ ")"])
                      (i st)))
    [([IndexError; ValueError], fun e =>
        print ("WARNING: Skipping invalid row " +:+ str_int (idx + 2) +:+ " in "
               +:+ REGIONS_FILE_TSV +:+ ": " +:+ repr_list row +:+ ". Error: "
               +:+ exc_msg e) ;;
        ret (Locals (successful_extractions st)
                    (failed_regions st
                     ++ ["Row " +:+ str_int (idx + 2) +:+ " (Invalid Data: "
                         +:+ repr_list row +:+ ")"])
                    (i st)));
     ([Exception], fun e =>
        print ("WARNING: An unexpected error occurred processing row "
               +:+ str_int (idx + 2) +:+ " (" +:+ repr_list row +:+ ") from "
               +:+ REGIONS_FILE_TSV +:+ ": " +:+ exc_msg e) ;;
        ret (Locals (successful_extractions st)
                    (failed_regions st
                     ++ ["Row " +:+ str_int (idx + 2) +:+ " (Processing Error: "
                         +:+ repr_list row +:+ ")"])
                    (i st)))].

(** The [try] statement of [main] that opens the table and loops over it
    (lines 162 to 223). *)
Definition process_regions (st : locals) : M locals :=
  try_except
    (open_read REGIONS_FILE_TSV ;;
     reader <- reader_rows true REGIONS_FILE_TSV ;;
     hr <- next reader ;;
     let header := fst hr in
     idx <-
       try_except
         (chr_col_idx <- list_index header "Chromosome" ;;
          pos_col_idx <- list_index header "Position_GRCh37" ;;
          rsid_col_idx <-
            (if contains header "rsID" then list_index header "rsID" else ret (-1)) ;;
          ret (chr_col_idx, pos_col_idx, rsid_col_idx))
         [([ValueError], fun e =>
            print ("ERROR: Missing expected column in regions TSV file header: "
                   +:+ exc_msg e) ;;
            print ("Expected columns like 'Chromosome' and 'Position_GRCh37'. Found: "
                   +:+ repr_list header) ;;
            sys_exit 1)] ;;
     for_each (enumerate (snd hr))
       (process_row (fst (fst idx)) (snd (fst idx)) (snd idx)) st)
    [([FileNotFoundError], fun _ =>
        print ("ERROR: Regions TSV file '" +:+ REGIONS_FILE_TSV
               +:+ "' not found during processing!") ;;
        sys_exit 1);
     ([Exception], fun e =>
        print ("ERROR: Failed to read or process regions TSV file '"
               +:+ REGIONS_FILE_TSV +:+ "': " +:+ exc_msg e) ;;
        sys_exit 1)].

(** Reading the local [i]. *)
Definition read_i (st : locals) : M Z :=
  match i st with
  | Some n => ret n
  | None =>
      raise (Exc (PyExc UnboundLocalError
        "cannot access local variable 'i' where it is not associated with a value"))
  end.

(** The statements of [main] after the [try] statement (lines 225 to 247). *)
Definition finalize (st : locals) : M unit :=
  print (NL +:+ "--- Optional Cleanup ---") ;;
  print ("Sample ID file (" +:+ SAMPLES_FILE +:+ ") kept.") ;;
  print (NL +:+ "=== SCRIPT FINISHED ===") ;;
  last_i <- read_i st ;;
  print ("Attempted to process " +:+ str_int (last_i + 1) +:+ " regions from TSV.") ;;
  print ("Successfully created VCFs ("
         +:+ str_int (len (successful_extractions st)) +:+ "):") ;;
  match failed_regions st with
  | _ :: _ =>
      print (NL +:+ "Failed or skipped regions/rows ("
             +:+ str_int (len (failed_regions st)) +:+ "):") ;;
      for_each (failed_regions st)
        (fun region_info _ => print ("  - " +:+ region_info)) tt
  | [] =>
      print (NL +:+ "All regions processed successfully (check bcftools output above for details on empty regions).")
  end.

Definition main : M unit :=
  print "--- Step 1: Checking local panel file ---" ;;
  panel_found <- isfile PANEL_FILE_LOCAL ;;
  (if negb panel_found
   then
     print ("ERROR: Local panel file '" +:+ PANEL_FILE_LOCAL +:+ "' not found!") ;;
     sys_exit 1
   else print ("Using local panel file: " +:+ PANEL_FILE_LOCAL)) ;;
  extract_samples PANEL_FILE_LOCAL POPULATION_CODE SAMPLES_FILE ;;
  print (NL +:+ "--- Step 4: Processing regions from TSV file: "
         +:+ REGIONS_FILE_TSV +:+ " ---") ;;
  regions_found <- isfile REGIONS_FILE_TSV ;;
  (if negb regions_found
   then
     print ("ERROR: Regions TSV file '" +:+ REGIONS_FILE_TSV +:+ "' not found!") ;;
     sys_exit 1
   else ret tt) ;;
  os_makedirs OUTPUT_DIR ;;
  print ("Output VCFs will be saved in: " +:+ OUTPUT_DIR) ;;
  st <- process_regions (Locals [] [] None) ;;
  finalize st.

End Script.

(** ** A concrete environment

    Used to run the script on example inputs: quote-free tab-separated text,
    every directory and file writable, strings shown between single
    quotes. *)

Fixpoint split_acc (sep : ascii) (acc : string) (s : string) : list string :=
  match s with
  | EmptyString => [String.rev acc]
  | String c rest =>
      if decide (c = sep) then String.rev acc :: split_acc sep EmptyString rest
      else split_acc sep (String c acc) rest
  end.

(** [s.split(sep)]. *)
Definition split (sep : ascii) (s : string) : list string :=
  split_acc sep EmptyString s.

(** One row per line, one field per tab; the text ends with a newline. *)
Definition tsv_rows (text : string) : list (list string) :=
  match text with
  | EmptyString => []
  | _ => map (split "009"%char) (removelast (split "010"%char text))
  end.

Definition example_env (run : list (list string) -> list string -> pyexc + completed)
    : environment :=
  Environment (fun s => "'" +:+ s +:+ "'") (fun _ => tsv_rows)
              (fun _ => None) (fun _ => None) run.

Definition TAB : string := String "009"%char EmptyString.

Definition row_text (fields : list string) : string := join TAB fields +:+ NL.

Definition table_text (rows : list (list string)) : string :=
  String.concat EmptyString (map row_text rows).

Definition example_world (panel regions : list (list string)) : world :=
  World (<[PANEL_FILE_LOCAL := table_text panel]>
           (<[REGIONS_FILE_TSV := table_text regions]> ∅)) [] [].

(** The tool ends with status 0 and a note on its error stream. *)
Definition tool_ok : list (list string) -> list string -> pyexc + completed :=
  fun _ _ => inr (Completed 0 EmptyString "[W::vcf_parse] index loaded").

(** The tool ends with status 1 after writing part of its output. *)
Definition tool_fails : list (list string) -> list string -> pyexc + completed :=
  fun _ _ => inr (Completed 1 "##fileformat=VCFv4.1" "[E::hts_open] failed to open").

(** The executable does not exist. *)
Definition missing_executable : pyexc :=
  PyExc FileNotFoundError "[Errno 2] No such file or directory: 'bcftools'".

Definition tool_missing : list (list string) -> list string -> pyexc + completed :=
  fun _ _ => inl missing_executable.

(** The system cannot start one more process. *)
Definition no_more_processes : pyexc :=
  PyExc OSError "[Errno 11] Resource temporarily unavailable".

Definition tool_not_started : list (list string) -> list string -> pyexc + completed :=
  fun _ _ => inl no_more_processes.

Definition example_panel : list (list string) :=
  [["sample"; "pop"; "super_pop"; "gender"];
   ["sampleA"; "GIH"; "SAS"; "male"];
   ["sampleB"; "GBR"; "EUR"; "female"];
   ["sampleC"];
   ["sampleD"; "PJL"; "SAS"; "female"]].

(** A panel without a row of the population [SAS]. *)
Definition example_panel_no_match : list (list string) :=
  [["sample"; "pop"; "super_pop"; "gender"];
   ["sampleB"; "GBR"; "EUR"; "female"];
   ["sampleC"]].

Definition example_header : list string := ["rsID"; "Chromosome"; "Position_GRCh37"].

Definition example_rows : list (list string) :=
  [["rs1"; "1"; "100000"];
   ["rs2"; "chrX"; "50"];
   ["rs3"; "2"; "abc"];
   ["rs4"]].

Definition example_locals : locals := Locals [] [] None.

(** Rows of a table with the example header: one whose position is no
    integer, one near the start of chromosome X, one with a negative
    position. *)
Definition example_bad_row : list string := ["rs3"; "2"; "abc"].
Definition example_row_X : list string := ["rs2"; "chrX"; "50"].
Definition example_row_negative : list string := ["rs5"; "1"; "-5"].

(** The files of a run on the example panel and the example table. *)
Definition example_run_world : world :=
  example_world example_panel (example_header :: example_rows).

(** Further example inputs: a panel whose header has other column names, a
    table whose header has other column names, a header without the label
    column, a table whose rows all fail to parse, and an environment in
    which no directory can be made. *)
Definition example_panel_other_columns : list (list string) :=
  [["id"; "population"]; ["sampleA"; "SAS"]].

Definition example_header_other_columns : list string := ["rsID"; "chrom"; "pos"].

Definition example_header_no_rsid : list string := ["Chromosome"; "Position_GRCh37"].

Definition example_rows_invalid : list (list string) := [example_bad_row; ["rs4"]].

Definition directory_refused : pyexc :=
  PyExc PermissionError "[Errno 13] Permission denied: 'output_vcfs'".

Definition example_env_no_directory : environment :=
  Environment (fun s => "'" +:+ s +:+ "'") (fun _ => tsv_rows)
              (fun _ => None) (fun _ => Some directory_refused) tool_ok.



Definition example_row_Un : list string := ["rs9"; "chrUn_chr9"; "100000"].



(** ** Vocabulary of the properties *)

Section Vocabulary.

Variable env : environment.

(** What the first statements of the loop body read from the row with index
    [idx]: the chromosome value, the position and the label. [None] when one
    of them raises [IndexError] or [ValueError]. *)
Definition locus_of_row (chr_col_idx pos_col_idx rsid_col_idx idx : Z)
    (row : list string) : option (string * Z * string) :=
  chromosome ← item row chr_col_idx;
  pos_field ← item row pos_col_idx;
  position ← int_of_str pos_field;
  rsid ← (if negb (rsid_col_idx =? -1) then item row rsid_col_idx
          else Some ("region_" +:+ str_int (idx + 1)));
  Some (chromosome, position, rsid).

(** A row that fails to parse: a column is missing at its index (the row is
    too short) or the position field is no integer. *)
Definition invalid_row (chr_col_idx pos_col_idx rsid_col_idx : Z)
    (row : list string) : Prop :=
  item row chr_col_idx = None
  \/ item row pos_col_idx = None
  \/ (exists s, item row pos_col_idx = Some s /\ int_of_str s = None)
  \/ (rsid_col_idx <> -1 /\ item row rsid_col_idx = None).

(** The entry of [failed_regions] for an invalid row at line [n] of the
    table, and the warning printed with it. *)
Definition invalid_row_entry (n : Z) (row : list string) : string :=
  "Row " +:+ str_int n +:+ " (Invalid Data: " +:+ repr_list env row +:+ ")".

Definition invalid_row_warning (n : Z) (row : list string) (msg : string) : string :=
  "WARNING: Skipping invalid row " +:+ str_int n +:+ " in " +:+ REGIONS_FILE_TSV
  +:+ ": " +:+ repr_list env row +:+ ". Error: " +:+ msg.

(** The window, region string, output file and command of a parsed row. *)
Definition row_start (position : Z) : Z := fst (region_window REGION_WINDOW_SIZE position).
Definition row_end (position : Z) : Z := snd (region_window REGION_WINDOW_SIZE position).

Definition row_region (chromosome : string) (position : Z) : string :=
  region_string (clean_chromosome chromosome) (row_start position) (row_end position).

Definition row_output (chromosome : string) (position : Z) (rsid : string) : string :=
  output_path rsid chromosome (row_start position) (row_end position).

Definition row_command (chromosome : string) (position : Z) (rsid : string)
    : list string :=
  bcftools_command BCFTOOLS_CMD (vcf_url (clean_chromosome chromosome))
    (row_region chromosome position) SAMPLES_FILE
    (row_output chromosome position rsid).

(** The entry of [failed_regions] for a region whose extraction failed. *)
Definition failed_region_entry (chromosome : string) (position : Z) : string :=
  row_region chromosome position +:+ " (Source: "
  +:+ vcf_url (clean_chromosome chromosome) +:+ ")".

(** How [run_bcftools] ends when its [try] block raises [e]. *)
Definition on_invocation_error (e : pyexc) : outcome bool :=
  if issubclass (exc_cls e) FileNotFoundError then Raised (SystemExit 1)
  else Returned false.

(** The result of [run_bcftools] on the command [command] with output file
    [output_vcf_file], after the commands [history]. *)
Definition run_bcftools_outcome (history : list (list string))
    (command : list string) (output_vcf_file : string) : outcome bool :=
  match os_makedirs_error env (path_dirname output_vcf_file) with
  | Some e => on_invocation_error e
  | None =>
      match subprocess_run env history command with
      | inl e => on_invocation_error e
      | inr result => Returned (returncode result =? 0)
      end
  end.

(** The state after a row whose extraction ended with [r]. *)
Definition after_extraction (st : locals) (k : Z) (chromosome : string)
    (position : Z) (rsid : string) (r : outcome bool) : outcome locals :=
  match r with
  | Returned true =>
      Returned (Locals (successful_extractions st ++ [row_output chromosome position rsid])
                       (failed_regions st) (Some k))
  | Returned false =>
      Returned (Locals (successful_extractions st)
                       (failed_regions st ++ [failed_region_entry chromosome position])
                       (Some k))
  | Raised e => Raised e
  end.

(** No call of the environment raises [FileNotFoundError], the error the
    script takes for a missing executable. *)
Definition tool_found : Prop :=
  (forall history command e,
     subprocess_run env history command = inl e -> exc_cls e <> FileNotFoundError)
  /\ (forall p e, os_makedirs_error env p = Some e -> exc_cls e <> FileNotFoundError).

(** A panel row that [extract_samples] keeps. *)
Definition selected (sample_col_idx pop_col_idx : Z) (population_code : string)
    (row : list string) : bool :=
  bool_decide (Z.max sample_col_idx pop_col_idx < len row)
  && bool_decide (item row pop_col_idx = Some population_code).

(** The text of the allowlist file for the sample ids [ids]. *)
Definition allowlist_text (ids : list string) : string :=
  foldr (fun id rest => id +:+ NL +:+ rest) EmptyString ids.

(** The sample ids of the kept rows, in the order of the rows. *)
Definition sample_ids (sample_col_idx pop_col_idx : Z) (population_code : string)
    (rows : list (list string)) : list string :=
  omap (fun row =>
          if selected sample_col_idx pop_col_idx population_code row
          then item row sample_col_idx else None) rows.

(** Panel indexing succeeds from [w]: the panel has its two columns and at
    least one row of the population, and the allowlist file can be
    written. *)
Definition panel_indexes (w : world) : Prop :=
  exists text header rows sample_col_idx pop_col_idx,
    files w !! PANEL_FILE_LOCAL = Some text
    /\ csv_reader env false text = header :: rows
    /\ index_from 0 header "sample" = Some sample_col_idx
    /\ index_from 0 header "super_pop" = Some pop_col_idx
    /\ existsb (selected sample_col_idx pop_col_idx POPULATION_CODE) rows = true
    /\ open_w_error env SAMPLES_FILE = None.

(** The locus table of [w] opens with the header [header], which has the
    two required columns at [chr_col_idx] and [pos_col_idx], and has the
    data rows [rows]. *)
Definition table_opens (w : world) (header : list string)
    (rows : list (list string)) (chr_col_idx pos_col_idx : Z) : Prop :=
  exists text,
    files w !! REGIONS_FILE_TSV = Some text
    /\ csv_reader env true text = header :: rows
    /\ index_from 0 header "Chromosome" = Some chr_col_idx
    /\ index_from 0 header "Position_GRCh37" = Some pos_col_idx.

(** The column of the labels: the index of [rsID] in the header, or -1. *)
Definition rsid_column (header : list string) : Z :=
  default (-1) (index_from 0 header "rsID").

(** The final summary for [attempted] rows. *)
Definition summary_lines (attempted : Z) (successful failed : list string)
    : list string :=
  [NL +:+ "=== SCRIPT FINISHED ===";
   "Attempted to process " +:+ str_int attempted +:+ " regions from TSV.";
   "Successfully created VCFs (" +:+ str_int (len successful) +:+ "):"]
  ++ match failed with
     | [] => [NL +:+ "All regions processed successfully (check bcftools output above for details on empty regions)."]
     | _ :: _ =>
         (NL +:+ "Failed or skipped regions/rows (" +:+ str_int (len failed) +:+ "):")
         :: map (fun region_info => "  - " +:+ region_info) failed
     end.

(** An entry of the failure list: a region with its source, or a row. *)
Definition failure_entry (s : string) : Prop :=
  (exists chromosome position, s = failed_region_entry chromosome position)
  \/ (exists n row, s = invalid_row_entry n row).

(** What [extract_samples] returns and the files it leaves, by the cases
    of its input: no panel file, an allowlist file that cannot be opened,
    a panel without a header row, a header without one of the two columns,
    and the panel with both. The panel is read after the allowlist file has
    been emptied. *)
Definition indexing_result (panel_file code out : string)
    (fs : gmap string string) : outcome Z * gmap string string :=
  match fs !! panel_file with
  | None => (Raised (SystemExit 1), fs)
  | Some _ =>
      match open_w_error env out with
      | Some _ => (Raised (SystemExit 1), fs)
      | None =>
          let emptied := <[out := EmptyString]> fs in
          match csv_reader env false (default EmptyString (emptied !! panel_file)) with
          | [] => (Raised (SystemExit 1), emptied)
          | header :: rows =>
              match index_from 0 header "sample", index_from 0 header "super_pop" with
              | Some sc, Some pc =>
                  let ids := sample_ids sc pc code rows in
                  (if len ids >? 0 then Returned (len ids)
                   else Raised (SystemExit 1),
                   <[out := allowlist_text ids]> fs)
              | _, _ => (Raised (SystemExit 1), emptied)
              end
          end
      end
  end.

(** The statements of [main] that follow the call of [extract_samples]
    (lines 150 to 247). *)
Definition main_after_indexing : M unit :=
  print (NL +:+ "--- Step 4: Processing regions from TSV file: "
         +:+ REGIONS_FILE_TSV +:+ " ---") ;;
  regions_found <- isfile REGIONS_FILE_TSV ;;
  (if negb regions_found
   then
     print ("ERROR: Regions TSV file '" +:+ REGIONS_FILE_TSV +:+ "' not found!") ;;
     sys_exit 1
   else ret tt) ;;
  os_makedirs env OUTPUT_DIR ;;
  print ("Output VCFs will be saved in: " +:+ OUTPUT_DIR) ;;
  st <- process_regions env (Locals [] [] None) ;;
  finalize st.

(** The command the loop starts for a row of the table, if any: none for a
    row that fails to parse, none when the directory of the output file
    cannot be made. *)
Definition row_started (chr_col_idx pos_col_idx rsid_col_idx : Z)
    (ir : Z * list string) : option (list string) :=
  match locus_of_row chr_col_idx pos_col_idx rsid_col_idx (fst ir) (snd ir) with
  | Some (chromosome, position, rsid) =>
      match os_makedirs_error env
              (path_dirname (row_output chromosome position rsid)) with
      | Some _ => None
      | None => Some (row_command chromosome position rsid)
      end
  | None => None
  end.

(** [p in s] for strings: [p] occurs in [s]. *)
Fixpoint occurs (p s : string) : bool :=
  match s with
  | EmptyString => startswith p EmptyString
  | String _ rest => startswith p s || occurs p rest
  end.

(** Every character of [s] is in the class [P]; the class of the decimal
    digits. *)
Fixpoint all_chars (P : ascii -> bool) (s : string) : bool :=
  match s with
  | EmptyString => true
  | String c rest => P c && all_chars P rest
  end.

Definition isdigit (c : ascii) : bool := bool_decide (is_Some (digit_value c)).

(** The chromosome token as the specification describes it: the value
    without its [chr] prefix, the rest of the value left as it is. *)
Fixpoint drop_chars (n : nat) (s : string) : string :=
  match n, s with
  | S n', String _ rest => drop_chars n' rest
  | _, _ => s
  end.

Definition prefix_stripped (chromosome : string) : string :=
  if startswith "chr" chromosome then drop_chars 3 chromosome else chromosome.

(** How the loop body ends on a row: the row fails to parse and is skipped
    with its entry, its extraction succeeds with an output file or fails
    with an entry, or the invocation raises [FileNotFoundError], which ends
    the run. *)
Inductive verdict :=
  | Skipped (entry : string)
  | Extracted (output : string)
  | Failed (entry : string)
  | Fatal.

(** The verdict on the row [ir], after the commands [history]. *)
Definition row_verdict (chr_col_idx pos_col_idx rsid_col_idx : Z)
    (history : list (list string)) (ir : Z * list string) : verdict :=
  match locus_of_row chr_col_idx pos_col_idx rsid_col_idx (fst ir) (snd ir) with
  | None => Skipped (invalid_row_entry (fst ir + 2) (snd ir))
  | Some (chromosome, position, rsid) =>
      match run_bcftools_outcome history (row_command chromosome position rsid)
              (row_output chromosome position rsid) with
      | Returned true => Extracted (row_output chromosome position rsid)
      | Returned false => Failed (failed_region_entry chromosome position)
      | Raised _ => Fatal
      end
  end.

(** The verdicts on the rows of a table, in the order of the table: each
    row is judged after the commands that the rows before it started. *)
Fixpoint verdicts (chr_col_idx pos_col_idx rsid_col_idx : Z)
    (history : list (list string)) (irs : list (Z * list string)) : list verdict :=
  match irs with
  | [] => []
  | ir :: rest =>
      row_verdict chr_col_idx pos_col_idx rsid_col_idx history ir
      :: verdicts chr_col_idx pos_col_idx rsid_col_idx
           (history ++ match row_started chr_col_idx pos_col_idx rsid_col_idx ir with
                       | Some command => [command]
                       | None => []
                       end)
           rest
  end.

(** The output files of the extracted rows, and the entries of the skipped
    rows and failed regions. *)
Definition successes (vs : list verdict) : list string :=
  omap (fun v => match v with Extracted output => Some output | _ => None end) vs.

Definition failures (vs : list verdict) : list string :=
  omap (fun v => match v with
                 | Skipped entry | Failed entry => Some entry
                 | _ => None
                 end) vs.

(** The state after a row with the verdict [v]. *)
Definition after_verdict (st : locals) (k : Z) (v : verdict) : outcome locals :=
  match v with
  | Skipped entry | Failed entry =>
      Returned (Locals (successful_extractions st) (failed_regions st ++ [entry])
                       (Some k))
  | Extracted output =>
      Returned (Locals (successful_extractions st ++ [output]) (failed_regions st)
                       (Some k))
  | Fatal => Raised (SystemExit 1)
  end.

(** The name of the output file of a row, before it is joined to the
    output directory. *)
Definition output_name (rsid chromosome : string) (start_pos end_pos : Z) : string :=
  rsid +:+ "_chr" +:+ chromosome +:+ "_" +:+ str_int start_pos +:+ "_"
  +:+ str_int end_pos +:+ "_GRCh37_" +:+ POPULATION_CODE +:+ "_subset.vcf.gz".

End Vocabulary.

(** * Coordinate lookup of [script/01_get_loction_info.py]

    The script that precedes the region extractor: it reads variant
    identifiers, one per line, asks the Ensembl REST service for each of
    them and writes the table that the region extractor reads.

    Modelling conventions, besides those above.
    - The script is module-level code; it is embedded with explicit state
      passing over a [process] (text files, the two output streams, the
      URLs requested so far) and ends as an [ending].
    - What [requests] decides is [requests_get], a parameter: the exception
      or the response of a request, given the URLs requested before it.
      The handlers of the script tell three kinds of exceptions apart,
      which is all that [raised] records.
    - A decoded JSON document is a [value]; a [float] is kept as the text
      [str] gives for it.
    - Opening the input file fails only when the file does not exist, and
      errors raised while it is read are not modelled. A write to the
      output file shows in [files] at once; [time.sleep] and the closing of
      the files have no effect in the model. *)

Module Lookup.

(** ** Configuration (lines 6 to 10) *)

Definition input_filename : string := "data/GWAS_sign_SNP.txt".
Definition output_filename : string := "data/snp_coordinates_grch37.tsv".
Definition api_url_base : string :=
  "http://grch37.rest.ensembl.org/variation/homo_sapiens".

(** ** Text *)

(** The accented letters of the messages, as code points. *)
Definition e_acute : string := String "233"%char EmptyString.
Definition e_grave : string := String "232"%char EmptyString.
Definition e_circumflex : string := String "234"%char EmptyString.
Definition E_acute : string := String "201"%char EmptyString.

(** The lines that iterating over a text file yields, in universal-newline
    mode: a line ends at a line feed, at a carriage return or at the two in
    a row, and is yielded with a line feed at its end; what follows the
    last line end is a line if it is not empty. [acc] holds the characters
    of the current line, reversed. *)
Fixpoint lines_acc (acc : string) (s : string) : list string :=
  match s with
  | EmptyString =>
      match acc with
      | EmptyString => []
      | String _ _ => [String.rev acc]
      end
  | String c rest =>
      if decide (c = "010"%char)
      then String.rev (String "010"%char acc) :: lines_acc EmptyString rest
      else if decide (c = "013"%char)
      then String.rev (String "010"%char acc)
           :: match rest with
              | String c' rest' =>
                  if decide (c' = "010"%char) then lines_acc EmptyString rest'
                  else lines_acc EmptyString rest
              | EmptyString => lines_acc EmptyString rest
              end
      else lines_acc (String c acc) rest
  end.

Definition text_lines (text : string) : list string := lines_acc EmptyString text.

(** ** Decoded JSON *)

Record pyfloat := PyFloat { float_str : string; float_nonzero : bool }.

#[warnings="-register-all"]
Inductive value :=
  | VNone
  | VBool (b : bool)
  | VInt (n : Z)
  | VFloat (x : pyfloat)
  | VStr (s : string)
  | VList (l : list value)
  | VDict (d : list (string * value)).   (* the items, in the order of the dict *)

(** The exceptions of the look-ups in a decoded document. *)
Inductive lookup_error := KeyError | IndexError | TypeError | AttributeError.

Fixpoint dict_lookup (d : list (string * value)) (key : string) : option value :=
  match d with
  | [] => None
  | (k, v) :: rest => if decide (k = key) then Some v else dict_lookup rest key
  end.

(** [v[key]] for a [str] key. *)
Definition getitem_key (v : value) (key : string) : lookup_error + value :=
  match v with
  | VDict d =>
      match dict_lookup d key with
      | Some x => inr x
      | None => inl KeyError
      end
  | _ => inl TypeError
  end.

(** [v.get(key)]. *)
Definition get (v : value) (key : string) : lookup_error + value :=
  match v with
  | VDict d => inr (default VNone (dict_lookup d key))
  | _ => inl AttributeError
  end.

(** [v[0]]. *)
Definition getitem_0 (v : value) : lookup_error + value :=
  match v with
  | VList [] => inl IndexError
  | VList (x :: _) => inr x
  | VStr EmptyString => inl IndexError
  | VStr (String c _) => inr (VStr (String c EmptyString))
  | VDict _ => inl KeyError
  | _ => inl TypeError
  end.

(** The truth value of [v]. *)
Definition truthy (v : value) : bool :=
  match v with
  | VNone => false
  | VBool b => b
  | VInt n => negb (n =? 0)
  | VFloat x => float_nonzero x
  | VStr s => negb (bool_decide (s = EmptyString))
  | VList l => negb (bool_decide (l = []))
  | VDict d => negb (bool_decide (d = []))
  end.

(** [mapping and isinstance(mapping, list) and len(mapping) > 0] (line 70). *)
Definition usable (mapping : value) : bool :=
  truthy mapping
  && match mapping with
     | VList l => len l >? 0
     | _ => false
     end.

(** [v == s] for a [str] [s]. *)
Definition eq_str (v : value) (s : string) : bool :=
  match v with
  | VStr s' => bool_decide (s' = s)
  | _ => false
  end.

(** What a request, the status check or the decoding of the body raises, as
    the handlers of lines 89 and 95 see it. *)
Inductive raised :=
  | HTTPError (msg : string)          (* [requests.exceptions.HTTPError] *)
  | RequestException (msg : string)   (* under [RequestException], not under [HTTPError] *)
  | Unrelated (cls msg : string).     (* a class outside [RequestException] *)

Record response := Response {
  raise_for_status : option raised;
  json : raised + value
}.

(** ** The process *)

Record process := Process {
  files : gmap string string;     (* text files, by path *)
  stdout : list string;           (* what each [print] call wrote, line end included *)
  stderr : list string;
  requests : list string          (* the URLs given to [requests.get] *)
}.

Record counters := Counters { count_success : Z; count_fail : Z }.

(** An exception that no handler of the script catches. *)
Inductive uncaught :=
  | OfOpen (e : pyexc)
  | OfRequest (e : raised)
  | OfLookup (e : lookup_error).

Inductive ending :=
  | Finished
  | SysExit (code : Z)
  | Traceback (e : uncaught).

(** The statement after a step of the loop body: the next line, with the
    counters, or the propagation of an exception. *)
Inductive flow :=
  | Continue (c : counters)
  | Propagate (e : uncaught).

(** The exit status of the interpreter. *)
Definition exit_status (r : ending) : Z :=
  match r with
  | Finished => 0
  | SysExit n => n
  | Traceback _ => 1
  end.

Definition print_end (s e : string) (p : process) : process :=
  Process (files p) (stdout p ++ [s +:+ e]) (stderr p) (requests p).

Definition print (s : string) (p : process) : process := print_end s NL p.

Definition print_stderr (s : string) (p : process) : process :=
  Process (files p) (stdout p) (stderr p ++ [s +:+ NL]) (requests p).

(** [open(path, 'w')] when it succeeds, and [outfile.write(s)]. *)
Definition create (path : string) (p : process) : process :=
  Process (<[path := EmptyString]> (files p)) (stdout p) (stderr p) (requests p).

Definition write (s : string) (p : process) : process :=
  Process (<[output_filename := default EmptyString (files p !! output_filename) +:+ s]>
             (files p))
          (stdout p) (stderr p) (requests p).

(** A line of the output table. *)
Definition row (rsid chromosome position : string) : string :=
  rsid +:+ TAB +:+ chromosome +:+ TAB +:+ position +:+ NL.

Definition header : string := "rsID" +:+ TAB +:+ "Chromosome" +:+ TAB +:+ "Position_GRCh37" +:+ NL.

Definition rule : string := "-----------------------------------------------------".

(** ** The script *)

Section Script.

Variable env : environment.
Variable requests_get : list string -> string -> raised + response.

(** [repr(v)] and [str(v)], which an f-string uses. *)
Fixpoint repr_value (v : value) : string :=
  match v with
  | VNone => "None"
  | VBool true => "True"
  | VBool false => "False"
  | VInt n => str_int n
  | VFloat x => float_str x
  | VStr s => repr_str env s
  | VList l => "[" +:+ join ", " (map repr_value l) +:+ "]"
  | VDict d =>
      "{" +:+ join ", " (map (fun '(k, x) => repr_str env k +:+ ": " +:+ repr_value x) d)
      +:+ "}"
  end.

Definition str_value (v : value) : string :=
  match v with
  | VStr s => s
  | _ => repr_value v
  end.

(** Lines 54 to 60: the request, the status check and the decoding. *)
Definition fetch (request_url : string) (p : process) : (raised + value) * process :=
  let p' := Process (files p) (stdout p) (stderr p) (requests p ++ [request_url]) in
  match requests_get (requests p) request_url with
  | inl e => (inl e, p')
  | inr response =>
      match raise_for_status response with
      | Some e => (inl e, p')
      | None => (json response, p')
      end
  end.

(** Lines 65 and 66. *)
Definition root_coordinates (data : value) : lookup_error + (value * value) :=
  match getitem_key data "seq_region_name" with
  | inl e => inl e
  | inr chromosome =>
      match getitem_key data "start" with
      | inl e => inl e
      | inr position => inr (chromosome, position)
      end
  end.

(** Lines 69 to 75. *)
Definition mapping_coordinates (data : value) : lookup_error + (value * value) :=
  match get data "mappings" with
  | inl e => inl e
  | inr mapping =>
      if usable mapping
      then
        match getitem_0 mapping with
        | inl e => inl e
        | inr first =>
            match getitem_key first "seq_region_name" with
            | inl e => inl e
            | inr chromosome =>
                match getitem_key first "start" with
                | inl e => inl e
                | inr position => inr (chromosome, position)
                end
            end
        end
      else inl KeyError
  end.

(** How the [try] statement of lines 64 to 81 ends. *)
Inductive extraction :=
  | Coordinates (chromosome position : value)
  | ParseError
  | Escapes (e : lookup_error).

Definition extract (data : value) : extraction :=
  match root_coordinates data with
  | inr (chromosome, position) => Coordinates chromosome position
  | inl KeyError =>
      match mapping_coordinates data with
      | inr (chromosome, position) => Coordinates chromosome position
      | inl (KeyError | IndexError | TypeError) => ParseError
      | inl e => Escapes e
      end
  | inl e => Escapes e
  end.

(** Lines 99 to 104: the row of an identifier without coordinates. *)
Definition after_try (rsid : string) (chromosome position : value) (p : process)
    : process :=
  if eq_str chromosome "NA"
  then write (row rsid (str_value chromosome) (str_value position)) p
  else p.

(** The loop body (lines 40 to 104). *)
Definition body (line : string) (c : counters) (p : process) : flow * process :=
  let rsid := strip line in
  if decide (rsid = EmptyString) then (Continue c, p)
  else
    let p := print_end ("Traitement de " +:+ rsid +:+ " ... ") EmptyString p in
    let request_url := api_url_base +:+ "/" +:+ rsid +:+ "?content-type=application/json" in
    match fetch request_url p with
    | (inr data, p) =>
        match extract data with
        | Coordinates chromosome position =>
            let p := print ("OK (" +:+ str_value chromosome +:+ ":"
                            +:+ str_value position +:+ ")") p in
            let p := write (row rsid (str_value chromosome) (str_value position)) p in
            (Continue (Counters (count_success c + 1) (count_fail c)),
             after_try rsid chromosome position p)
        | ParseError =>
            let p := print (E_acute +:+ "chec (Structure JSON inattendue ou coordonn"
                            +:+ e_acute +:+ "es manquantes).") p in
            let p := write (row rsid "PARSE_ERROR" "PARSE_ERROR") p in
            (Continue (Counters (count_success c) (count_fail c + 1)), p)
        | Escapes e => (Propagate (OfLookup e), p)
        end
    | (inl (HTTPError http_err), p) =>
        let p := print (E_acute +:+ "chec (Erreur HTTP: " +:+ http_err +:+ ")") p in
        (Continue (Counters (count_success c) (count_fail c + 1)),
         after_try rsid (VStr "NA") (VStr "NA") p)
    | (inl (RequestException req_err), p) =>
        let p := print (E_acute +:+ "chec (Erreur Requ" +:+ e_circumflex +:+ "te: "
                        +:+ req_err +:+ ")") p in
        (Continue (Counters (count_success c) (count_fail c + 1)),
         after_try rsid (VStr "NA") (VStr "NA") p)
    | (inl e, p) => (Propagate (OfRequest e), p)
    end.

(** [for line in infile]. *)
Fixpoint loop (lines : list string) (c : counters) (p : process) : flow * process :=
  match lines with
  | [] => (Continue c, p)
  | line :: rest =>
      match body line c p with
      | (Continue c', p') => loop rest c' p'
      | (Propagate e, p') => (Propagate e, p')
      end
  end.

(** Lines 112 to 118. *)
Definition summary (c : counters) (p : process) : process :=
  let p := print (NL +:+ rule) p in
  let p := print ("Termin" +:+ e_acute +:+ ".") p in
  let p := print ("Succ" +:+ e_grave +:+ "s: " +:+ str_int (count_success c)) p in
  let p := print (E_acute +:+ "checs/Non trouv" +:+ e_acute +:+ "s/Erreurs: "
                  +:+ str_int (count_fail c)) p in
  let p := print ("R" +:+ e_acute +:+ "sultats sauvegard" +:+ e_acute +:+ "s dans : '"
                  +:+ output_filename +:+ "'") p in
  let p := print ("Veuillez v" +:+ e_acute +:+ "rifier le fichier de sortie.") p in
  print rule p.

(** The whole script. *)
Definition run (p : process) : ending * process :=
  match files p !! input_filename with
  | None =>
      (SysExit 1,
       print_stderr ("ERREUR: Le fichier d'input '" +:+ input_filename +:+ "' n'a pas "
                     +:+ e_acute +:+ "t" +:+ e_acute +:+ " trouv" +:+ e_acute +:+ "!") p)
  | Some text =>
      match open_w_error env output_filename with
      | Some e =>
          if issubclass (exc_cls e) OSError
          then
            (SysExit 1,
             print_stderr ("ERREUR: Impossible d'" +:+ e_acute
                           +:+ "crire dans le fichier de sortie '" +:+ output_filename
                           +:+ "'!") p)
          else (Traceback (OfOpen e), p)
      | None =>
          let p := create output_filename p in
          let p := write header p in
          let p := print ("Lecture des rsIDs depuis '" +:+ input_filename +:+ "'...") p in
          let p := print (E_acute +:+ "criture des coordonn" +:+ e_acute
                          +:+ "es GRCh37 dans '" +:+ output_filename +:+ "'...") p in
          match loop (text_lines text) (Counters 0 0) p with
          | (Continue c, p) => (Finished, summary c p)
          | (Propagate e, p) => (Traceback e, p)
          end
      end
  end.

End Script.

(** ** Vocabulary of the properties *)

(** The identifiers of the input: the stripped lines that are not empty. *)
Definition rsids (lines : list string) : list string :=
  filter (fun rsid => rsid <> EmptyString) (map strip lines).

Definition request_url (rsid : string) : string :=
  api_url_base +:+ "/" +:+ rsid +:+ "?content-type=application/json".

(** The lines of the input file of a process. *)
Definition input_lines (p : process) : list string :=
  text_lines (default EmptyString (files p !! input_filename)).

(** [fs'] is [fs] with [text] appended to the output file. *)
Definition appended (fs fs' : gmap string string) (text : string) : Prop :=
  (forall path, path <> output_filename -> fs' !! path = fs !! path)
  /\ default EmptyString (fs' !! output_filename)
     = default EmptyString (fs !! output_filename) +:+ text.

(** What the table holds for an identifier: one row, or the same row twice
    when its chromosome field is [NA]. *)
Definition table_entry (rsid entry : string) : Prop :=
  exists chromosome position,
    entry = row rsid chromosome position
    \/ (chromosome = "NA"
        /\ entry = row rsid chromosome position +:+ row rsid chromosome position).

(** ** Example inputs *)

(** A service that finds the first identifier at the root of the document,
    answers the second with an HTTP error, the third with a document
    without coordinates and the fourth with the chromosome [NA]; it cannot
    be reached after that. *)
Definition example_service (history : list string) (url : string) : raised + response :=
  match length history with
  | 0%nat =>
      inr (Response None
             (inr (VDict [("seq_region_name", VStr "1"); ("start", VInt 100000)])))
  | 1%nat => inr (Response (Some (HTTPError "404 Client Error: Not Found")) (inr VNone))
  | 2%nat => inr (Response None (inr (VDict [("mappings", VList [])])))
  | 3%nat =>
      inr (Response None
             (inr (VDict [("seq_region_name", VStr "NA"); ("start", VInt 7)])))
  | _ => inl (RequestException "Connection refused")
  end.

(** A service whose documents are lists. *)
Definition example_service_lists (history : list string) (url : string)
    : raised + response :=
  inr (Response None (inr (VList []))).

(** A service that always finds the chromosome [NA]. *)
Definition example_service_na (history : list string) (url : string)
    : raised + response :=
  inr (Response None
         (inr (VDict [("seq_region_name", VStr "NA"); ("start", VInt 7)]))).

(** A document with a chromosome but no position at its root, and both in
    its first mapping. *)
Definition example_document_partial_root : value :=
  VDict [("seq_region_name", VStr "1");
         ("mappings",
          VList [VDict [("seq_region_name", VStr "2"); ("start", VInt 5)];
                 VDict [("seq_region_name", VStr "3"); ("start", VInt 9)]])].

Definition example_input : string :=
  "rs1" +:+ NL +:+ "rs2" +:+ NL +:+ NL +:+ "  rs3  " +:+ NL +:+ "rs4" +:+ NL +:+ "rs5".

Definition example_process : process :=
  Process (<[input_filename := example_input]> ∅) [] [] [].

(** A process without the input file. *)
Definition example_process_no_input : process := Process ∅ [] [] [].

End Lookup.

(** * The table between the two scripts *)

(** A field without a tab and without a line feed. *)
Definition plain (s : string) : bool :=
  all_chars (fun c => negb (bool_decide (c = "009"%char))
                      && negb (bool_decide (c = "010"%char))) s.

(** A row of the table: the identifier, the chromosome field and the
    position field. *)
Definition table_row : Type := string * string * string.

Definition row_fields (r : table_row) : list string := [r.1.1; r.1.2; r.2].

Definition plain_row (r : table_row) : Prop :=
  plain r.1.1 = true /\ plain r.1.2 = true /\ plain r.2 = true.

(** The text of the table that the lookup writes when its rows are [rows]:
    the header line, then the lines of the rows. *)
Definition lookup_table (rows : list table_row) : string :=
  Lookup.header
  +:+ String.concat EmptyString (map (fun r => Lookup.row r.1.1 r.1.2 r.2) rows).

(** The rows of the table of the example run of the lookup. *)
Definition example_table_rows : list table_row :=
  [("rs1", "1", "100000"); ("rs2", "NA", "NA");
   ("rs3", "PARSE_ERROR", "PARSE_ERROR"); ("rs4", "NA", "7"); ("rs4", "NA", "7");
   ("rs5", "NA", "NA")].

(** The two values that the lookup writes in place of missing
    coordinates. *)
Definition placeholder (s : string) : Prop := s = "NA" \/ s = "PARSE_ERROR".

(** * Properties of the region extractor *)

(** ** The monad *)

Lemma bind_returned {A B} (m : M A) (k : A -> M B) w a w' :
  m w = (Returned a, w') -> bind m k w = k a w'.
Proof. intros H. unfold bind. by rewrite H. Qed.

Lemma bind_raised {A B} (m : M A) (k : A -> M B) w e w' :
  m w = (Raised e, w') -> bind m k w = (Raised e, w').
Proof. intros H. unfold bind. by rewrite H. Qed.

Lemma bind_print {B} (s : string) (k : unit -> M B) w :
  bind (print s) k w = k tt (World (files w) (stdout w ++ [s]) (calls w)).
Proof. reflexivity. Qed.

Lemma try_except_returned {A} (m : M A) cs w a w' :
  m w = (Returned a, w') -> try_except m cs w = (Returned a, w').
Proof. intros H. unfold try_except. by rewrite H. Qed.

Lemma try_except_exit {A} (m : M A) cs w n w' :
  m w = (Raised (SystemExit n), w') ->
  try_except m cs w = (Raised (SystemExit n), w').
Proof. intros H. unfold try_except. by rewrite H. Qed.

Lemma try_except_caught {A} (m : M A) cs w e w' h :
  m w = (Raised (Exc e), w') -> find_clause e cs = Some h ->
  try_except m cs w = h w'.
Proof. intros H Hc. unfold try_except. by rewrite H, Hc. Qed.

(** ** The region extractor *)

Section Extractor.

Variable env : environment.

(** [run_bcftools] leaves the files alone, starts the command unless the
    output directory cannot be made, and ends as [run_bcftools_outcome]
    says. *)
Lemma run_bcftools_spec
    (bcftools_cmd vcf_url_for_chr region samples_file output_vcf_file : string)
    (w : world) :
  let command :=
    bcftools_command bcftools_cmd vcf_url_for_chr region samples_file
      output_vcf_file in
  exists out,
    run_bcftools env bcftools_cmd vcf_url_for_chr region samples_file
      output_vcf_file w
    = (run_bcftools_outcome env (calls w) command output_vcf_file,
       World (files w) (stdout w ++ out)
         (match os_makedirs_error env (path_dirname output_vcf_file) with
          | Some _ => calls w
          | None => calls w ++ [command]
          end)).
Proof.
  intros command. unfold run_bcftools, run_bcftools_outcome.
  repeat (rewrite bind_print; cbn [files stdout calls]). fold command.
  unfold try_except, bind at 1, os_makedirs.
  destruct (os_makedirs_error env (path_dirname output_vcf_file)) as [e|] eqn:Hdir.
  - cbn [raise find_clause fst snd existsb orb].
    unfold on_invocation_error.
    destruct (issubclass (exc_cls e) FileNotFoundError) eqn:Hc; cbn [orb issubclass].
    + repeat (rewrite bind_print; cbn [files stdout calls]).
      cbn. rewrite <- !app_assoc. eauto.
    + repeat (rewrite bind_print; cbn [files stdout calls]).
      cbn. rewrite <- !app_assoc. eauto.
  - cbn [ret]. unfold bind at 1, run_process. cbn [calls files stdout].
    destruct (subprocess_run env (calls w) command) as [e|result] eqn:Hrun.
    + cbn [find_clause fst snd existsb orb]. unfold on_invocation_error.
      destruct (issubclass (exc_cls e) FileNotFoundError) eqn:Hc; cbn [orb issubclass];
        repeat (rewrite bind_print; cbn [files stdout calls]);
        cbn; rewrite <- !app_assoc; eauto.
    + destruct (returncode result =? 0) eqn:Hrc; cbn [negb].
      * rewrite bind_print. destruct (decide (proc_stderr result = EmptyString)).
        -- cbn. rewrite <- !app_assoc. eauto.
        -- rewrite bind_print. cbn. rewrite <- !app_assoc. eauto.
      * repeat (rewrite bind_print; cbn [files stdout calls]).
        cbn. rewrite <- !app_assoc. eauto.
Qed.

End Extractor.

(** ** The loop over the table *)

Section Loop.

Variable env : environment.

Lemma invalid_row_locus c p r k row :
  invalid_row c p r row -> locus_of_row c p r k row = None.
Proof.
  unfold invalid_row, locus_of_row.
  intros [H|[H|[(s & H & Hs)|[Hr H]]]].
  - by rewrite H.
  - rewrite H. by destruct (item row c).
  - rewrite H. destruct (item row c); [|done]. cbn. by rewrite Hs.
  - destruct (item row c) as [chromosome|]; [|done]. cbn.
    destruct (item row p) as [s|]; [|done]. cbn.
    destruct (int_of_str s) as [position|]; [|done]. cbn.
    destruct (Z.eqb_spec r (-1)); [done|]. cbn. by rewrite H.
Qed.

Lemma locus_of_row_None c p r k row :
  locus_of_row c p r k row = None -> invalid_row c p r row.
Proof.
  unfold invalid_row, locus_of_row. intros H.
  destruct (item row c) as [chromosome|] eqn:Hc; [|by left]. cbn in H.
  destruct (item row p) as [s|] eqn:Hp; [|by right; left]. cbn in H.
  destruct (int_of_str s) as [position|] eqn:Hs; [|right; right; left; eauto]. cbn in H.
  right; right; right.
  destruct (Z.eqb_spec r (-1)); [done|]. cbn in H.
  destruct (item row r) as [rsid|]; [done|]. done.
Qed.

Lemma locus_of_row_Some c p r k row chromosome position rsid :
  locus_of_row c p r k row = Some (chromosome, position, rsid) ->
  item row c = Some chromosome
  /\ (exists s, item row p = Some s /\ int_of_str s = Some position)
  /\ (if negb (r =? -1) then item row r
      else Some ("region_" +:+ str_int (k + 1))) = Some rsid.
Proof.
  unfold locus_of_row. intros H.
  destruct (item row c) as [chromosome'|] eqn:Hc; [|done]. cbn in H.
  destruct (item row p) as [s|] eqn:Hp; [|done]. cbn in H.
  destruct (int_of_str s) as [position'|] eqn:Hs; [|done]. cbn in H.
  destruct (if negb (r =? -1) then item row r else _) as [rsid'|] eqn:Hr; [|done].
  cbn in H. injection H as -> -> ->. eauto.
Qed.

Lemma process_row_invalid c p r k row st w :
  locus_of_row c p r k row = None ->
  exists msg,
    process_row env c p r (k, row) st w
    = (Returned (Locals (successful_extractions st)
                        (failed_regions st ++ [invalid_row_entry env (k + 2) row])
                        (Some k)),
       World (files w) (stdout w ++ [invalid_row_warning env (k + 2) row msg])
             (calls w)).
Proof.
  intros H. unfold process_row, try_except, locus_of_row in *.
  cbn [fst snd]. unfold bind at 1, getitem.
  destruct (item row c) as [chromosome|] eqn:Hc.
  2:{ cbn. eexists. reflexivity. }
  cbn [ret]. cbn in H. unfold bind at 1.
  destruct (item row p) as [s|] eqn:Hp.
  2:{ cbn. eexists. reflexivity. }
  cbn [ret]. cbn in H. unfold bind at 1, py_int.
  destruct (int_of_str s) as [position|] eqn:Hs.
  2:{ cbn. eexists. reflexivity. }
  cbn [ret]. cbn in H. unfold bind at 1.
  destruct (negb (r =? -1)); [|done].
  destruct (item row r) as [rsid|]; [done|].
  cbn. eexists. reflexivity.
Qed.

Lemma process_row_valid c p r k row st w chromosome position rsid :
  locus_of_row c p r k row = Some (chromosome, position, rsid) ->
  exists out,
    process_row env c p r (k, row) st w
    = (after_extraction st k chromosome position rsid
         (run_bcftools_outcome env (calls w)
            (row_command chromosome position rsid)
            (row_output chromosome position rsid)),
       World (files w) (stdout w ++ out)
         (match os_makedirs_error env
                  (path_dirname (row_output chromosome position rsid)) with
          | Some _ => calls w
          | None => calls w ++ [row_command chromosome position rsid]
          end)).
Proof.
  intros H. apply locus_of_row_Some in H as (Hc & (s & Hp & Hs) & Hr).
  unfold process_row, try_except. cbn [fst snd].
  unfold bind at 1, getitem. rewrite Hc. cbn [ret].
  unfold bind at 1. rewrite Hp. cbn [ret].
  unfold bind at 1, py_int. rewrite Hs. cbn [ret].
  unfold bind at 1.
  assert (Hrs : (if negb (r =? -1) then
                   match item row r with
                   | Some x => ret x
                   | None => raise (Exc (PyExc IndexError "list index out of range"))
                   end
                 else ret ("region_" +:+ str_int (k + 1))) w = (Returned rsid, w)).
  { destruct (negb (r =? -1)).
    - by rewrite Hr.
    - by injection Hr as ->. }
  rewrite Hrs. clear Hrs.
  unfold bind.
  destruct (run_bcftools_spec env BCFTOOLS_CMD
              (vcf_url (clean_chromosome chromosome))
              (region_string (clean_chromosome chromosome)
                 (fst (region_window REGION_WINDOW_SIZE position))
                 (snd (region_window REGION_WINDOW_SIZE position)))
              SAMPLES_FILE
              (output_path rsid chromosome
                 (fst (region_window REGION_WINDOW_SIZE position))
                 (snd (region_window REGION_WINDOW_SIZE position))) w)
    as [out Hrun].
  cbn zeta in Hrun. rewrite Hrun. clear Hrun.
  exists out.
  change (bcftools_command _ _ _ _ _) with (row_command chromosome position rsid).
  change (output_path _ _ _ _) with (row_output chromosome position rsid).
  unfold run_bcftools_outcome, on_invocation_error.
  destruct (os_makedirs_error env _) as [e|].
  - destruct (issubclass _ _); reflexivity.
  - destruct (subprocess_run env _ _) as [e|result].
    + destruct (issubclass _ _); reflexivity.
    + destruct (returncode result =? 0); reflexivity.
Qed.

Lemma try_except_transparent {A} (m : M A) cs w :
  (forall e w', m w <> (Raised (Exc e), w')) -> try_except m cs w = m w.
Proof.
  intros H. unfold try_except.
  destruct (m w) as [[a|[n|e]] w'] eqn:E; try done.
  by destruct (H e w').
Qed.

Lemma for_each_print {A} (f : A -> string) (l : list A) w :
  for_each l (fun x _ => print (f x)) tt w
  = (Returned tt, World (files w) (stdout w ++ map f l) (calls w)).
Proof.
  revert w. induction l as [|x l IH]; intros w; cbn [for_each map].
  - unfold ret. rewrite app_nil_r. by destruct w.
  - rewrite bind_print, IH. cbn. by rewrite <- app_assoc.
Qed.

(** The loop over a list is the loop over a prefix followed by the loop
    over the rest, which is not reached when the prefix raises. *)
Lemma for_each_app {A S} (l1 l2 : list A) (body : A -> S -> M S) s w :
  for_each (l1 ++ l2) body s w
  = bind (for_each l1 body s) (for_each l2 body) w.
Proof.
  revert s w. induction l1 as [|x l1 IH]; intros s w; [done|].
  cbn [app for_each]. unfold bind.
  destruct (body x s w) as [[s'|e] w']; [|done].
  rewrite IH. done.
Qed.

Lemma enumerate_from_app {A} (k : Z) (l1 l2 : list A) :
  enumerate_from k (l1 ++ l2)
  = enumerate_from k l1 ++ enumerate_from (k + Z.of_nat (length l1)) l2.
Proof.
  revert k. induction l1 as [|x l1 IH]; intros k; cbn.
  - by rewrite Z.add_0_r.
  - rewrite IH. do 3 f_equal. lia.
Qed.

Lemma len_app {A} (l1 l2 : list A) : len (l1 ++ l2) = len l1 + len l2.
Proof. unfold len. rewrite length_app. lia. Qed.

Lemma len_cons {A} (x : A) (l : list A) : len (x :: l) = len l + 1.
Proof. unfold len. cbn [length]. lia. Qed.

(** A step of the loop either returns the state with one more entry, in the
    list of successes or in the list of failures, or ends the process
    because a call raised [FileNotFoundError]. *)
Lemma process_row_step c p r k row st w res w' :
  process_row env c p r (k, row) st w = (res, w') ->
  files w' = files w
  /\ match res with
     | Returned st' =>
         i st' = Some k
         /\ ((successful_extractions st' = successful_extractions st
              /\ exists entry, failed_regions st' = failed_regions st ++ [entry]
                               /\ failure_entry env entry)
             \/ (failed_regions st' = failed_regions st
                 /\ exists path, successful_extractions st'
                                 = successful_extractions st ++ [path]))
     | Raised e => e = SystemExit 1 /\ ~ tool_found env
     end.
Proof.
  intros H.
  destruct (locus_of_row c p r k row) as [[[chromosome position] rsid]|] eqn:Hl.
  - destruct (process_row_valid c p r k row st w _ _ _ Hl) as [out Hv].
    rewrite Hv in H. injection H as <- <-. split; [done|].
    unfold run_bcftools_outcome, on_invocation_error, tool_found.
    destruct (os_makedirs_error env _) as [e|] eqn:Hdir.
    + destruct (issubclass _ _) eqn:Hc; cbn in *.
      * split; [done|]. intros [_ Hm]. apply (Hm _ _ Hdir). by apply bool_decide_eq_true in Hc.
      * split; [done|]. left. split; [done|]. eexists. split; [done|]. left. eauto.
    + destruct (subprocess_run env _ _) as [e|result] eqn:Hrun.
      * destruct (issubclass _ _) eqn:Hc; cbn in *.
        -- split; [done|]. intros [Hs _]. apply (Hs _ _ _ Hrun). by apply bool_decide_eq_true in Hc.
        -- split; [done|]. left. split; [done|]. eexists. split; [done|]. left. eauto.
      * destruct (returncode result =? 0); cbn.
        -- split; [done|]. right. eauto.
        -- split; [done|]. left. split; [done|]. eexists. split; [done|]. left. eauto.
  - destruct (process_row_invalid c p r k row st w Hl) as [msg Hi].
    rewrite Hi in H. injection H as <- <-. split; [done|]. cbn.
    split; [done|]. left. split; [done|]. eexists. split; [done|]. right. eauto.
Qed.

(** The loop as a whole: every row adds one entry. *)
Lemma loop_spec c p r rows : forall k st w res w',
  for_each (enumerate_from k rows) (process_row env c p r) st w = (res, w') ->
  files w' = files w
  /\ match res with
     | Returned st' =>
         i st' = match rows with [] => i st | _ :: _ => Some (k + len rows - 1) end
         /\ len (successful_extractions st') + len (failed_regions st')
            = len (successful_extractions st) + len (failed_regions st) + len rows
         /\ exists new, failed_regions st' = failed_regions st ++ new
                        /\ Forall (failure_entry env) new
     | Raised e => e = SystemExit 1 /\ ~ tool_found env
     end.
Proof.
  induction rows as [|row rows IH]; intros k st w res w' H.
  - cbn in H. injection H as <- <-. split; [done|]. split; [done|].
    split; [unfold len; cbn; lia|]. exists []. by rewrite app_nil_r.
  - cbn [enumerate_from for_each] in H. unfold bind in H.
    destruct (process_row env c p r (k, row) st w) as [[st1|e] w1] eqn:Hrow.
    + apply process_row_step in Hrow as [Hf1 [Hi1 Hlists]].
      apply IH in H as [Hf H]. split; [congruence|].
      destruct res as [st'|e]; [|done].
      destruct H as (Hi & Hlen & new & Hnew & Hall).
      split.
      { rewrite Hi. destruct rows; [rewrite Hi1; f_equal; unfold len; cbn; lia|].
        f_equal. rewrite !len_cons. lia. }
      split.
      { rewrite Hlen, len_cons.
        destruct Hlists as [[-> (entry & -> & _)]|[-> (path & ->)]];
          rewrite len_app; unfold len; cbn; lia. }
      destruct Hlists as [[_ (entry & He & Hent)]|[Hfl _]].
      * exists (entry :: new). rewrite Hnew, He, <- app_assoc. split; [done|].
        by constructor.
      * exists new. rewrite Hnew, Hfl. done.
    + injection H as <- <-. by apply process_row_step in Hrow.
Qed.

End Loop.

(** ** Header lookup *)

Lemma index_from_Some n l x k :
  index_from n l x = Some k ->
  n <= k < n + len l /\ l !! Z.to_nat (k - n) = Some x.
Proof.
  revert n. induction l as [|y l IH]; intros n H; [done|].
  cbn in H. rewrite len_cons. destruct (decide (y = x)) as [->|Hne].
  - injection H as <-. split; [unfold len; lia|]. by rewrite Z.sub_diag.
  - apply IH in H as [Hk Hl]. split; [lia|].
    replace (Z.to_nat (k - n)) with (S (Z.to_nat (k - (n + 1)))) by lia. done.
Qed.

Lemma index_from_None n l x : index_from n l x = None <-> x ∉ l.
Proof.
  revert n. induction l as [|y l IH]; intros n; cbn.
  - split; [intros _; apply not_elem_of_nil|done].
  - destruct (decide (y = x)) as [->|Hne].
    + split; [done|]. intros H. destruct H. by left.
    + rewrite IH, not_elem_of_cons. split; [by split|by intros [_ ?]].
Qed.

Lemma item_in_range (l : list string) k :
  0 <= k < len l -> exists x, item l k = Some x /\ l !! Z.to_nat k = Some x.
Proof.
  intros Hk. unfold item.
  destruct (Z.ltb_spec k 0); [lia|]. cbn.
  destruct (Z.ltb_spec k 0); [lia|].
  destruct (l !! Z.to_nat k) as [x|] eqn:E; [by exists x|].
  apply lookup_ge_None in E. unfold len in Hk. lia.
Qed.

(** ** The end of [main] and the loop inside its [try] statement *)

Section Finalize.

Variable env : environment.

Lemma finalize_bound (st : locals) (n : Z) w :
  i st = Some n ->
  finalize st w
  = (Returned tt,
     World (files w)
       (stdout w
        ++ [NL +:+ "--- Optional Cleanup ---";
            "Sample ID file (" +:+ SAMPLES_FILE +:+ ") kept."]
        ++ summary_lines (n + 1) (successful_extractions st) (failed_regions st))
       (calls w)).
Proof.
  intros Hi. unfold finalize, read_i, summary_lines. rewrite !bind_print, Hi.
  unfold bind at 1. cbn [ret]. rewrite !bind_print.
  destruct (failed_regions st) as [|entry rest].
  - unfold print. cbn. by rewrite <- !app_assoc.
  - rewrite bind_print. rewrite for_each_print. cbn [files stdout calls].
    by rewrite <- !app_assoc.
Qed.

Lemma finalize_unbound (st : locals) w :
  i st = None ->
  exists e w',
    finalize st w = (Raised (Exc e), w')
    /\ exc_cls e = UnboundLocalError
    /\ stdout w'
       = stdout w
         ++ [NL +:+ "--- Optional Cleanup ---";
             "Sample ID file (" +:+ SAMPLES_FILE +:+ ") kept.";
             NL +:+ "=== SCRIPT FINISHED ==="].
Proof.
  intros Hi. unfold finalize, read_i. rewrite !bind_print, Hi.
  eexists _, _. split; [reflexivity|]. split; [done|].
  cbn. by rewrite <- !app_assoc.
Qed.

Lemma process_regions_loop w header rows c p st :
  table_opens env w header rows c p ->
  process_regions env st w
  = for_each (enumerate rows) (process_row env c p (rsid_column header)) st w.
Proof.
  intros (text & Hfile & Hrows & Hc & Hp).
  unfold process_regions.
  rewrite try_except_transparent.
  - unfold bind at 1, open_read. rewrite Hfile.
    unfold bind at 1, reader_rows. rewrite Hfile. cbn [default from_option id]. rewrite Hrows.
    unfold bind at 1. cbn [next ret fst snd].
    unfold bind at 1, try_except, bind at 1, list_index. rewrite Hc. cbn [ret].
    unfold bind at 1. rewrite Hp. cbn [ret].
    unfold bind at 1, contains, rsid_column.
    destruct (index_from 0 header "rsID") as [r|] eqn:Hr.
    + rewrite bool_decide_eq_true_2; [reflexivity|].
      destruct (decide ("rsID" ∈ header)) as [|Hn]; [done|].
      apply (index_from_None 0) in Hn. congruence.
    + rewrite bool_decide_eq_false_2; [|by apply index_from_None in Hr].
      reflexivity.
  - intros e w' H.
    unfold bind at 1, open_read in H. rewrite Hfile in H.
    unfold bind at 1, reader_rows in H. rewrite Hfile in H. cbn [default from_option id] in H.
    rewrite Hrows in H.
    unfold bind at 1 in H. cbn [next ret fst snd] in H.
    unfold bind at 1, try_except, bind at 1, list_index in H. rewrite Hc in H.
    cbn [ret] in H. unfold bind at 1 in H. rewrite Hp in H. cbn [ret] in H.
    unfold bind at 1 in H.
    destruct ((if contains header "rsID"
               then match index_from 0 header "rsID" with
                    | Some n => ret n
                    | None => raise (Exc (PyExc ValueError
                                (repr_str env "rsID" +:+ " is not in list")))
                    end
               else ret (-1)) w) as [[r|ex] w1] eqn:Hr.
    + cbn [ret fst snd] in H. unfold enumerate in H.
      apply loop_spec in H as [_ [H _]]. done.
    + unfold contains in Hr.
      destruct (index_from 0 header "rsID") as [r|] eqn:Hi.
      * by destruct (bool_decide _).
      * rewrite bool_decide_eq_false_2 in Hr; [done|by apply index_from_None in Hi].
Qed.

End Finalize.

(** ** The panel indexer *)

Lemma append_assoc (a b c : string) : (a +:+ b) +:+ c = a +:+ b +:+ c.
Proof.
  induction a as [|x a IH]; [done|].
  change (String x ((a +:+ b) +:+ c) = String x (a +:+ b +:+ c)). by rewrite IH.
Qed.

Lemma append_nil_r (a : string) : a +:+ EmptyString = a.
Proof.
  induction a as [|x a IH]; [done|].
  change (String x (a +:+ EmptyString) = String x a). by rewrite IH.
Qed.

Section Panel.

Variable env : environment.

Lemma sample_ids_cons sc pc code row rows :
  sample_ids sc pc code (row :: rows)
  = match (if selected sc pc code row then item row sc else None) with
    | Some id => id :: sample_ids sc pc code rows
    | None => sample_ids sc pc code rows
    end.
Proof. reflexivity. Qed.

(** The loop of [extract_samples] appends the ids of the kept rows to the
    file and counts them. *)
Lemma extract_rows_spec sc pc code out rows :
  0 <= sc -> 0 <= pc ->
  forall n w cur,
    files w !! out = Some cur ->
    for_each rows (extract_samples_row sc pc code out) n w
    = (Returned (n + len (sample_ids sc pc code rows)),
       World (<[out := cur +:+ allowlist_text (sample_ids sc pc code rows)]> (files w))
             (stdout w) (calls w)).
Proof.
  intros Hsc Hpc. induction rows as [|row rows IH]; intros n w cur Hcur.
  - cbn. unfold ret, len. cbn. rewrite Z.add_0_r, append_nil_r, insert_id by done.
    by destruct w.
  - rewrite sample_ids_cons. cbn [for_each].
    unfold bind at 1, extract_samples_row.
    destruct (Z.gtb_spec (len row) (Z.max sc pc)) as [Hlen|Hlen].
    + destruct (item_in_range row pc) as (pop & Hpop & _); [lia|].
      destruct (item_in_range row sc) as (sample & Hsample & _); [lia|].
      unfold bind at 1 2, getitem. rewrite Hpop. cbn [ret].
      destruct (decide (pop = code)) as [->|Hne].
      * assert (Hsel : selected sc pc code row = true).
        { unfold selected. rewrite !bool_decide_eq_true_2; [done|done|lia]. }
        rewrite Hsel, Hsample. rewrite bool_decide_eq_true_2 by done.
        unfold bind at 1. cbn [ret]. unfold bind at 1, write. rewrite Hcur.
        cbn [default from_option id ret].
        erewrite IH; [|cbn; apply lookup_insert_eq].
        cbn [files stdout calls]. rewrite insert_insert_eq.
        f_equal; [f_equal; rewrite len_cons; lia|].
        f_equal. f_equal. cbn [allowlist_text foldr]. by rewrite !append_assoc.
      * assert (Hsel : selected sc pc code row = false).
        { unfold selected. rewrite (bool_decide_eq_false_2 (item row pc = Some code));
            [by rewrite andb_false_r|congruence]. }
        rewrite Hsel. rewrite bool_decide_eq_false_2 by done. cbn [ret].
        by apply IH.
    + assert (Hsel : selected sc pc code row = false).
      { unfold selected. rewrite (bool_decide_eq_false_2 (Z.max sc pc < len row)); [done|lia]. }
      rewrite Hsel. unfold bind at 1. cbn [ret]. by apply IH.
Qed.

(** [extract_samples] on a panel with both columns: the allowlist file
    holds the ids of the kept rows; the function returns their number, or
    ends the process when there is none. *)
Lemma extract_samples_spec panel_file code out w text header rows sc pc :
  files w !! panel_file = Some text ->
  panel_file <> out ->
  open_w_error env out = None ->
  csv_reader env false text = header :: rows ->
  index_from 0 header "sample" = Some sc ->
  index_from 0 header "super_pop" = Some pc ->
  exists printed,
    extract_samples env panel_file code out w
    = ((if len (sample_ids sc pc code rows) >? 0
        then Returned (len (sample_ids sc pc code rows))
        else Raised (SystemExit 1)),
       World (<[out := allowlist_text (sample_ids sc pc code rows)]> (files w))
             (stdout w ++ printed) (calls w)).
Proof.
  intros Hfile Hne Hopen Hrows Hs Hp.
  pose proof (index_from_Some _ _ _ _ Hs) as [[Hsc _] _].
  pose proof (index_from_Some _ _ _ _ Hp) as [[Hpc _] _].
  unfold extract_samples. rewrite bind_print.
  unfold try_except.
  unfold bind at 1. unfold bind at 1. unfold bind at 1, open_read.
  cbn [files]. rewrite Hfile.
  unfold bind at 1, open_write. rewrite Hopen. cbn [files stdout calls].
  unfold bind at 1, reader_rows. cbn [files].
  rewrite lookup_insert_ne by done. rewrite Hfile. cbn [default from_option id].
  rewrite Hrows. unfold bind at 1. cbn [next ret fst snd].
  unfold bind at 1, try_except, bind at 1, list_index. rewrite Hs. cbn [ret].
  unfold bind at 1. rewrite Hp. cbn [ret fst snd].
  unfold bind at 1.
  rewrite (extract_rows_spec sc pc code out rows Hsc Hpc 0 _ EmptyString)
    by (cbn; apply lookup_insert_eq).
  cbn [ret fst snd files stdout calls]. rewrite insert_insert_eq.
  change (EmptyString +:+ ?x) with x. rewrite Z.add_0_l.
  destruct (len (sample_ids sc pc code rows) >? 0).
  - rewrite bind_print. cbn. rewrite <- !app_assoc. eauto.
  - rewrite bind_print. cbn. rewrite <- !app_assoc. eauto.
Qed.

End Panel.

(** ** The whole run *)

Section Run.

Variable env : environment.

Lemma sample_ids_nonempty sc pc code rows :
  0 <= sc ->
  existsb (selected sc pc code) rows = true ->
  (len (sample_ids sc pc code rows) >? 0) = true.
Proof.
  intros Hsc. induction rows as [|row rows IH]; [done|].
  rewrite sample_ids_cons. cbn [existsb].
  destruct (selected sc pc code row) eqn:Hsel.
  - intros _. unfold selected in Hsel. apply andb_true_iff in Hsel as [Hlen _].
    apply bool_decide_eq_true in Hlen.
    destruct (item_in_range row sc) as (id & -> & _); [lia|].
    rewrite len_cons. apply Z.gtb_lt. unfold len. lia.
  - cbn. done.
Qed.

Lemma config_paths_distinct :
  PANEL_FILE_LOCAL <> SAMPLES_FILE /\ SAMPLES_FILE <> REGIONS_FILE_TSV.
Proof. split; discriminate. Qed.

(** A run whose inputs are in order gets to the loop over the data rows
    without starting any command, and ends with [finalize]. *)
Lemma main_reaches_loop w header rows c p :
  panel_indexes env w ->
  os_makedirs_error env OUTPUT_DIR = None ->
  table_opens env w header rows c p ->
  exists w1,
    calls w1 = calls w
    /\ main env w
       = (st <- for_each (enumerate rows)
                  (process_row env c p (rsid_column header)) (Locals [] [] None) ;;
          finalize st) w1.
Proof.
  intros (text & pheader & prows & sc & pc & Hfile & Hrows & Hs & Hp & Hsel & Hopen)
         Hdir Htable.
  destruct config_paths_distinct as [Hne1 Hne2].
  pose proof (index_from_Some _ _ _ _ Hs) as [[Hsc _] _].
  unfold main. rewrite bind_print.
  unfold bind at 1, isfile. cbn [files].
  rewrite Hfile. rewrite bool_decide_eq_true_2 by eauto. cbn [negb].
  unfold bind at 1. cbn [print].
  unfold bind at 1.
  match goal with
  | |- context [extract_samples env ?a ?b ?d ?w0] =>
      destruct (extract_samples_spec env a b d w0 text pheader prows sc pc
                  Hfile Hne1 Hopen Hrows Hs Hp) as [printed Hex]
  end.
  rewrite Hex. clear Hex.
  rewrite (sample_ids_nonempty sc pc POPULATION_CODE prows Hsc Hsel).
  rewrite bind_print. cbn [files stdout calls].
  destruct Htable as (ttext & Htfile & Htable).
  unfold bind at 1, isfile. cbn [files].
  rewrite lookup_insert_ne by done. rewrite Htfile.
  rewrite bool_decide_eq_true_2 by eauto. cbn [negb].
  unfold bind at 1. cbn [ret]. unfold bind at 1, os_makedirs. rewrite Hdir. cbn [ret].
  rewrite bind_print. cbn [files stdout calls].
  eexists. split; [|unfold bind at 1; erewrite process_regions_loop; [reflexivity|]].
  - reflexivity.
  - exists ttext. cbn [files]. rewrite lookup_insert_ne by done. done.
Qed.

(** An exit raised inside the loop is the exit of the run: nothing in
    [main] catches [SystemExit]. *)
Lemma loop_exit_ends_main w header rows c p :
  panel_indexes env w ->
  os_makedirs_error env OUTPUT_DIR = None ->
  table_opens env w header rows c p ->
  exists w1,
    calls w1 = calls w
    /\ forall n w2,
         for_each (enumerate rows) (process_row env c p (rsid_column header))
           (Locals [] [] None) w1 = (Raised (SystemExit n), w2) ->
         main env w = (Raised (SystemExit n), w2)
         /\ exit_status (fst (main env w)) = n.
Proof.
  intros Hpanel Hdir Htable.
  destruct (main_reaches_loop w header rows c p Hpanel Hdir Htable)
    as (w1 & Hcalls & Hmain).
  exists w1. split; [exact Hcalls|]. intros n w2 Hloop.
  rewrite Hmain, (bind_raised _ _ _ _ _ Hloop). done.
Qed.

End Run.

(** ** The verdicts on the rows *)

Section Verdicts.

Variable env : environment.

(** One iteration of the loop ends as the verdict on its row says, and
    adds the command of the row, if one is started, to the commands. *)
Lemma process_row_verdict c p r ir st w :
  exists out,
    process_row env c p r ir st w
    = (after_verdict st (fst ir) (row_verdict env c p r (calls w) ir),
       World (files w) (stdout w ++ out)
         (calls w ++ match row_started env c p r ir with
                     | Some command => [command]
                     | None => []
                     end)).
Proof.
  destruct ir as [k row]. unfold row_verdict, row_started. cbn [fst snd].
  destruct (locus_of_row c p r k row) as [[[chromosome position] rsid]|] eqn:Hl.
  - destruct (process_row_valid env c p r k row st w _ _ _ Hl) as [out ->].
    exists out. unfold run_bcftools_outcome, on_invocation_error.
    destruct (os_makedirs_error env _) as [e|].
    + rewrite app_nil_r. by destruct (issubclass _ _).
    + destruct (subprocess_run env _ _) as [e|result].
      * by destruct (issubclass _ _).
      * by destruct (returncode result =? 0).
  - destruct (process_row_invalid env c p r k row st w Hl) as [msg ->].
    exists [invalid_row_warning env (k + 2) row msg]. by rewrite app_nil_r.
Qed.

Lemma successes_cons (v : verdict) (vs : list verdict) :
  successes (v :: vs)
  = match v with
    | Extracted output => output :: successes vs
    | _ => successes vs
    end.
Proof. by destruct v. Qed.

Lemma failures_cons (v : verdict) (vs : list verdict) :
  failures (v :: vs)
  = match v with
    | Skipped entry | Failed entry => entry :: failures vs
    | _ => failures vs
    end.
Proof. by destruct v. Qed.

(** When no verdict is fatal the loop returns, with the output files of the
    extracted rows added to the successes and the entries of the other rows
    added to the failures, in the order of the table. *)
Lemma loop_verdicts c p r rows : forall k st w,
  Forall (fun v => v <> Fatal)
    (verdicts env c p r (calls w) (enumerate_from k rows)) ->
  exists st' w',
    for_each (enumerate_from k rows) (process_row env c p r) st w = (Returned st', w')
    /\ successful_extractions st'
       = successful_extractions st
         ++ successes (verdicts env c p r (calls w) (enumerate_from k rows))
    /\ failed_regions st'
       = failed_regions st
         ++ failures (verdicts env c p r (calls w) (enumerate_from k rows)).
Proof.
  induction rows as [|row rows IH]; intros k st w Hvs.
  - exists st, w. cbn. by rewrite !app_nil_r.
  - cbn [enumerate_from verdicts for_each] in Hvs |- *.
    apply Forall_cons in Hvs as [Hv Hvs].
    destruct (process_row_verdict c p r (k, row) st w) as [out Hrow].
    cbn [fst] in Hrow.
    destruct (row_verdict env c p r (calls w) (k, row)) as [entry|output|entry|] eqn:Hverdict;
      [| | |done]; cbn [after_verdict] in Hrow;
      rewrite (bind_returned _ _ _ _ _ Hrow);
      match goal with
      | |- context [for_each _ _ ?st1 ?w1] =>
          destruct (IH (k + 1) st1 w1 Hvs) as (st' & w' & -> & Hs & Hf)
      end;
      cbn [calls successful_extractions failed_regions] in Hs, Hf;
      exists st', w'; (split; [reflexivity|]);
      rewrite successes_cons, failures_cons, Hs, Hf, <- ?app_assoc; done.
Qed.

Lemma len_successes_failures (vs : list verdict) :
  Forall (fun v => v <> Fatal) vs ->
  len (successes vs) + len (failures vs) = len vs.
Proof.
  induction 1 as [|v vs Hv _ IH]; [done|].
  rewrite successes_cons, failures_cons. rewrite !len_cons in *.
  destruct v; [| | |done]; rewrite ?len_cons; lia.
Qed.

Lemma verdicts_length c p r history irs :
  length (verdicts env c p r history irs) = length irs.
Proof.
  revert history. induction irs as [|ir irs IH]; intros history; [done|].
  cbn [verdicts length]. by rewrite IH.
Qed.

Lemma enumerate_from_length {A} (k : Z) (l : list A) :
  length (enumerate_from k l) = length l.
Proof.
  revert k. induction l as [|x l IH]; intros k; [done|].
  cbn [enumerate_from length]. by rewrite IH.
Qed.

End Verdicts.

(** ** The properties of the specification *)

Section Properties.

Variable env : environment.

(** C1: a data row that fails to parse (a column missing at its index, a
    row that is too short, a position that is no integer) is recorded in
    the failure list with its 1-based position in the table, the header
    being row 1, and with its raw content; no command is started for it, the
    iteration returns instead of raising, and the loop goes on with the rows
    that follow. *)
Theorem invalid_row_recorded_and_loop_continues
    (c p r : Z) (header : list string) (rows : list (list string)) (k : nat)
    (row : list string) (rest : list (list string)) (st : locals) (w : world) :
  invalid_row c p r row ->
  drop k rows = row :: rest ->
  exists msg,
    let n := Z.of_nat k + 2 in
    let st' := Locals (successful_extractions st)
                      (failed_regions st ++ [invalid_row_entry env n row])
                      (Some (Z.of_nat k)) in
    let w' := World (files w) (stdout w ++ [invalid_row_warning env n row msg])
                    (calls w) in
    (header :: rows) !! Z.to_nat (n - 1) = Some row
    /\ process_row env c p r (Z.of_nat k, row) st w = (Returned st', w')
    /\ calls w' = calls w
    /\ for_each (enumerate_from (Z.of_nat k) (row :: rest)) (process_row env c p r) st w
       = for_each (enumerate_from (Z.of_nat k + 1) rest) (process_row env c p r) st' w'.
Proof.
  intros Hinv Hdrop.
  destruct (process_row_invalid env c p r (Z.of_nat k) row st w
              (invalid_row_locus c p r _ row Hinv)) as [msg Hrow].
  exists msg. cbn zeta. split; [|split; [exact Hrow|split; [done|]]].
  - replace (Z.to_nat (Z.of_nat k + 2 - 1)) with (S k) by lia.
    assert (Hk : drop k rows !! 0%nat = Some row) by (by rewrite Hdrop).
    rewrite lookup_drop, Nat.add_0_r in Hk. exact Hk.
  - cbn [enumerate_from for_each]. by rewrite (bind_returned _ _ _ _ _ Hrow).
Qed.

(** C2: when the external process is started, [run_bcftools] returns, and
    it returns success exactly when the exit status is zero, whatever the
    process wrote to its output and error streams. *)
Theorem run_bcftools_success_iff_zero_status
    (bcftools_cmd vcf_url_for_chr region samples_file output_vcf_file : string)
    (w : world) (result : completed) :
  os_makedirs_error env (path_dirname output_vcf_file) = None ->
  subprocess_run env (calls w)
    (bcftools_command bcftools_cmd vcf_url_for_chr region samples_file
       output_vcf_file) = inr result ->
  exists ok : bool,
    fst (run_bcftools env bcftools_cmd vcf_url_for_chr region samples_file
           output_vcf_file w) = Returned ok
    /\ (ok = true <-> returncode result = 0)
    /\ (ok = false <-> returncode result <> 0).
Proof.
  intros Hdir Hrun.
  destruct (run_bcftools_spec env bcftools_cmd vcf_url_for_chr region samples_file
              output_vcf_file w) as [out ->].
  unfold run_bcftools_outcome. rewrite Hdir, Hrun. cbn [fst].
  exists (returncode result =? 0). split; [done|].
  destruct (Z.eqb_spec (returncode result) 0); split; split; congruence.
Qed.

(** The window of a position: the bounds that hold for a positive position
    and a non-negative half-window. *)
Lemma region_window_bounds (W position : Z) :
  0 <= W -> 0 < position ->
  fst (region_window W position) <= position <= snd (region_window W position)
  /\ 1 <= fst (region_window W position).
Proof. unfold region_window. cbn. lia. Qed.

(** A parsed row starts exactly one command, the one of its region. *)
Lemma process_row_valid_calls c p r k row st w chromosome position rsid :
  locus_of_row c p r k row = Some (chromosome, position, rsid) ->
  os_makedirs_error env (path_dirname (row_output chromosome position rsid)) = None ->
  calls (snd (process_row env c p r (k, row) st w))
  = calls w ++ [row_command chromosome position rsid].
Proof.
  intros Hl Hdir.
  destruct (process_row_valid env c p r k row st w _ _ _ Hl) as [out ->].
  cbn [snd calls]. by rewrite Hdir.
Qed.

(** C3, at a chromosome value in which [chr] occurs twice: the row
    [(rs9, chrUn_chr9, 100000)] is a valid locus row and its window is as
    the claim says, from [max(1, p - W)] = 90000 to [p + W] = 110000, which
    contains the position; but the region given to the extractor after
    [-r] is [Un_9:90000-110000], not the value without its prefix,
    [Un_chr9], followed by the window. The [chr] inside the value is gone
    as well: the defect of C8. *)
Theorem region_of_a_value_with_inner_chr (k : Z) (st : locals) (w : world) :
  os_makedirs_error env (path_dirname (row_output "chrUn_chr9" 100000 "rs9")) = None ->
  locus_of_row 1 2 0 k example_row_Un = Some ("chrUn_chr9", 100000, "rs9")
  /\ 0 < 100000
  /\ Z.max 1 (100000 - REGION_WINDOW_SIZE) = 90000
  /\ 100000 + REGION_WINDOW_SIZE = 110000
  /\ prefix_stripped "chrUn_chr9" = "Un_chr9"
  /\ exists command,
       calls (snd (process_row env 1 2 0 (k, example_row_Un) st w))
       = calls w ++ [command]
       /\ command !! 3%nat = Some "-r"
       /\ command !! 4%nat = Some "Un_9:90000-110000"
       /\ command !! 4%nat
          <> Some (prefix_stripped "chrUn_chr9" +:+ ":" +:+ str_int 90000 +:+ "-"
                   +:+ str_int 110000).
Proof.
  intros Hdir.
  assert (Hl : locus_of_row 1 2 0 k example_row_Un = Some ("chrUn_chr9", 100000, "rs9"))
    by reflexivity.
  split; [exact Hl|]. split; [lia|]. split; [reflexivity|]. split; [reflexivity|].
  split; [reflexivity|].
  exists (row_command "chrUn_chr9" 100000 "rs9").
  split; [by apply process_row_valid_calls|].
  split; [reflexivity|]. split; [reflexivity|]. by vm_compute.
Qed.


(** C9, as the code has it: a row whose fields are there and whose
    position field parses to an integer, positive or not, is not rejected:
    the extractor is invoked for it on the window from
    [max(1, position - W)] to [position + W]. The command for that window
    is started, exactly once, unless the directory of the output file
    cannot be made; then none is started. The row is entered as a success
    when the invocation returns success and as a failed region when it
    returns failure, and the run ends when the invocation raises
    [FileNotFoundError]. *)
Theorem parsed_row_is_extracted_whatever_the_sign
    (c p r k : Z) (row : list string) (st : locals) (w : world)
    (chromosome : string) (position : Z) (rsid : string) :
  locus_of_row c p r k row = Some (chromosome, position, rsid) ->
  let result := process_row env c p r (k, row) st w in
  let command := row_command chromosome position rsid in
  let output := row_output chromosome position rsid in
  command !! 4%nat
  = Some (clean_chromosome chromosome +:+ ":"
          +:+ str_int (Z.max 1 (position - REGION_WINDOW_SIZE)) +:+ "-"
          +:+ str_int (position + REGION_WINDOW_SIZE))
  /\ calls (snd result)
     = match os_makedirs_error env (path_dirname output) with
       | None => calls w ++ [command]
       | Some _ => calls w
       end
  /\ fst result
     = match run_bcftools_outcome env (calls w) command output with
       | Returned true =>
           Returned (Locals (successful_extractions st ++ [output])
                            (failed_regions st) (Some k))
       | Returned false =>
           Returned (Locals (successful_extractions st)
                            (failed_regions st
                             ++ [failed_region_entry chromosome position])
                            (Some k))
       | Raised _ => Raised (SystemExit 1)
       end
  /\ (fst result = Raised (SystemExit 1) <->
      exists e,
        exc_cls e = FileNotFoundError
        /\ (os_makedirs_error env (path_dirname output) = Some e
            \/ (os_makedirs_error env (path_dirname output) = None
                /\ subprocess_run env (calls w) command = inl e))).
Proof.
  intros Hl result command output. subst result command output.
  destruct (process_row_valid env c p r k row st w _ _ _ Hl) as [out ->].
  cbn [fst snd calls]. split; [done|]. split; [by destruct (os_makedirs_error env _)|].
  unfold run_bcftools_outcome, on_invocation_error, after_extraction.
  cbn [issubclass].
  destruct (os_makedirs_error env _) as [e|].
  - destruct (bool_decide (exc_cls e = FileNotFoundError)) eqn:Hc.
    + apply bool_decide_eq_true in Hc. split; [done|]. split; [|done].
      intros _. exists e. split; [done|by left].
    + apply bool_decide_eq_false in Hc. split; [done|]. split; [done|].
      intros (e' & He' & [[= <-]|[[=] _]]). done.
  - destruct (subprocess_run env _ _) as [e|result].
    + destruct (bool_decide (exc_cls e = FileNotFoundError)) eqn:Hc.
      * apply bool_decide_eq_true in Hc. split; [done|]. split; [|done].
        intros _. exists e. split; [done|]. right. done.
      * apply bool_decide_eq_false in Hc. split; [done|]. split; [done|].
        intros (e' & He' & [[=]|[_ [= <-]]]). done.
    + split; [by destruct (returncode result =? 0)|]. split.
      * by destruct (returncode result =? 0).
      * intros (e' & _ & [[=]|[_ [=]]]).
Qed.

Lemma sample_ids_rows sc pc code rows :
  0 <= sc ->
  Forall2 (fun row id => item row sc = Some id)
    (filter (fun row => selected sc pc code row = true) rows)
    (sample_ids sc pc code rows).
Proof.
  intros Hsc. induction rows as [|row rows IH]; [constructor|].
  rewrite sample_ids_cons, filter_cons.
  destruct (selected sc pc code row) eqn:Hsel.
  - rewrite decide_True by done.
    unfold selected in Hsel. apply andb_true_iff in Hsel as [Hlen _].
    apply bool_decide_eq_true in Hlen.
    destruct (item_in_range row sc) as (id & Hid & _); [lia|].
    rewrite Hid. by constructor.
  - rewrite decide_False by done. done.
Qed.

(** C4: the allowlist file holds, one per line and in the order of the
    panel, the sample ids of exactly the rows that are longer than both
    column indices and whose population column equals the code; the other
    rows, the short ones among them, add nothing. *)
Theorem allowlist_is_the_selected_rows_in_order
    (panel_file code out : string) (w : world) (text : string)
    (header : list string) (rows : list (list string)) (sc pc : Z) :
  files w !! panel_file = Some text ->
  panel_file <> out ->
  open_w_error env out = None ->
  csv_reader env false text = header :: rows ->
  index_from 0 header "sample" = Some sc ->
  index_from 0 header "super_pop" = Some pc ->
  let kept row := Z.max sc pc < len row /\ item row pc = Some code in
  exists ids : list string,
    files (snd (extract_samples env panel_file code out w)) !! out
    = Some (allowlist_text ids)
    /\ Forall2 (fun row id => item row sc = Some id) (filter kept rows) ids.
Proof.
  intros Hfile Hne Hopen Hrows Hs Hp kept.
  destruct (extract_samples_spec env panel_file code out w text header rows sc pc
              Hfile Hne Hopen Hrows Hs Hp) as [printed ->].
  pose proof (index_from_Some _ _ _ _ Hs) as [[Hsc _] _].
  exists (sample_ids sc pc code rows). cbn [snd files]. split.
  - apply lookup_insert_eq.
  - replace (filter kept rows)
      with (filter (fun row => selected sc pc code row = true) rows).
    + by apply sample_ids_rows.
    + apply list_filter_iff. intros row. unfold selected, kept.
      rewrite andb_true_iff, !bool_decide_eq_true. done.
Qed.

Lemma sample_ids_none sc pc code rows :
  existsb (selected sc pc code) rows = false -> sample_ids sc pc code rows = [].
Proof.
  induction rows as [|row rows IH]; [done|].
  rewrite sample_ids_cons. cbn [existsb]. intros [Hsel Hrest]%orb_false_iff.
  rewrite Hsel. by apply IH.
Qed.

(** [extract_samples] never starts a command, and it either returns or
    ends the process with status 1. *)
Lemma extract_samples_zero_matches panel_file code out w text header rows sc pc :
  files w !! panel_file = Some text ->
  panel_file <> out ->
  csv_reader env false text = header :: rows ->
  index_from 0 header "sample" = Some sc ->
  index_from 0 header "super_pop" = Some pc ->
  existsb (selected sc pc code) rows = false ->
  exists w',
    extract_samples env panel_file code out w = (Raised (SystemExit 1), w')
    /\ calls w' = calls w
    /\ (open_w_error env out = None -> files w' = <[out := EmptyString]> (files w)).
Proof.
  intros Hfile Hne Hrows Hs Hp Hnone.
  destruct (open_w_error env out) as [e|] eqn:Hopen.
  - unfold extract_samples. rewrite bind_print.
    unfold try_except.
    unfold bind at 1. unfold bind at 1. unfold bind at 1, open_read.
    cbn [files]. rewrite Hfile.
    unfold bind at 1, open_write. rewrite Hopen. cbn [find_clause fst snd existsb].
    destruct (issubclass (exc_cls e) FileNotFoundError); cbn [orb issubclass];
      rewrite bind_print; cbn; (eexists; split; [reflexivity|by split]).
  - destruct (extract_samples_spec env panel_file code out w text header rows sc pc
                Hfile Hne Hopen Hrows Hs Hp) as [printed ->].
    rewrite (sample_ids_none _ _ _ _ Hnone). cbn.
    eexists; split; [reflexivity|by split].
Qed.

(** C5: when no panel row matches the population code, the run ends with
    [sys.exit(1)], a non-zero exit status, and no command has been started:
    no locus is processed. *)
Theorem zero_matches_end_the_run
    (w : world) (text : string) (header : list string)
    (rows : list (list string)) (sc pc : Z) :
  files w !! PANEL_FILE_LOCAL = Some text ->
  csv_reader env false text = header :: rows ->
  index_from 0 header "sample" = Some sc ->
  index_from 0 header "super_pop" = Some pc ->
  existsb (selected sc pc POPULATION_CODE) rows = false ->
  exists w',
    main env w = (Raised (SystemExit 1), w')
    /\ exit_status (fst (main env w)) <> 0
    /\ calls w' = calls w.
Proof.
  intros Hfile Hrows Hs Hp Hnone.
  destruct config_paths_distinct as [Hne1 _].
  cut (exists w', main env w = (Raised (SystemExit 1), w') /\ calls w' = calls w).
  { intros (w' & Hm & Hc). exists w'. rewrite Hm. done. }
  unfold main. rewrite bind_print.
  unfold bind at 1, isfile. cbn [files].
  rewrite Hfile. rewrite bool_decide_eq_true_2 by eauto. cbn [negb].
  unfold bind at 1. cbn [print].
  unfold bind at 1.
  match goal with
  | |- context [extract_samples env ?a ?b ?d ?w0] =>
      destruct (extract_samples_zero_matches a b d w0 text header rows sc pc
                  Hfile Hne1 Hrows Hs Hp Hnone) as (w' & Hex & Hcalls & _)
  end.
  rewrite Hex. cbn in Hcalls |- *. by exists w'.
Qed.

(** C10: when [extract_samples] ends the process because no row matched,
    the allowlist file exists and is empty; unless it was already there and
    empty, the files are not what they were before the call. *)
Theorem zero_matches_leave_empty_allowlist
    (panel_file code out : string) (w : world) (text : string)
    (header : list string) (rows : list (list string)) (sc pc : Z) :
  files w !! panel_file = Some text ->
  panel_file <> out ->
  open_w_error env out = None ->
  csv_reader env false text = header :: rows ->
  index_from 0 header "sample" = Some sc ->
  index_from 0 header "super_pop" = Some pc ->
  existsb (selected sc pc code) rows = false ->
  exists w',
    extract_samples env panel_file code out w = (Raised (SystemExit 1), w')
    /\ files w' !! out = Some EmptyString
    /\ (forall path, path <> out -> files w' !! path = files w !! path)
    /\ (files w !! out <> Some EmptyString -> files w' <> files w).
Proof.
  intros Hfile Hne Hopen Hrows Hs Hp Hnone.
  destruct (extract_samples_zero_matches panel_file code out w text header rows sc pc
              Hfile Hne Hrows Hs Hp Hnone) as (w' & Hex & _ & Hfiles).
  exists w'. split; [done|]. rewrite (Hfiles Hopen). split; [|split].
  - apply lookup_insert_eq.
  - intros path Hpath. by rewrite lookup_insert_ne.
  - intros Hold Heq. apply Hold. rewrite <- Heq. apply lookup_insert_eq.
Qed.

(** C7, as the code has it: a run whose panel indexing succeeds, whose
    output directory can be made, whose table opens with the required
    columns and has at least one data row, and in which no invocation of
    the tool raises [FileNotFoundError] (no verdict is fatal), returns
    after printing the final summary: the number of data rows, the number
    of rows that were extracted and, when there are failures, their number
    and one line for each, in the order of the table, which names the
    region with its source for a failed extraction and the row with its
    number and content for a row that did not parse. Every row is counted
    once. *)
Theorem summary_printed_after_the_rows
    (w : world) (header : list string) (rows : list (list string)) (c p : Z) :
  panel_indexes env w ->
  os_makedirs_error env OUTPUT_DIR = None ->
  table_opens env w header rows c p ->
  rows <> [] ->
  let vs := verdicts env c p (rsid_column header) (calls w) (enumerate rows) in
  Forall (fun v => v <> Fatal) vs ->
  exists w' before,
    main env w = (Returned tt, w')
    /\ stdout w' = before ++ summary_lines (len rows) (successes vs) (failures vs)
    /\ len (successes vs) + len (failures vs) = len rows
    /\ Forall (failure_entry env) (failures vs).
Proof.
  intros Hpanel Hdir Htable Hrows vs Hvs. subst vs.
  destruct (main_reaches_loop env w header rows c p Hpanel Hdir Htable)
    as (w1 & Hcalls & ->).
  rewrite <- Hcalls in Hvs |- *. unfold enumerate in *.
  destruct (loop_verdicts env c p (rsid_column header) rows 0 (Locals [] [] None) w1 Hvs)
    as (st & w2 & Hloop & Hs & Hf).
  unfold bind at 1. rewrite Hloop.
  cbn [successful_extractions failed_regions app] in Hs, Hf.
  apply loop_spec in Hloop as (_ & Hi & _ & new & Hnew & Hall).
  cbn [failed_regions app] in Hnew.
  destruct rows as [|row rows]; [done|].
  rewrite (finalize_bound st _ w2 Hi).
  eexists _, _. split; [reflexivity|]. cbn [stdout]. split; [|split].
  - rewrite app_assoc, Hs, Hf. do 3 f_equal. lia.
  - rewrite (len_successes_failures _ Hvs). unfold len.
    by rewrite verdicts_length, enumerate_from_length.
  - by rewrite <- Hf, Hnew.
Qed.

(** On a table without data rows the loop never binds [i]: the run ends
    with the uncaught [UnboundLocalError] of [i+1], before the counts are
    printed. *)
Lemma empty_table_ends_in_error
    (w : world) (header : list string) (c p : Z) :
  panel_indexes env w ->
  os_makedirs_error env OUTPUT_DIR = None ->
  table_opens env w header [] c p ->
  exists e w',
    main env w = (Raised (Exc e), w')
    /\ exc_cls e = UnboundLocalError
    /\ exit_status (Raised (A := unit) (Exc e)) = 1
    /\ last (stdout w') = Some (NL +:+ "=== SCRIPT FINISHED ===").
Proof.
  intros Hpanel Hdir Htable.
  destruct (main_reaches_loop env w header [] c p Hpanel Hdir Htable)
    as (w1 & _ & ->).
  unfold bind at 1. cbn [enumerate enumerate_from for_each ret].
  destruct (finalize_unbound (Locals [] [] None) w1 eq_refl) as (e & w' & -> & Hc & Hout).
  exists e, w'. split; [done|]. split; [done|]. split; [done|].
  rewrite Hout, last_app. done.
Qed.

End Properties.

(** ** The properties on the example inputs *)

(** Facts about the example inputs hold by running the definitions. *)
Ltac by_running := vm_compute; reflexivity.

Ltac example_panel_indexes :=
  exists (table_text example_panel), ["sample"; "pop"; "super_pop"; "gender"],
    (tail example_panel), 0, 2;
  split; [by_running|]; split; [by_running|]; repeat split; reflexivity.

Ltac example_table_opens :=
  exists (table_text (example_header :: example_rows));
  split; [by_running|]; split; [by_running|]; split; reflexivity.

Lemma invalid_row_recorded_example :
  invalid_row 1 2 0 example_bad_row
  /\ drop 2 example_rows = example_bad_row :: [["rs4"]]
  /\ exists msg,
       (example_header :: example_rows) !! 3%nat = Some example_bad_row
       /\ process_row (example_env tool_ok) 1 2 0 (2, example_bad_row)
            example_locals example_run_world
          = (Returned (Locals [] [invalid_row_entry (example_env tool_ok) 4 example_bad_row]
                        (Some 2)),
             World (files example_run_world)
               [invalid_row_warning (example_env tool_ok) 4 example_bad_row msg] [])
       /\ @nil (list string) = calls example_run_world
       /\ for_each (enumerate_from 2 [example_bad_row; ["rs4"]])
            (process_row (example_env tool_ok) 1 2 0) example_locals example_run_world
          = for_each (enumerate_from 3 [["rs4"]])
              (process_row (example_env tool_ok) 1 2 0)
              (Locals [] [invalid_row_entry (example_env tool_ok) 4 example_bad_row]
                 (Some 2))
              (World (files example_run_world)
                 [invalid_row_warning (example_env tool_ok) 4 example_bad_row msg] []).
Proof.
  assert (Hinv : invalid_row 1 2 0 example_bad_row).
  { right; right; left. exists "abc". split; reflexivity. }
  assert (Hdrop : drop 2 example_rows = example_bad_row :: [["rs4"]]) by reflexivity.
  split; [exact Hinv|]. split; [exact Hdrop|].
  exact (invalid_row_recorded_and_loop_continues (example_env tool_ok) 1 2 0
           example_header example_rows 2 example_bad_row [["rs4"]] example_locals
           example_run_world Hinv Hdrop).
Defined.

Lemma run_bcftools_status_example :
  os_makedirs_error (example_env tool_ok) (path_dirname "output_vcfs/rs1.vcf.gz") = None
  /\ subprocess_run (example_env tool_ok) (calls example_run_world)
       (bcftools_command BCFTOOLS_CMD (vcf_url "1") "1:90000-110000" SAMPLES_FILE
          "output_vcfs/rs1.vcf.gz")
     = inr (Completed 0 EmptyString "[W::vcf_parse] index loaded")
  /\ exists ok : bool,
       fst (run_bcftools (example_env tool_ok) BCFTOOLS_CMD (vcf_url "1")
              "1:90000-110000" SAMPLES_FILE "output_vcfs/rs1.vcf.gz"
              example_run_world) = Returned ok
       /\ (ok = true <-> 0 = 0)
       /\ (ok = false <-> 0 <> 0).
Proof.
  split; [reflexivity|]. split; [reflexivity|].
  exact (run_bcftools_success_iff_zero_status (example_env tool_ok) BCFTOOLS_CMD
           (vcf_url "1") "1:90000-110000" SAMPLES_FILE "output_vcfs/rs1.vcf.gz"
           example_run_world (Completed 0 EmptyString "[W::vcf_parse] index loaded")
           eq_refl eq_refl).
Defined.

Lemma region_of_a_value_with_inner_chr_example :
  os_makedirs_error (example_env tool_ok)
    (path_dirname (row_output "chrUn_chr9" 100000 "rs9")) = None
  /\ locus_of_row 1 2 0 0 example_row_Un = Some ("chrUn_chr9", 100000, "rs9")
  /\ 0 < 100000
  /\ Z.max 1 (100000 - REGION_WINDOW_SIZE) = 90000
  /\ 100000 + REGION_WINDOW_SIZE = 110000
  /\ prefix_stripped "chrUn_chr9" = "Un_chr9"
  /\ exists command,
       calls (snd (process_row (example_env tool_ok) 1 2 0 (0, example_row_Un)
                     example_locals example_run_world))
       = calls example_run_world ++ [command]
       /\ command !! 3%nat = Some "-r"
       /\ command !! 4%nat = Some "Un_9:90000-110000"
       /\ command !! 4%nat
          <> Some (prefix_stripped "chrUn_chr9" +:+ ":" +:+ str_int 90000 +:+ "-"
                   +:+ str_int 110000).
Proof.
  split; [reflexivity|].
  exact (region_of_a_value_with_inner_chr (example_env tool_ok) 0 example_locals
           example_run_world eq_refl).
Defined.

(** The row [(rs2, chrX, 50)]: the region is [X:1-10050]. *)
Example region_of_chrX_50 :
  row_region "chrX" 50 = "X:1-10050"
  /\ vcf_url (clean_chromosome "chrX")
     = BASE_VCF_FTP_PATH
       +:+ "ALL.chrX.phase3_shapeit2_mvncall_integrated_v5b.20130502.genotypes.vcf.gz".
Proof. split; reflexivity. Qed.

(** The row [(rs1, 1, 100000)]: the region is [1:90000-110000]. *)
Example region_of_1_100000 : row_region "1" 100000 = "1:90000-110000".
Proof. reflexivity. Qed.

Lemma allowlist_example :
  files example_run_world !! PANEL_FILE_LOCAL = Some (table_text example_panel)
  /\ PANEL_FILE_LOCAL <> SAMPLES_FILE
  /\ open_w_error (example_env tool_ok) SAMPLES_FILE = None
  /\ csv_reader (example_env tool_ok) false (table_text example_panel)
     = ["sample"; "pop"; "super_pop"; "gender"] :: tail example_panel
  /\ index_from 0 ["sample"; "pop"; "super_pop"; "gender"] "sample" = Some 0
  /\ index_from 0 ["sample"; "pop"; "super_pop"; "gender"] "super_pop" = Some 2
  /\ exists ids : list string,
       files (snd (extract_samples (example_env tool_ok) PANEL_FILE_LOCAL
                     POPULATION_CODE SAMPLES_FILE example_run_world)) !! SAMPLES_FILE
       = Some (allowlist_text ids)
       /\ Forall2 (fun row id => item row 0 = Some id)
            (filter (fun row => Z.max 0 2 < len row /\ item row 2 = Some POPULATION_CODE)
               (tail example_panel))
            ids.
Proof.
  assert (Hfile : files example_run_world !! PANEL_FILE_LOCAL
                  = Some (table_text example_panel)) by by_running.
  assert (Hne : PANEL_FILE_LOCAL <> SAMPLES_FILE) by discriminate.
  assert (Hrows : csv_reader (example_env tool_ok) false (table_text example_panel)
                  = ["sample"; "pop"; "super_pop"; "gender"] :: tail example_panel)
    by by_running.
  split; [exact Hfile|]. split; [exact Hne|]. split; [reflexivity|].
  split; [exact Hrows|]. split; [reflexivity|]. split; [reflexivity|].
  exact (allowlist_is_the_selected_rows_in_order (example_env tool_ok)
           PANEL_FILE_LOCAL POPULATION_CODE SAMPLES_FILE example_run_world
           (table_text example_panel) ["sample"; "pop"; "super_pop"; "gender"]
           (tail example_panel) 0 2 Hfile Hne eq_refl Hrows eq_refl eq_refl).
Defined.

(** On the example panel the allowlist is [sampleA], [sampleD]. *)
Example allowlist_of_example_panel :
  files (snd (extract_samples (example_env tool_ok) PANEL_FILE_LOCAL
                POPULATION_CODE SAMPLES_FILE example_run_world)) !! SAMPLES_FILE
  = Some ("sampleA" +:+ NL +:+ "sampleD" +:+ NL).
Proof. vm_compute. reflexivity. Qed.

Lemma zero_matches_end_the_run_example :
  files (example_world example_panel_no_match (example_header :: example_rows))
    !! PANEL_FILE_LOCAL = Some (table_text example_panel_no_match)
  /\ csv_reader (example_env tool_ok) false (table_text example_panel_no_match)
     = ["sample"; "pop"; "super_pop"; "gender"] :: tail example_panel_no_match
  /\ index_from 0 ["sample"; "pop"; "super_pop"; "gender"] "sample" = Some 0
  /\ index_from 0 ["sample"; "pop"; "super_pop"; "gender"] "super_pop" = Some 2
  /\ existsb (selected 0 2 POPULATION_CODE) (tail example_panel_no_match) = false
  /\ exists w',
       main (example_env tool_ok)
         (example_world example_panel_no_match (example_header :: example_rows))
       = (Raised (SystemExit 1), w')
       /\ exit_status
            (fst (main (example_env tool_ok)
                    (example_world example_panel_no_match
                       (example_header :: example_rows)))) <> 0
       /\ calls w' = [].
Proof.
  assert (Hfile : files (example_world example_panel_no_match
                           (example_header :: example_rows)) !! PANEL_FILE_LOCAL
                  = Some (table_text example_panel_no_match))
    by by_running.
  assert (Hrows : csv_reader (example_env tool_ok) false
                    (table_text example_panel_no_match)
                  = ["sample"; "pop"; "super_pop"; "gender"]
                    :: tail example_panel_no_match)
    by by_running.
  split; [exact Hfile|]. split; [exact Hrows|]. split; [reflexivity|].
  split; [reflexivity|]. split; [reflexivity|].
  exact (zero_matches_end_the_run (example_env tool_ok)
           (example_world example_panel_no_match (example_header :: example_rows))
           (table_text example_panel_no_match) ["sample"; "pop"; "super_pop"; "gender"]
           (tail example_panel_no_match) 0 2 Hfile Hrows eq_refl eq_refl eq_refl).
Defined.

Lemma zero_matches_leave_empty_allowlist_example :
  files (example_world example_panel_no_match (example_header :: example_rows))
    !! PANEL_FILE_LOCAL = Some (table_text example_panel_no_match)
  /\ PANEL_FILE_LOCAL <> SAMPLES_FILE
  /\ open_w_error (example_env tool_ok) SAMPLES_FILE = None
  /\ csv_reader (example_env tool_ok) false (table_text example_panel_no_match)
     = ["sample"; "pop"; "super_pop"; "gender"] :: tail example_panel_no_match
  /\ index_from 0 ["sample"; "pop"; "super_pop"; "gender"] "sample" = Some 0
  /\ index_from 0 ["sample"; "pop"; "super_pop"; "gender"] "super_pop" = Some 2
  /\ existsb (selected 0 2 POPULATION_CODE) (tail example_panel_no_match) = false
  /\ exists w',
       extract_samples (example_env tool_ok) PANEL_FILE_LOCAL POPULATION_CODE
         SAMPLES_FILE
         (example_world example_panel_no_match (example_header :: example_rows))
       = (Raised (SystemExit 1), w')
       /\ files w' !! SAMPLES_FILE = Some EmptyString
       /\ (forall path, path <> SAMPLES_FILE ->
           files w' !! path
           = files (example_world example_panel_no_match
                      (example_header :: example_rows)) !! path)
       /\ (files (example_world example_panel_no_match
                    (example_header :: example_rows)) !! SAMPLES_FILE
           <> Some EmptyString ->
           files w' <> files (example_world example_panel_no_match
                                (example_header :: example_rows))).
Proof.
  assert (Hfile : files (example_world example_panel_no_match
                           (example_header :: example_rows)) !! PANEL_FILE_LOCAL
                  = Some (table_text example_panel_no_match))
    by by_running.
  assert (Hne : PANEL_FILE_LOCAL <> SAMPLES_FILE) by discriminate.
  assert (Hrows : csv_reader (example_env tool_ok) false
                    (table_text example_panel_no_match)
                  = ["sample"; "pop"; "super_pop"; "gender"]
                    :: tail example_panel_no_match)
    by by_running.
  split; [exact Hfile|]. split; [exact Hne|]. split; [reflexivity|].
  split; [exact Hrows|]. split; [reflexivity|]. split; [reflexivity|].
  split; [reflexivity|].
  exact (zero_matches_leave_empty_allowlist (example_env tool_ok) PANEL_FILE_LOCAL
           POPULATION_CODE SAMPLES_FILE
           (example_world example_panel_no_match (example_header :: example_rows))
           (table_text example_panel_no_match) ["sample"; "pop"; "super_pop"; "gender"]
           (tail example_panel_no_match) 0 2 Hfile Hne eq_refl Hrows eq_refl eq_refl
           eq_refl).
Defined.



(** A missing executable ends the run on the first valid row, with exit
    status 1 and without the summary: the last line printed is the advice
    about the path of the tool. *)
Example missing_executable_ends_the_run :
  fst (main (example_env tool_missing) example_run_world) = Raised (SystemExit 1)
  /\ last (stdout (snd (main (example_env tool_missing) example_run_world)))
     = Some "  Please ensure bcftools is installed and the path in BCFTOOLS_CMD is correct."
  /\ length (calls (snd (main (example_env tool_missing) example_run_world))) = 1%nat.
Proof. vm_compute. done. Qed.

(** A tool that cannot be started for another reason fails every region
    and the run goes on to the summary. *)
Example unstarted_tool_fails_each_region :
  fst (main (example_env tool_not_started) example_run_world) = Returned tt
  /\ length (calls (snd (main (example_env tool_not_started) example_run_world))) = 2%nat.
Proof. vm_compute. done. Qed.

Lemma parsed_row_is_extracted_example :
  locus_of_row 1 2 0 0 example_row_negative = Some ("1", -5, "rs5")
  /\ (let result :=
        process_row (example_env tool_ok) 1 2 0 (0, example_row_negative)
          example_locals example_run_world in
      let command := row_command "1" (-5) "rs5" in
      let output := row_output "1" (-5) "rs5" in
      command !! 4%nat
      = Some (clean_chromosome "1" +:+ ":"
              +:+ str_int (Z.max 1 (-5 - REGION_WINDOW_SIZE)) +:+ "-"
              +:+ str_int (-5 + REGION_WINDOW_SIZE))
      /\ calls (snd result)
         = match os_makedirs_error (example_env tool_ok) (path_dirname output) with
           | None => calls example_run_world ++ [command]
           | Some _ => calls example_run_world
           end
      /\ fst result
         = match run_bcftools_outcome (example_env tool_ok) (calls example_run_world)
                   command output with
           | Returned true =>
               Returned (Locals (successful_extractions example_locals ++ [output])
                                (failed_regions example_locals) (Some 0))
           | Returned false =>
               Returned (Locals (successful_extractions example_locals)
                                (failed_regions example_locals
                                 ++ [failed_region_entry "1" (-5)])
                                (Some 0))
           | Raised _ => Raised (SystemExit 1)
           end
      /\ (fst result = Raised (SystemExit 1) <->
          exists e,
            exc_cls e = FileNotFoundError
            /\ (os_makedirs_error (example_env tool_ok) (path_dirname output) = Some e
                \/ (os_makedirs_error (example_env tool_ok) (path_dirname output) = None
                    /\ subprocess_run (example_env tool_ok) (calls example_run_world)
                         command = inl e)))).
Proof.
  assert (Hl : locus_of_row 1 2 0 0 example_row_negative = Some ("1", -5, "rs5"))
    by reflexivity.
  split; [exact Hl|].
  exact (parsed_row_is_extracted_whatever_the_sign (example_env tool_ok) 1 2 0 0
           example_row_negative example_locals example_run_world "1" (-5) "rs5" Hl).
Defined.

(** C9, as the claim states it, fails on the row [(rs5, 1, -5)]: its
    position parses to the integer -5, which is not positive, and yet a
    command is started for the region [1:1-9995], the output file is entered
    as a success and the failure list stays empty. *)
Lemma negative_position_row_is_extracted :
  int_of_str "-5" = Some (-5)
  /\ -5 <= 0
  /\ calls (snd (process_row (example_env tool_ok) 1 2 0 (0, example_row_negative)
                   example_locals example_run_world))
     <> calls example_run_world
  /\ calls (snd (process_row (example_env tool_ok) 1 2 0 (0, example_row_negative)
                   example_locals example_run_world)) !! 0%nat
     = Some [BCFTOOLS_CMD; "view"; vcf_url "1"; "-r"; "1:1-9995"; "-S"; SAMPLES_FILE;
             "-O"; "z"; "-o"; "output_vcfs/rs5_chr1_1_9995_GRCh37_SAS_subset.vcf.gz"]
  /\ fst (process_row (example_env tool_ok) 1 2 0 (0, example_row_negative)
            example_locals example_run_world)
     = Returned (Locals ["output_vcfs/rs5_chr1_1_9995_GRCh37_SAS_subset.vcf.gz"] []
                   (Some 0)).
Proof.
  split; [reflexivity|]. split; [lia|]. split; [by vm_compute|].
  split; vm_compute; reflexivity.
Qed.

(** C8: what [clean_chromosome] does to a value where [chr] occurs after the
    start as well: every occurrence goes, so the rest of the token is not
    left as it was. *)
Theorem clean_chromosome_removes_every_chr :
  clean_chromosome "chrUn_chr9" = "Un_9"
  /\ clean_chromosome "chrUn_chr9" <> "Un_chr9"
  /\ row_region "chrUn_chr9" 100000 = "Un_9:90000-110000".
Proof. split; [reflexivity|]. split; [by vm_compute|reflexivity]. Qed.

(** A leading [chr] is dropped; the scan then goes on through the rest. *)
Lemma clean_chromosome_prefix (token : string) :
  clean_chromosome ("chr" +:+ token) = clean_chromosome token.
Proof. reflexivity. Qed.

Example clean_chromosome_chrX : clean_chromosome "chrX" = "X".
Proof. reflexivity. Qed.

Lemma summary_printed_example :
  panel_indexes (example_env tool_fails) example_run_world
  /\ os_makedirs_error (example_env tool_fails) OUTPUT_DIR = None
  /\ table_opens (example_env tool_fails) example_run_world example_header
       example_rows 1 2
  /\ example_rows <> []
  /\ Forall (fun v => v <> Fatal)
       (verdicts (example_env tool_fails) 1 2 (rsid_column example_header)
          (calls example_run_world) (enumerate example_rows))
  /\ exists w' before,
       main (example_env tool_fails) example_run_world = (Returned tt, w')
       /\ stdout w'
          = before
            ++ summary_lines (len example_rows)
                 (successes
                    (verdicts (example_env tool_fails) 1 2 (rsid_column example_header)
                       (calls example_run_world) (enumerate example_rows)))
                 (failures
                    (verdicts (example_env tool_fails) 1 2 (rsid_column example_header)
                       (calls example_run_world) (enumerate example_rows)))
       /\ len (successes
                 (verdicts (example_env tool_fails) 1 2 (rsid_column example_header)
                    (calls example_run_world) (enumerate example_rows)))
          + len (failures
                   (verdicts (example_env tool_fails) 1 2 (rsid_column example_header)
                      (calls example_run_world) (enumerate example_rows)))
          = len example_rows
       /\ Forall (failure_entry (example_env tool_fails))
            (failures
               (verdicts (example_env tool_fails) 1 2 (rsid_column example_header)
                  (calls example_run_world) (enumerate example_rows))).
Proof.
  assert (Hpanel : panel_indexes (example_env tool_fails) example_run_world).
  { example_panel_indexes. }
  assert (Htable : table_opens (example_env tool_fails) example_run_world
                     example_header example_rows 1 2).
  { example_table_opens. }
  assert (Hrows : example_rows <> []) by discriminate.
  assert (Hverdicts :
            Forall (fun v => v <> Fatal)
              (verdicts (example_env tool_fails) 1 2 (rsid_column example_header)
                 (calls example_run_world) (enumerate example_rows))).
  { vm_compute. repeat first [apply Forall_nil_2 | apply Forall_cons_2; [discriminate|]]. }
  split; [exact Hpanel|]. split; [reflexivity|]. split; [exact Htable|].
  split; [exact Hrows|]. split; [exact Hverdicts|].
  exact (summary_printed_after_the_rows (example_env tool_fails) example_run_world
           example_header example_rows 1 2 Hpanel eq_refl Htable Hrows Hverdicts).
Defined.

(** The verdicts of that run, and those of a run with a working tool. *)
Example verdicts_of_the_example_runs :
  verdicts (example_env tool_fails) 1 2 0 [] (enumerate example_rows)
  = [Failed ("1:90000-110000 (Source: " +:+ vcf_url "1" +:+ ")");
     Failed ("X:1-10050 (Source: " +:+ vcf_url "X" +:+ ")");
     Skipped "Row 4 (Invalid Data: ['rs3', '2', 'abc'])";
     Skipped "Row 5 (Invalid Data: ['rs4'])"]
  /\ verdicts (example_env tool_ok) 1 2 0 [] (enumerate example_rows)
     = [Extracted "output_vcfs/rs1_chr1_90000_110000_GRCh37_SAS_subset.vcf.gz";
        Extracted "output_vcfs/rs2_chrchrX_1_10050_GRCh37_SAS_subset.vcf.gz";
        Skipped "Row 4 (Invalid Data: ['rs3', '2', 'abc'])";
        Skipped "Row 5 (Invalid Data: ['rs4'])"]
  /\ verdicts (example_env tool_missing) 1 2 0 [] (enumerate example_rows) !! 0%nat
     = Some Fatal.
Proof. split; [by_running|]. split; by_running. Qed.

(** What the summary of that run is: four rows, no success, two failed
    regions and two invalid rows. *)
Example summary_of_failing_run :
  drop 34 (stdout (snd (main (example_env tool_fails) example_run_world)))
  = summary_lines 4 []
      ["1:90000-110000 (Source: " +:+ vcf_url "1" +:+ ")";
       "X:1-10050 (Source: " +:+ vcf_url "X" +:+ ")";
       "Row 4 (Invalid Data: ['rs3', '2', 'abc'])";
       "Row 5 (Invalid Data: ['rs4'])"].
Proof. vm_compute. reflexivity. Qed.

(** C7, as the claim states it, fails when the executable is missing: the
    panel indexes, the table opens with its columns and has data rows, and
    the run ends on the first row with exit status 1 without printing a
    summary. *)
Lemma summary_missing_when_executable_missing :
  panel_indexes (example_env tool_missing) example_run_world
  /\ table_opens (example_env tool_missing) example_run_world example_header
       example_rows 1 2
  /\ fst (main (example_env tool_missing) example_run_world) = Raised (SystemExit 1)
  /\ forall before attempted successful failed,
       stdout (snd (main (example_env tool_missing) example_run_world))
       <> before ++ summary_lines attempted successful failed.
Proof.
  split.
  { example_panel_indexes. }
  split.
  { example_table_opens. }
  split; [vm_compute; reflexivity|].
  intros before attempted successful failed H.
  assert (Hin : ("Attempted to process " +:+ str_int attempted +:+ " regions from TSV.")
                ∈ stdout (snd (main (example_env tool_missing) example_run_world))).
  { rewrite H. apply elem_of_app. right. unfold summary_lines.
    apply elem_of_app. left. apply list_elem_of_further, list_elem_of_here. }
  assert (Hall : Forall (fun line => startswith "Attempted" line = false)
                   (stdout (snd (main (example_env tool_missing) example_run_world)))).
  { vm_compute. repeat constructor. }
  rewrite Forall_forall in Hall. specialize (Hall _ Hin). discriminate Hall.
Qed.

(** The same claim on a table without data rows: the run ends with an
    uncaught error after the banner of the summary, with exit status 1 and
    none of the counts. *)
Example empty_table_run :
  exists e,
    fst (main (example_env tool_ok) (example_world example_panel [example_header]))
    = Raised (Exc e)
    /\ exc_cls e = UnboundLocalError
    /\ last (stdout (snd (main (example_env tool_ok)
                            (example_world example_panel [example_header]))))
       = Some (NL +:+ "=== SCRIPT FINISHED ===").
Proof. eexists. vm_compute. done. Qed.

(** [int] on some strings. *)
Example int_of_str_examples :
  int_of_str " -12_3 " = Some (-123)
  /\ int_of_str "+007" = Some 7
  /\ int_of_str "1__2" = None
  /\ int_of_str "_1" = None
  /\ int_of_str "1_" = None
  /\ int_of_str "- 5" = None
  /\ int_of_str "1e5" = None
  /\ int_of_str EmptyString = None
  /\ int_of_str (String "028"%char "5") = None
  /\ int_of_str (String "160"%char "5") = Some 5.
Proof. repeat split; reflexivity. Qed.

(** The scenarios of the specification, run on the model. *)

(** A panel with the rows [(sampleA, SAS)] and [(sampleB, EUR)]: the
    allowlist holds [sampleA] alone. *)
Example scenario_two_row_panel :
  files (snd (extract_samples (example_env tool_ok) PANEL_FILE_LOCAL POPULATION_CODE
                SAMPLES_FILE
                (example_world [["sample"; "super_pop"]; ["sampleA"; "SAS"];
                                ["sampleB"; "EUR"]]
                   [example_header]))) !! SAMPLES_FILE
  = Some ("sampleA" +:+ NL).
Proof. by_running. Qed.

(** A table with one valid row and one row whose position is no number:
    one command is started, the run returns, and its summary counts two
    rows, one success and one failure. *)
Example scenario_one_valid_one_invalid_row :
  fst (main (example_env tool_ok)
         (example_world example_panel
            [example_header; ["rs1"; "1"; "100000"]; example_bad_row]))
  = Returned tt
  /\ calls (snd (main (example_env tool_ok)
                   (example_world example_panel
                      [example_header; ["rs1"; "1"; "100000"]; example_bad_row])))
     = [row_command "1" 100000 "rs1"]
  /\ drop 16 (stdout (snd (main (example_env tool_ok)
                             (example_world example_panel
                                [example_header; ["rs1"; "1"; "100000"];
                                 example_bad_row]))))
     = summary_lines 2 [row_output "1" 100000 "rs1"]
         ["Row 3 (Invalid Data: ['rs3', '2', 'abc'])"].
Proof. repeat split; by_running. Qed.

(** * Further properties of the script *)

(** ** The panel indexer, on every input *)

Section PanelCases.

Variable env : environment.

(** [extract_samples] ends as [indexing_result] says, prints, and starts
    no command. *)
Lemma extract_samples_cases panel_file code out w :
  exists printed,
    extract_samples env panel_file code out w
    = (fst (indexing_result env panel_file code out (files w)),
       World (snd (indexing_result env panel_file code out (files w)))
             (stdout w ++ printed) (calls w)).
Proof.
  unfold extract_samples, indexing_result. rewrite bind_print.
  unfold try_except.
  unfold bind at 1. unfold bind at 1. unfold bind at 1, open_read.
  cbn [files stdout calls].
  destruct (files w !! panel_file) as [text|] eqn:Hfile.
  2:{ cbn [find_clause fst snd existsb orb issubclass exc_cls].
      rewrite bool_decide_eq_true_2 by done. cbn [orb].
      rewrite bind_print. cbn. rewrite <- app_assoc. eauto. }
  unfold bind at 1, open_write.
  destruct (open_w_error env out) as [e|] eqn:Hopen.
  { cbn [find_clause fst snd existsb].
    destruct (issubclass (exc_cls e) FileNotFoundError); cbn [orb issubclass];
      rewrite bind_print; cbn; rewrite <- app_assoc; eauto. }
  cbn [files stdout calls].
  unfold bind at 1, reader_rows. cbn [files].
  destruct (csv_reader env false
              (default EmptyString (<[out:=EmptyString]> (files w) !! panel_file)))
    as [|header rows] eqn:Hrows.
  { cbn [next raise find_clause fst snd existsb orb issubclass exc_cls].
    rewrite bool_decide_eq_false_2 by done. cbn [orb].
    rewrite bind_print. cbn. rewrite <- app_assoc. eauto. }
  unfold bind at 1. cbn [next ret fst snd].
  unfold bind at 1, try_except, bind at 1, list_index.
  destruct (index_from 0 header "sample") as [sc|] eqn:Hs.
  2:{ cbn [raise find_clause fst snd existsb orb issubclass exc_cls].
      rewrite bool_decide_eq_true_2 by done. cbn [orb].
      rewrite !bind_print. cbn. rewrite <- !app_assoc. eauto. }
  cbn [ret]. unfold bind at 1.
  destruct (index_from 0 header "super_pop") as [pc|] eqn:Hp.
  2:{ cbn [raise find_clause fst snd existsb orb issubclass exc_cls].
      rewrite bool_decide_eq_true_2 by done. cbn [orb print].
      rewrite ?bind_print. cbn. rewrite <- !app_assoc. eauto. }
  cbn [ret fst snd].
  pose proof (index_from_Some _ _ _ _ Hs) as [[Hsc _] _].
  pose proof (index_from_Some _ _ _ _ Hp) as [[Hpc _] _].
  unfold bind at 1.
  rewrite (extract_rows_spec sc pc code out rows Hsc Hpc 0 _ EmptyString)
    by (cbn; apply lookup_insert_eq).
  cbn [ret fst snd files stdout calls]. rewrite insert_insert_eq.
  change (EmptyString +:+ ?x) with x. rewrite Z.add_0_l.
  destruct (len (sample_ids sc pc code rows) >? 0).
  - rewrite bind_print. cbn. rewrite <- !app_assoc. eauto.
  - rewrite bind_print. cbn. rewrite <- !app_assoc. eauto.
Qed.

End PanelCases.

Section PanelErrors.

Variable env : environment.


(** X2: a panel whose header lacks the column [sample] or the column
    [super_pop] ends the process with status 1; the allowlist file has been
    created, or emptied, by then, and no command is started. *)
Theorem panel_header_without_column_is_fatal
    (panel_file code out : string) (w : world) (text : string)
    (header : list string) (rows : list (list string)) :
  files w !! panel_file = Some text ->
  panel_file <> out ->
  open_w_error env out = None ->
  csv_reader env false text = header :: rows ->
  "sample" ∉ header \/ "super_pop" ∉ header ->
  exists w',
    extract_samples env panel_file code out w = (Raised (SystemExit 1), w')
    /\ files w' = <[out := EmptyString]> (files w)
    /\ calls w' = calls w.
Proof.
  intros Hfile Hne Hopen Hrows Hmiss.
  destruct (extract_samples_cases env panel_file code out w) as [printed ->].
  unfold indexing_result. rewrite Hfile, Hopen. cbn zeta.
  rewrite lookup_insert_ne by done. rewrite Hfile. cbn [default from_option id].
  rewrite Hrows.
  destruct (index_from 0 header "sample") as [sc|] eqn:Hs.
  - destruct Hmiss as [Hmiss|Hmiss].
    + apply (index_from_None 0) in Hmiss. congruence.
    + apply (index_from_None 0) in Hmiss. rewrite Hmiss. cbn. eauto.
  - cbn. eauto.
Qed.

(** X3: a panel file without any row, not even a header, ends the process
    with status 1 through the general handler; the allowlist file has been
    created, or emptied, by then. *)
Theorem panel_without_rows_is_fatal
    (panel_file code out : string) (w : world) (text : string) :
  files w !! panel_file = Some text ->
  panel_file <> out ->
  open_w_error env out = None ->
  csv_reader env false text = [] ->
  exists w',
    extract_samples env panel_file code out w = (Raised (SystemExit 1), w')
    /\ files w' = <[out := EmptyString]> (files w)
    /\ calls w' = calls w
    /\ last (stdout w')
       = Some ("ERROR: Failed to process panel file '" +:+ panel_file +:+ "': ").
Proof.
  intros Hfile Hne Hopen Hrows.
  unfold extract_samples. rewrite bind_print.
  unfold try_except.
  unfold bind at 1. unfold bind at 1. unfold bind at 1, open_read.
  cbn [files stdout calls]. rewrite Hfile.
  unfold bind at 1, open_write. rewrite Hopen. cbn [files stdout calls].
  unfold bind at 1, reader_rows. cbn [files].
  rewrite lookup_insert_ne by done. rewrite Hfile. cbn [default from_option id].
  rewrite Hrows.
  cbn [next raise find_clause fst snd existsb orb issubclass exc_cls].
  rewrite bool_decide_eq_false_2 by done. cbn [orb].
  rewrite bind_print. cbn [sys_exit raise files stdout calls exc_msg].
  eexists. split; [reflexivity|]. cbn [files stdout calls].
  split; [done|]. split; [done|].
  rewrite last_snoc. by rewrite append_nil_r.
Qed.

(** X4: when the panel file does not exist, neither [main] nor
    [extract_samples] creates the allowlist file: the process ends with
    status 1, the files are what they were and no command is started. *)
Theorem missing_panel_changes_no_file (w : world) :
  files w !! PANEL_FILE_LOCAL = None ->
  (exists w',
     main env w = (Raised (SystemExit 1), w')
     /\ files w' = files w /\ calls w' = calls w)
  /\ (exists w',
        extract_samples env PANEL_FILE_LOCAL POPULATION_CODE SAMPLES_FILE w
        = (Raised (SystemExit 1), w')
        /\ files w' = files w /\ calls w' = calls w).
Proof.
  intros Hfile. split.
  - unfold main. rewrite bind_print.
    unfold bind at 1, isfile. cbn [files]. rewrite Hfile.
    rewrite bool_decide_eq_false_2 by (by intros [? ?]). cbn [negb].
    unfold bind at 1. rewrite bind_print. cbn. eauto.
  - destruct (extract_samples_cases env PANEL_FILE_LOCAL POPULATION_CODE
                SAMPLES_FILE w) as [printed ->].
    unfold indexing_result. rewrite Hfile. cbn. eauto.
Qed.

End PanelErrors.

(** ** The table stage of [main] *)

Section TableErrors.

Variable env : environment.

(** After a successful panel indexing [main] goes on with the allowlist
    written and nothing else changed. *)
Lemma main_indexed w :
  panel_indexes env w ->
  exists ids printed,
    ids <> []
    /\ main env w
       = main_after_indexing env
           (World (<[SAMPLES_FILE := allowlist_text ids]> (files w))
                  (stdout w ++ printed) (calls w)).
Proof.
  intros (text & pheader & prows & sc & pc & Hfile & Hrows & Hs & Hp & Hsel & Hopen).
  destruct config_paths_distinct as [Hne1 _].
  pose proof (index_from_Some _ _ _ _ Hs) as [[Hsc _] _].
  pose proof (sample_ids_nonempty sc pc POPULATION_CODE prows Hsc Hsel) as Hpos.
  exists (sample_ids sc pc POPULATION_CODE prows).
  unfold main. rewrite bind_print.
  unfold bind at 1, isfile. cbn [files].
  rewrite Hfile. rewrite bool_decide_eq_true_2 by eauto. cbn [negb].
  unfold bind at 1. cbn [print].
  unfold bind at 1.
  match goal with
  | |- context [extract_samples env ?a ?b ?d ?w0] =>
      destruct (extract_samples_spec env a b d w0 text pheader prows sc pc
                  Hfile Hne1 Hopen Hrows Hs Hp) as [printed Hex]
  end.
  rewrite Hex, Hpos. cbn [files stdout calls].
  eexists. split.
  - intros Hnil. rewrite Hnil in Hpos. done.
  - rewrite <- !app_assoc. reflexivity.
Qed.

(** A table that does not open with its two columns ends [process_regions]
    with status 1: the file is missing, holds no row, or has a header
    without one of the columns. *)
Lemma process_regions_unusable st w :
  (forall header rows c p, ~ table_opens env w header rows c p) ->
  exists printed,
    process_regions env st w
    = (Raised (SystemExit 1), World (files w) (stdout w ++ printed) (calls w)).
Proof.
  intros Hno. unfold process_regions, try_except.
  unfold bind at 1, open_read.
  destruct (files w !! REGIONS_FILE_TSV) as [text|] eqn:Hfile.
  2:{ cbn [find_clause fst snd existsb orb issubclass exc_cls].
      rewrite bool_decide_eq_true_2 by done. cbn [orb].
      rewrite bind_print. cbn. eauto. }
  unfold bind at 1, reader_rows. rewrite Hfile. cbn [default from_option id].
  destruct (csv_reader env true text) as [|header rows] eqn:Hrows.
  { unfold bind at 1.
    cbn [next raise find_clause fst snd existsb orb issubclass exc_cls].
    rewrite bool_decide_eq_false_2 by done. cbn [orb].
    rewrite bind_print. cbn. eauto. }
  unfold bind at 1. cbn [next ret fst snd].
  unfold bind at 1, try_except, bind at 1, list_index.
  destruct (index_from 0 header "Chromosome") as [c|] eqn:Hc.
  2:{ cbn [raise find_clause fst snd existsb orb issubclass exc_cls].
      rewrite bool_decide_eq_true_2 by done. cbn [orb].
      rewrite !bind_print. cbn. rewrite <- !app_assoc. eauto. }
  cbn [ret]. unfold bind at 1.
  destruct (index_from 0 header "Position_GRCh37") as [p|] eqn:Hp.
  2:{ cbn [raise find_clause fst snd existsb orb issubclass exc_cls].
      rewrite bool_decide_eq_true_2 by done. cbn [orb print].
      rewrite ?bind_print. cbn. rewrite <- !app_assoc. eauto. }
  destruct (Hno header rows c p). exists text. done.
Qed.

(** X5: whatever the table file and the environment, [process_regions]
    lets no exception escape: it returns the lists, or ends the process
    with status 1. *)
Theorem process_regions_returns_or_exits (st : locals) (w : world) :
  exists r w',
    process_regions env st w = (r, w')
    /\ ((exists st', r = Returned st') \/ r = Raised (SystemExit 1)).
Proof.
  destruct (process_regions env st w) as [[st'|e] w'] eqn:Hrun.
  { eexists _, _. split; [reflexivity|]. left. eauto. }
  eexists _, _. split; [reflexivity|]. right.
  destruct (files w !! REGIONS_FILE_TSV) as [text|] eqn:Hfile.
  2:{ destruct (process_regions_unusable st w) as [printed Hu].
      - intros header rows c p (text & Ht & _). congruence.
      - congruence. }
  destruct (csv_reader env true text) as [|header rows] eqn:Hrows.
  { destruct (process_regions_unusable st w) as [printed Hu].
    - intros header rows c p (text' & Ht & Hr & _). congruence.
    - congruence. }
  destruct (index_from 0 header "Chromosome") as [c|] eqn:Hc.
  2:{ destruct (process_regions_unusable st w) as [printed Hu].
      - intros header' rows' c p (text' & Ht & Hr & Hc' & _). congruence.
      - congruence. }
  destruct (index_from 0 header "Position_GRCh37") as [p|] eqn:Hp.
  2:{ destruct (process_regions_unusable st w) as [printed Hu].
      - intros header' rows' c' p (text' & Ht & Hr & _ & Hp'). congruence.
      - congruence. }
  rewrite (process_regions_loop env w header rows c p st) in Hrun
    by (exists text; done).
  apply loop_spec in Hrun as (_ & -> & _). done.
Qed.

(** X6: when the table file does not exist, the run ends with status 1
    after the panel has been indexed: the allowlist file is written, and
    the output directory is not made and no command started. *)
Theorem missing_table_ends_the_run_after_indexing (w : world) :
  panel_indexes env w ->
  files w !! REGIONS_FILE_TSV = None ->
  exists w' ids,
    main env w = (Raised (SystemExit 1), w')
    /\ ids <> []
    /\ files w' = <[SAMPLES_FILE := allowlist_text ids]> (files w)
    /\ calls w' = calls w
    /\ last (stdout w')
       = Some ("ERROR: Regions TSV file '" +:+ REGIONS_FILE_TSV +:+ "' not found!").
Proof.
  intros Hpanel Hfile.
  destruct config_paths_distinct as [_ Hne].
  destruct (main_indexed w Hpanel) as (ids & printed & Hids & ->).
  unfold main_after_indexing. rewrite bind_print.
  unfold bind at 1, isfile. cbn [files].
  rewrite lookup_insert_ne by done. rewrite Hfile.
  rewrite bool_decide_eq_false_2 by (by intros [? ?]). cbn [negb].
  unfold bind at 1. rewrite bind_print. cbn [sys_exit raise files stdout calls].
  eexists _, ids. split; [reflexivity|]. cbn [files stdout calls].
  split; [done|]. split; [done|]. split; [done|]. by rewrite last_snoc.
Qed.

(** X7: a table that does not open with its two columns, because the file
    holds no row at all or because its header lacks [Chromosome] or
    [Position_GRCh37], ends the run with status 1 before any row is read:
    no command is started. *)
Theorem table_without_columns_ends_the_run
    (w : world) (text : string) :
  panel_indexes env w ->
  os_makedirs_error env OUTPUT_DIR = None ->
  files w !! REGIONS_FILE_TSV = Some text ->
  (csv_reader env true text = []
   \/ exists header rows,
        csv_reader env true text = header :: rows
        /\ ("Chromosome" ∉ header \/ "Position_GRCh37" ∉ header)) ->
  exists w',
    main env w = (Raised (SystemExit 1), w')
    /\ calls w' = calls w.
Proof.
  intros Hpanel Hdir Hfile Hbad.
  destruct config_paths_distinct as [_ Hne].
  destruct (main_indexed w Hpanel) as (ids & printed & Hids & ->).
  unfold main_after_indexing. rewrite bind_print.
  unfold bind at 1, isfile. cbn [files].
  rewrite lookup_insert_ne by done. rewrite Hfile.
  rewrite bool_decide_eq_true_2 by eauto. cbn [negb].
  unfold bind at 1. cbn [ret]. unfold bind at 1, os_makedirs. rewrite Hdir.
  cbn [ret]. rewrite bind_print. cbn [files stdout calls].
  unfold bind at 1.
  match goal with
  | |- context [process_regions env ?st ?w0] =>
      destruct (process_regions_unusable st w0) as [printed' ->]
  end.
  - intros header rows c p (text' & Ht & Hr & Hc & Hp).
    cbn [files] in Ht. rewrite lookup_insert_ne in Ht by done.
    assert (text' = text) as -> by congruence.
    destruct Hbad as [Hbad|(header' & rows' & Hr' & Hbad)]; [congruence|].
    assert (header' = header) as -> by congruence.
    destruct Hbad as [Hbad|Hbad]; apply (index_from_None 0) in Hbad; congruence.
  - eexists. split; [reflexivity|done].
Qed.

(** X8: an error of [os.makedirs] on the output directory is not handled:
    it leaves [main] as an uncaught exception, so the process ends with
    status 1 without the message and [sys.exit] of the other failures; the
    allowlist is already written and no command is started. *)
Theorem output_directory_error_escapes (w : world) (e : pyexc) :
  panel_indexes env w ->
  is_Some (files w !! REGIONS_FILE_TSV) ->
  os_makedirs_error env OUTPUT_DIR = Some e ->
  exists w',
    main env w = (Raised (Exc e), w')
    /\ exit_status (fst (main env w)) = 1
    /\ calls w' = calls w
    /\ is_Some (files w' !! SAMPLES_FILE).
Proof.
  intros Hpanel Hfile Hdir.
  destruct config_paths_distinct as [_ Hne].
  cut (exists w', main env w = (Raised (Exc e), w')
                  /\ calls w' = calls w /\ is_Some (files w' !! SAMPLES_FILE)).
  { intros (w' & Hm & Hc & Hf). exists w'. by rewrite Hm. }
  destruct (main_indexed w Hpanel) as (ids & printed & Hids & ->).
  unfold main_after_indexing. rewrite bind_print.
  unfold bind at 1, isfile. cbn [files].
  rewrite lookup_insert_ne by done.
  rewrite bool_decide_eq_true_2 by done. cbn [negb].
  unfold bind at 1. cbn [ret]. unfold bind at 1, os_makedirs. rewrite Hdir.
  cbn [raise files calls].
  eexists. split; [reflexivity|]. cbn [files calls]. split; [done|].
  rewrite lookup_insert_eq. by eexists.
Qed.

End TableErrors.

(** ** The extractor and the commands of a run *)

Section Commands.

Variable env : environment.

(** X9: [run_bcftools] reports success only for a process that was started
    and ended with status 0; otherwise it returns failure or, for a
    [FileNotFoundError], ends the process with status 1. It lets no other
    exception escape and starts the command at most once. *)
Theorem run_bcftools_success_only_after_status_zero
    (bcftools_cmd vcf_url_for_chr region samples_file output_vcf_file : string)
    (w : world) :
  let command :=
    bcftools_command bcftools_cmd vcf_url_for_chr region samples_file
      output_vcf_file in
  let run :=
    run_bcftools env bcftools_cmd vcf_url_for_chr region samples_file
      output_vcf_file w in
  (fst run = Returned true \/ fst run = Returned false
   \/ fst run = Raised (SystemExit 1))
  /\ (fst run = Returned true <->
      os_makedirs_error env (path_dirname output_vcf_file) = None
      /\ exists result,
           subprocess_run env (calls w) command = inr result
           /\ returncode result = 0)
  /\ (calls (snd run) = calls w \/ calls (snd run) = calls w ++ [command]).
Proof.
  intros command run. subst run.
  destruct (run_bcftools_spec env bcftools_cmd vcf_url_for_chr region samples_file
              output_vcf_file w) as [out ->].
  fold command. cbn [fst snd calls].
  unfold run_bcftools_outcome, on_invocation_error.
  destruct (os_makedirs_error env (path_dirname output_vcf_file)) as [e|].
  { destruct (issubclass (exc_cls e) FileNotFoundError).
    - split; [auto|]. split; [|auto]. split; [done|]. by intros [? _].
    - split; [auto|]. split; [|auto]. split; [done|]. by intros [? _]. }
  destruct (subprocess_run env (calls w) command) as [e|result].
  { destruct (issubclass (exc_cls e) FileNotFoundError).
    - split; [auto|]. split; [|auto]. split; [done|]. by intros [_ (? & ? & _)].
    - split; [auto|]. split; [|auto]. split; [done|]. by intros [_ (? & ? & _)]. }
  destruct (Z.eqb_spec (returncode result) 0) as [Hz|Hz].
  - split; [auto|]. split; [|auto]. split; [eauto|done].
  - split; [auto|]. split; [|auto]. split; [done|].
    intros [_ (result' & Hr & Hz')]. congruence.
Qed.

(** X10: when the directory of the output file cannot be made, no command
    is started; the region fails, except that a [FileNotFoundError] of
    [os.makedirs] is taken for a missing executable and ends the process
    with status 1. *)
Theorem output_directory_failure_starts_no_command
    (bcftools_cmd vcf_url_for_chr region samples_file output_vcf_file : string)
    (w : world) (e : pyexc) :
  os_makedirs_error env (path_dirname output_vcf_file) = Some e ->
  let run :=
    run_bcftools env bcftools_cmd vcf_url_for_chr region samples_file
      output_vcf_file w in
  calls (snd run) = calls w
  /\ (exc_cls e = FileNotFoundError ->
      fst run = Raised (SystemExit 1)
      /\ last (stdout (snd run))
         = Some "  Please ensure bcftools is installed and the path in BCFTOOLS_CMD is correct.")
  /\ (exc_cls e <> FileNotFoundError -> fst run = Returned false).
Proof.
  intros Hdir run.
  assert (Hrun : exists out,
    run = (on_invocation_error e, World (files w) out (calls w))
    /\ (exc_cls e = FileNotFoundError ->
        last out
        = Some "  Please ensure bcftools is installed and the path in BCFTOOLS_CMD is correct.")).
  { subst run. unfold run_bcftools, on_invocation_error.
    repeat (rewrite bind_print; cbn [files stdout calls]).
    unfold try_except, os_makedirs. rewrite Hdir. unfold bind at 1.
    cbn [raise find_clause fst snd existsb orb issubclass].
    destruct (decide (exc_cls e = FileNotFoundError)) as [Hc|Hc].
    - rewrite !bool_decide_eq_true_2 by done. cbn [orb].
      repeat (rewrite bind_print; cbn [files stdout calls]).
      eexists. split; [reflexivity|]. intros _. by rewrite last_snoc.
    - rewrite !bool_decide_eq_false_2 by done. cbn [orb].
      rewrite bind_print. eexists. split; [reflexivity|done]. }
  destruct Hrun as (out & -> & Hlast). cbn [fst snd calls stdout].
  unfold on_invocation_error. cbn [issubclass].
  split; [done|]. split; intros Hc.
  - rewrite bool_decide_eq_true_2 by done. auto.
  - by rewrite bool_decide_eq_false_2.
Qed.

Lemma row_started_step c p r k row st w :
  calls (snd (process_row env c p r (k, row) st w))
  = calls w ++ omap (row_started env c p r) [(k, row)].
Proof.
  assert (Hs : omap (row_started env c p r) [(k, row)]
               = match row_started env c p r (k, row) with
                 | Some command => [command]
                 | None => []
                 end) by reflexivity.
  rewrite Hs. unfold row_started. cbn [fst snd].
  destruct (locus_of_row c p r k row) as [[[chromosome position] rsid]|] eqn:Hl.
  - destruct (process_row_valid env c p r k row st w _ _ _ Hl) as [out ->].
    cbn [snd calls].
    destruct (os_makedirs_error env _); by rewrite ?app_nil_r.
  - destruct (process_row_invalid env c p r k row st w Hl) as [msg ->].
    cbn [snd calls]. by rewrite app_nil_r.
Qed.

(** The commands the loop starts are those of its rows, in their order, up
    to the row on which it ends. *)
Lemma loop_calls c p r rows : forall k st w,
  exists n,
    (n <= length rows)%nat
    /\ calls (snd (for_each (enumerate_from k rows) (process_row env c p r) st w))
       = calls w
         ++ omap (row_started env c p r) (take n (enumerate_from k rows))
    /\ (forall st',
          fst (for_each (enumerate_from k rows) (process_row env c p r) st w)
          = Returned st' -> n = length rows).
Proof.
  induction rows as [|row rows IH]; intros k st w.
  - exists 0%nat. cbn. rewrite app_nil_r. done.
  - cbn [enumerate_from for_each]. unfold bind.
    pose proof (row_started_step c p r k row st w) as Hstep.
    destruct (process_row env c p r (k, row) st w) as [[st1|e] w1] eqn:Hrow.
    + destruct (IH (k + 1) st1 w1) as (n & Hn & Hcalls & Hret).
      exists (S n). split; [cbn; lia|]. split.
      * rewrite Hcalls. cbn [snd] in Hstep. rewrite Hstep, <- app_assoc. f_equal.
        change (take (S n) ((k, row) :: ?l)) with ([(k, row)] ++ take n l).
        by rewrite omap_app.
      * intros st' Hst. cbn. f_equal. by apply (Hret st').
    + exists 1%nat. split; [cbn; lia|]. split.
      * cbn [snd] in Hstep |- *. rewrite Hstep.
        change (take 1 ((k, row) :: ?l)) with ([(k, row)] ++ take 0 l).
        by rewrite take_0.
      * done.
Qed.

Lemma finalize_calls st w : calls (snd (finalize st w)) = calls w.
Proof.
  destruct (i st) as [n|] eqn:Hi.
  - by rewrite (finalize_bound st n w Hi).
  - unfold finalize, read_i. rewrite !bind_print, Hi. done.
Qed.

(** X11: the commands a run starts are the commands of the rows of the
    table, in the order of the table, one for each row that parses and
    whose output directory can be made, up to the row on which the run
    ends; when [main] returns, every row has been reached. Nothing else is
    ever started. *)
Theorem commands_follow_the_table
    (w : world) (header : list string) (rows : list (list string)) (c p : Z) :
  panel_indexes env w ->
  os_makedirs_error env OUTPUT_DIR = None ->
  table_opens env w header rows c p ->
  exists n,
    (n <= length rows)%nat
    /\ calls (snd (main env w))
       = calls w
         ++ omap (row_started env c p (rsid_column header)) (take n (enumerate rows))
    /\ (fst (main env w) = Returned tt -> n = length rows).
Proof.
  intros Hpanel Hdir Htable.
  destruct (main_reaches_loop env w header rows c p Hpanel Hdir Htable)
    as (w1 & Hcalls & ->).
  destruct (loop_calls c p (rsid_column header) rows 0 (Locals [] [] None) w1)
    as (n & Hn & Hloop & Hret).
  exists n. split; [exact Hn|]. unfold bind, enumerate in *.
  destruct (for_each (enumerate_from 0 rows)
              (process_row env c p (rsid_column header)) (Locals [] [] None) w1)
    as [[st|e] w2] eqn:Hrun; cbn [fst snd] in *.
  - rewrite finalize_calls, Hloop, Hcalls. split; [done|].
    intros _. by apply (Hret st).
  - rewrite Hloop, Hcalls. done.
Qed.

End Commands.

(** ** Rows, labels and names *)

Section Rows.

Variable env : environment.

(** A loop over rows that all fail to parse returns with one entry a row,
    in the order of the rows, and starts nothing. *)
Lemma loop_all_invalid c p r rows :
  Forall (invalid_row c p r) rows ->
  forall k st w,
    exists printed,
      for_each (enumerate_from k rows) (process_row env c p r) st w
      = (Returned
           (Locals (successful_extractions st)
              (failed_regions st
               ++ map (fun ir => invalid_row_entry env (fst ir + 2) (snd ir))
                    (enumerate_from k rows))
              (match rows with [] => i st | _ :: _ => Some (k + len rows - 1) end)),
         World (files w) (stdout w ++ printed) (calls w)).
Proof.
  induction 1 as [|row rows Hrow Hrows IH]; intros k st w.
  - exists []. cbn. rewrite !app_nil_r. by destruct st, w.
  - cbn [enumerate_from for_each map fst snd].
    destruct (process_row_invalid env c p r k row st w
                (invalid_row_locus c p r k row Hrow)) as [msg Hstep].
    rewrite (bind_returned _ _ _ _ _ Hstep).
    edestruct IH as [printed ->]. cbn [successful_extractions failed_regions i
                                        files stdout calls].
    exists (invalid_row_warning env (k + 2) row msg :: printed).
    rewrite <- !app_assoc. cbn [app]. do 3 f_equal.
    rewrite len_cons. destruct rows; [f_equal; unfold len; cbn; lia|].
    f_equal. rewrite !len_cons. lia.
Qed.

(** X12: when every data row of the table fails to parse, the run returns
    with exit status 0 and has started no command, so that a missing
    executable goes unnoticed; its summary counts the rows, no success, and
    lists every row with its number, in the order of the table. *)
Theorem run_of_invalid_rows_never_starts_the_tool
    (w : world) (header : list string) (rows : list (list string)) (c p : Z) :
  panel_indexes env w ->
  os_makedirs_error env OUTPUT_DIR = None ->
  table_opens env w header rows c p ->
  rows <> [] ->
  Forall (invalid_row c p (rsid_column header)) rows ->
  exists w' before,
    main env w = (Returned tt, w')
    /\ calls w' = calls w
    /\ stdout w'
       = before
         ++ summary_lines (len rows) []
              (map (fun ir => invalid_row_entry env (fst ir + 2) (snd ir))
                 (enumerate rows)).
Proof.
  intros Hpanel Hdir Htable Hne Hall.
  destruct (main_reaches_loop env w header rows c p Hpanel Hdir Htable)
    as (w1 & Hcalls & ->).
  destruct (loop_all_invalid c p (rsid_column header) rows Hall 0
              (Locals [] [] None) w1) as [printed Hloop].
  unfold enumerate. rewrite (bind_returned _ _ _ _ _ Hloop).
  destruct rows as [|row rows]; [done|].
  erewrite finalize_bound by reflexivity.
  eexists _, _. split; [reflexivity|].
  cbn [calls stdout successful_extractions failed_regions].
  split; [done|]. rewrite app_assoc.
  replace (0 + len (row :: rows) - 1 + 1) with (len (row :: rows)) by lia.
  reflexivity.
Qed.

(** X13: when the header has no [rsID] column, a row needs its chromosome
    and position fields only, and the label in the name of its output file
    is [region_] followed by the 1-based number of the row among the data
    rows. *)
Theorem label_is_synthesized_without_rsid_column
    (header : list string) (c p k : Z) (row : list string) (st : locals)
    (w : world) (chromosome pos_field : string) (position : Z) :
  "rsID" ∉ header ->
  item row c = Some chromosome ->
  item row p = Some pos_field ->
  int_of_str pos_field = Some position ->
  os_makedirs_error env
    (path_dirname (row_output chromosome position ("region_" +:+ str_int (k + 1))))
  = None ->
  calls (snd (process_row env c p (rsid_column header) (k, row) st w))
  = calls w
    ++ [bcftools_command BCFTOOLS_CMD (vcf_url (clean_chromosome chromosome))
          (row_region chromosome position) SAMPLES_FILE
          (output_path ("region_" +:+ str_int (k + 1)) chromosome
             (row_start position) (row_end position))].
Proof.
  intros Hno Hc Hp Hint Hdir.
  assert (Hl : locus_of_row c p (rsid_column header) k row
               = Some (chromosome, position, "region_" +:+ str_int (k + 1))).
  { unfold locus_of_row, rsid_column.
    apply (index_from_None 0) in Hno. rewrite Hno, Hc. cbn. rewrite Hp. cbn.
    rewrite Hint. done. }
  destruct (process_row_valid env c p (rsid_column header) k row st w _ _ _ Hl)
    as [out ->].
  cbn [snd calls]. by rewrite Hdir.
Qed.

End Rows.

(** ** Names that do not depend on the environment *)

Lemma startswith_slash_append (a b : string) :
  startswith "/" b = false -> startswith "/" (a +:+ b) = startswith "/" a.
Proof. intros Hb. destruct a as [|x a]; [exact Hb|done]. Qed.

(** X14: the output file of a row lies in the output directory, under the
    name made of the label, the chromosome value as given, the window and
    the population, unless the label begins with a slash: then the name is
    an absolute path and the directory is not used. *)
Theorem output_path_leaves_directory_for_absolute_label
    (rsid chromosome : string) (start_pos end_pos : Z) :
  output_path rsid chromosome start_pos end_pos
  = if startswith "/" rsid
    then output_name rsid chromosome start_pos end_pos
    else OUTPUT_DIR +:+ "/" +:+ output_name rsid chromosome start_pos end_pos.
Proof.
  unfold output_path, output_name, path_join.
  rewrite startswith_slash_append by reflexivity.
  destruct (startswith "/" rsid); reflexivity.
Qed.

Lemma length_append (a b : string) :
  String.length (a +:+ b) = (String.length a + String.length b)%nat.
Proof.
  induction a as [|x a IH]; [done|].
  change (S (String.length (a +:+ b)) = S (String.length a + String.length b)).
  by rewrite IH.
Qed.

Lemma append_inj_r (a b s : string) : a +:+ s = b +:+ s -> a = b.
Proof.
  revert b. induction a as [|x a IH]; intros [|y b] H.
  - done.
  - apply (f_equal String.length) in H.
    change (String.length s = S (String.length (b +:+ s))) in H.
    rewrite length_append in H. lia.
  - apply (f_equal String.length) in H.
    change (S (String.length (a +:+ s)) = String.length s) in H.
    rewrite length_append in H. lia.
  - change (String x (a +:+ s) = String y (b +:+ s)) in H.
    injection H as -> H. f_equal. by apply IH.
Qed.

(** X15: the archive URL of a cleaned chromosome token is the base path,
    [ALL.chr], the token and the rest of the file name: the placeholder is
    filled once, what the token holds is not scanned again, and two tokens
    with the same URL are the same token. *)
Theorem vcf_url_of_token :
  (forall token,
     vcf_url token
     = BASE_VCF_FTP_PATH +:+ "ALL.chr" +:+ token
       +:+ ".phase3_shapeit2_mvncall_integrated_v5b.20130502.genotypes.vcf.gz")
  /\ (forall token1 token2, vcf_url token1 = vcf_url token2 -> token1 = token2).
Proof.
  assert (Hshape : forall token,
    vcf_url token
    = BASE_VCF_FTP_PATH +:+ "ALL.chr" +:+ token
      +:+ ".phase3_shapeit2_mvncall_integrated_v5b.20130502.genotypes.vcf.gz")
    by reflexivity.
  split; [exact Hshape|].
  intros token1 token2 H. rewrite !Hshape in H.
  apply (inj (String.app BASE_VCF_FTP_PATH)) in H.
  apply (inj (String.app "ALL.chr")) in H.
  by apply append_inj_r in H.
Qed.

Lemma replace_scan_absent (old new s : string) :
  occurs old s = false -> replace_scan old new 0 s = s.
Proof.
  induction s as [|x s IH]; [done|].
  cbn [occurs replace_scan]. intros [Hhere Hrest]%orb_false_iff.
  rewrite Hhere. f_equal. by apply IH.
Qed.

(** X16: a chromosome value in which [chr] does not occur is used as it
    is, and one that is [chr] followed by such a value loses exactly that
    prefix: for these values, which include every usual chromosome name, the
    cleaned token is the bare name. *)
Theorem clean_chromosome_of_usual_names (name : string) :
  occurs "chr" name = false ->
  clean_chromosome name = name
  /\ clean_chromosome ("chr" +:+ name) = name.
Proof.
  intros Hno.
  assert (H : clean_chromosome name = name) by (by apply replace_scan_absent).
  split; [exact H|]. exact H.
Qed.

(** ** The region of a usual chromosome name *)

Section CleanedRegion.

Variable env : environment.

Lemma startswith_drop_chars (prefix s : string) :
  startswith prefix s = true -> s = prefix +:+ drop_chars (String.length prefix) s.
Proof.
  revert s. induction prefix as [|a prefix IH]; intros s; [done|].
  destruct s as [|b s]; [done|]. cbn [startswith].
  destruct (decide (a = b)) as [->|]; [|done]. intros H.
  cbn [String.length drop_chars].
  change (String b s = String b (prefix +:+ drop_chars (String.length prefix) s)).
  f_equal. by apply IH.
Qed.

(** For a value in which [chr] occurs as a prefix at most, the cleaned
    token is the value without that prefix. *)
Lemma clean_chromosome_prefix_stripped (chromosome : string) :
  occurs "chr" (prefix_stripped chromosome) = false ->
  clean_chromosome chromosome = prefix_stripped chromosome.
Proof.
  unfold prefix_stripped.
  destruct (startswith "chr" chromosome) eqn:Hprefix; intros Hno.
  - apply startswith_drop_chars in Hprefix. cbn [String.length] in Hprefix.
    remember (drop_chars 3 chromosome) as rest eqn:Hrest. clear Hrest.
    subst chromosome. rewrite clean_chromosome_prefix. by apply replace_scan_absent.
  - by apply replace_scan_absent.
Qed.

(** X30: for a valid locus row with a positive position whose chromosome
    value holds [chr] as a prefix at most (every usual chromosome name, with
    or without the prefix), the window from [max(1, position - W)] to
    [position + W] contains the position and starts at 1 or later, exactly
    one command is started, and the region it is given after [-r] is the
    value without its prefix, a colon, the start, a dash and the end. *)
Theorem region_is_the_value_without_its_prefix
    (c p r k : Z) (row : list string) (st : locals) (w : world)
    (chromosome : string) (position : Z) (rsid : string) :
  locus_of_row c p r k row = Some (chromosome, position, rsid) ->
  0 < position ->
  occurs "chr" (prefix_stripped chromosome) = false ->
  os_makedirs_error env (path_dirname (row_output chromosome position rsid)) = None ->
  let start_pos := Z.max 1 (position - REGION_WINDOW_SIZE) in
  let end_pos := position + REGION_WINDOW_SIZE in
  REGION_WINDOW_SIZE = 10000
  /\ start_pos <= position <= end_pos
  /\ 1 <= start_pos
  /\ exists command,
       calls (snd (process_row env c p r (k, row) st w)) = calls w ++ [command]
       /\ command !! 3%nat = Some "-r"
       /\ command !! 4%nat
          = Some (prefix_stripped chromosome +:+ ":" +:+ str_int start_pos +:+ "-"
                  +:+ str_int end_pos).
Proof.
  intros Hl Hpos Hno Hdir start_pos end_pos. subst start_pos end_pos.
  split; [reflexivity|]. unfold REGION_WINDOW_SIZE. split; [lia|]. split; [lia|].
  exists (row_command chromosome position rsid).
  split; [by apply process_row_valid_calls|]. split; [reflexivity|].
  rewrite <- (clean_chromosome_prefix_stripped chromosome Hno). reflexivity.
Qed.

End CleanedRegion.

(** ** The further properties on example inputs *)

Lemma panel_header_without_column_example :
  files (example_world example_panel_other_columns [example_header]) !! PANEL_FILE_LOCAL
  = Some (table_text example_panel_other_columns)
  /\ PANEL_FILE_LOCAL <> SAMPLES_FILE
  /\ open_w_error (example_env tool_ok) SAMPLES_FILE = None
  /\ csv_reader (example_env tool_ok) false (table_text example_panel_other_columns)
     = ["id"; "population"] :: [["sampleA"; "SAS"]]
  /\ ("sample" ∉ ["id"; "population"] \/ "super_pop" ∉ ["id"; "population"])
  /\ exists w',
       extract_samples (example_env tool_ok) PANEL_FILE_LOCAL POPULATION_CODE
         SAMPLES_FILE (example_world example_panel_other_columns [example_header])
       = (Raised (SystemExit 1), w')
       /\ files w'
          = <[SAMPLES_FILE := EmptyString]>
              (files (example_world example_panel_other_columns [example_header]))
       /\ calls w' = calls (example_world example_panel_other_columns [example_header]).
Proof.
  assert (Hfile : files (example_world example_panel_other_columns [example_header])
                    !! PANEL_FILE_LOCAL
                  = Some (table_text example_panel_other_columns)) by by_running.
  assert (Hne : PANEL_FILE_LOCAL <> SAMPLES_FILE) by discriminate.
  assert (Hrows : csv_reader (example_env tool_ok) false
                    (table_text example_panel_other_columns)
                  = ["id"; "population"] :: [["sampleA"; "SAS"]]) by by_running.
  assert (Hmiss : "sample" ∉ ["id"; "population"] \/ "super_pop" ∉ ["id"; "population"]).
  { left. apply (index_from_None 0). reflexivity. }
  split; [exact Hfile|]. split; [exact Hne|]. split; [reflexivity|].
  split; [exact Hrows|]. split; [exact Hmiss|].
  exact (panel_header_without_column_is_fatal (example_env tool_ok) PANEL_FILE_LOCAL
           POPULATION_CODE SAMPLES_FILE
           (example_world example_panel_other_columns [example_header])
           (table_text example_panel_other_columns) ["id"; "population"]
           [["sampleA"; "SAS"]] Hfile Hne eq_refl Hrows Hmiss).
Defined.

Lemma panel_without_rows_example :
  files (example_world [] [example_header]) !! PANEL_FILE_LOCAL = Some EmptyString
  /\ PANEL_FILE_LOCAL <> SAMPLES_FILE
  /\ open_w_error (example_env tool_ok) SAMPLES_FILE = None
  /\ csv_reader (example_env tool_ok) false EmptyString = []
  /\ exists w',
       extract_samples (example_env tool_ok) PANEL_FILE_LOCAL POPULATION_CODE
         SAMPLES_FILE (example_world [] [example_header])
       = (Raised (SystemExit 1), w')
       /\ files w'
          = <[SAMPLES_FILE := EmptyString]> (files (example_world [] [example_header]))
       /\ calls w' = calls (example_world [] [example_header])
       /\ last (stdout w')
          = Some ("ERROR: Failed to process panel file '" +:+ PANEL_FILE_LOCAL +:+ "': ").
Proof.
  assert (Hfile : files (example_world [] [example_header]) !! PANEL_FILE_LOCAL
                  = Some EmptyString) by by_running.
  assert (Hne : PANEL_FILE_LOCAL <> SAMPLES_FILE) by discriminate.
  split; [exact Hfile|]. split; [exact Hne|]. split; [reflexivity|].
  split; [reflexivity|].
  exact (panel_without_rows_is_fatal (example_env tool_ok) PANEL_FILE_LOCAL
           POPULATION_CODE SAMPLES_FILE (example_world [] [example_header])
           EmptyString Hfile Hne eq_refl eq_refl).
Defined.

Lemma missing_panel_example :
  files (World ∅ [] []) !! PANEL_FILE_LOCAL = None
  /\ (exists w',
        main (example_env tool_ok) (World ∅ [] []) = (Raised (SystemExit 1), w')
        /\ files w' = ∅ /\ calls w' = [])
  /\ (exists w',
        extract_samples (example_env tool_ok) PANEL_FILE_LOCAL POPULATION_CODE
          SAMPLES_FILE (World ∅ [] [])
        = (Raised (SystemExit 1), w')
        /\ files w' = ∅ /\ calls w' = []).
Proof.
  assert (Hfile : files (World ∅ [] []) !! PANEL_FILE_LOCAL = None) by reflexivity.
  split; [exact Hfile|].
  exact (missing_panel_changes_no_file (example_env tool_ok) (World ∅ [] []) Hfile).
Defined.

Lemma missing_table_example :
  panel_indexes (example_env tool_ok)
    (World (<[PANEL_FILE_LOCAL := table_text example_panel]> ∅) [] [])
  /\ files (World (<[PANEL_FILE_LOCAL := table_text example_panel]> ∅) [] [])
       !! REGIONS_FILE_TSV = None
  /\ exists w' ids,
       main (example_env tool_ok)
         (World (<[PANEL_FILE_LOCAL := table_text example_panel]> ∅) [] [])
       = (Raised (SystemExit 1), w')
       /\ ids <> []
       /\ files w'
          = <[SAMPLES_FILE := allowlist_text ids]>
              (<[PANEL_FILE_LOCAL := table_text example_panel]> ∅)
       /\ calls w' = []
       /\ last (stdout w')
          = Some ("ERROR: Regions TSV file '" +:+ REGIONS_FILE_TSV +:+ "' not found!").
Proof.
  assert (Hpanel : panel_indexes (example_env tool_ok)
            (World (<[PANEL_FILE_LOCAL := table_text example_panel]> ∅) [] [])).
  { example_panel_indexes. }
  assert (Hfile : files (World (<[PANEL_FILE_LOCAL := table_text example_panel]> ∅)
                           [] []) !! REGIONS_FILE_TSV = None) by by_running.
  split; [exact Hpanel|]. split; [exact Hfile|].
  exact (missing_table_ends_the_run_after_indexing (example_env tool_ok)
           (World (<[PANEL_FILE_LOCAL := table_text example_panel]> ∅) [] [])
           Hpanel Hfile).
Defined.

Lemma table_without_columns_example :
  panel_indexes (example_env tool_ok)
    (example_world example_panel [example_header_other_columns; example_row_X])
  /\ os_makedirs_error (example_env tool_ok) OUTPUT_DIR = None
  /\ files (example_world example_panel [example_header_other_columns; example_row_X])
       !! REGIONS_FILE_TSV
     = Some (table_text [example_header_other_columns; example_row_X])
  /\ (csv_reader (example_env tool_ok) true
        (table_text [example_header_other_columns; example_row_X]) = []
      \/ exists header rows,
           csv_reader (example_env tool_ok) true
             (table_text [example_header_other_columns; example_row_X])
           = header :: rows
           /\ ("Chromosome" ∉ header \/ "Position_GRCh37" ∉ header))
  /\ exists w',
       main (example_env tool_ok)
         (example_world example_panel [example_header_other_columns; example_row_X])
       = (Raised (SystemExit 1), w')
       /\ calls w'
          = calls (example_world example_panel
                     [example_header_other_columns; example_row_X]).
Proof.
  assert (Hpanel : panel_indexes (example_env tool_ok)
            (example_world example_panel [example_header_other_columns; example_row_X])).
  { example_panel_indexes. }
  assert (Hfile : files (example_world example_panel
                           [example_header_other_columns; example_row_X])
                    !! REGIONS_FILE_TSV
                  = Some (table_text [example_header_other_columns; example_row_X]))
    by by_running.
  assert (Hbad : csv_reader (example_env tool_ok) true
                   (table_text [example_header_other_columns; example_row_X]) = []
                 \/ exists header rows,
                      csv_reader (example_env tool_ok) true
                        (table_text [example_header_other_columns; example_row_X])
                      = header :: rows
                      /\ ("Chromosome" ∉ header \/ "Position_GRCh37" ∉ header)).
  { right. exists example_header_other_columns, [example_row_X].
    split; [by_running|]. left. apply (index_from_None 0). reflexivity. }
  split; [exact Hpanel|]. split; [reflexivity|]. split; [exact Hfile|].
  split; [exact Hbad|].
  exact (table_without_columns_ends_the_run (example_env tool_ok)
           (example_world example_panel [example_header_other_columns; example_row_X])
           (table_text [example_header_other_columns; example_row_X])
           Hpanel eq_refl Hfile Hbad).
Defined.

Lemma output_directory_error_example :
  panel_indexes example_env_no_directory example_run_world
  /\ is_Some (files example_run_world !! REGIONS_FILE_TSV)
  /\ os_makedirs_error example_env_no_directory OUTPUT_DIR = Some directory_refused
  /\ exists w',
       main example_env_no_directory example_run_world
       = (Raised (Exc directory_refused), w')
       /\ exit_status (fst (main example_env_no_directory example_run_world)) = 1
       /\ calls w' = calls example_run_world
       /\ is_Some (files w' !! SAMPLES_FILE).
Proof.
  assert (Hpanel : panel_indexes example_env_no_directory example_run_world).
  { example_panel_indexes. }
  assert (Hfile : is_Some (files example_run_world !! REGIONS_FILE_TSV)).
  { exists (table_text (example_header :: example_rows)). by_running. }
  split; [exact Hpanel|]. split; [exact Hfile|]. split; [reflexivity|].
  exact (output_directory_error_escapes example_env_no_directory example_run_world
           directory_refused Hpanel Hfile eq_refl).
Defined.

Lemma output_directory_failure_example :
  os_makedirs_error example_env_no_directory (path_dirname "output_vcfs/rs1.vcf.gz")
  = Some directory_refused
  /\ calls (snd (run_bcftools example_env_no_directory BCFTOOLS_CMD (vcf_url "1")
                   "1:90000-110000" SAMPLES_FILE "output_vcfs/rs1.vcf.gz"
                   example_run_world))
     = calls example_run_world
  /\ (exc_cls directory_refused = FileNotFoundError ->
      fst (run_bcftools example_env_no_directory BCFTOOLS_CMD (vcf_url "1")
             "1:90000-110000" SAMPLES_FILE "output_vcfs/rs1.vcf.gz"
             example_run_world)
      = Raised (SystemExit 1)
      /\ last (stdout (snd (run_bcftools example_env_no_directory BCFTOOLS_CMD
                              (vcf_url "1") "1:90000-110000" SAMPLES_FILE
                              "output_vcfs/rs1.vcf.gz" example_run_world)))
         = Some "  Please ensure bcftools is installed and the path in BCFTOOLS_CMD is correct.")
  /\ (exc_cls directory_refused <> FileNotFoundError ->
      fst (run_bcftools example_env_no_directory BCFTOOLS_CMD (vcf_url "1")
             "1:90000-110000" SAMPLES_FILE "output_vcfs/rs1.vcf.gz"
             example_run_world)
      = Returned false).
Proof.
  split; [reflexivity|].
  exact (output_directory_failure_starts_no_command example_env_no_directory
           BCFTOOLS_CMD (vcf_url "1") "1:90000-110000" SAMPLES_FILE
           "output_vcfs/rs1.vcf.gz" example_run_world directory_refused eq_refl).
Defined.

Lemma commands_follow_the_table_example :
  panel_indexes (example_env tool_ok) example_run_world
  /\ os_makedirs_error (example_env tool_ok) OUTPUT_DIR = None
  /\ table_opens (example_env tool_ok) example_run_world example_header
       example_rows 1 2
  /\ exists n,
       (n <= length example_rows)%nat
       /\ calls (snd (main (example_env tool_ok) example_run_world))
          = calls example_run_world
            ++ omap (row_started (example_env tool_ok) 1 2 (rsid_column example_header))
                 (take n (enumerate example_rows))
       /\ (fst (main (example_env tool_ok) example_run_world) = Returned tt ->
           n = length example_rows).
Proof.
  assert (Hpanel : panel_indexes (example_env tool_ok) example_run_world).
  { example_panel_indexes. }
  assert (Htable : table_opens (example_env tool_ok) example_run_world
                     example_header example_rows 1 2).
  { example_table_opens. }
  split; [exact Hpanel|]. split; [reflexivity|]. split; [exact Htable|].
  exact (commands_follow_the_table (example_env tool_ok) example_run_world
           example_header example_rows 1 2 Hpanel eq_refl Htable).
Defined.

Lemma run_of_invalid_rows_example :
  panel_indexes (example_env tool_missing)
    (example_world example_panel (example_header :: example_rows_invalid))
  /\ os_makedirs_error (example_env tool_missing) OUTPUT_DIR = None
  /\ table_opens (example_env tool_missing)
       (example_world example_panel (example_header :: example_rows_invalid))
       example_header example_rows_invalid 1 2
  /\ example_rows_invalid <> []
  /\ Forall (invalid_row 1 2 (rsid_column example_header)) example_rows_invalid
  /\ exists w' before,
       main (example_env tool_missing)
         (example_world example_panel (example_header :: example_rows_invalid))
       = (Returned tt, w')
       /\ calls w'
          = calls (example_world example_panel (example_header :: example_rows_invalid))
       /\ stdout w'
          = before
            ++ summary_lines (len example_rows_invalid) []
                 (map (fun ir => invalid_row_entry (example_env tool_missing)
                                   (fst ir + 2) (snd ir))
                    (enumerate example_rows_invalid)).
Proof.
  assert (Hpanel : panel_indexes (example_env tool_missing)
            (example_world example_panel (example_header :: example_rows_invalid))).
  { example_panel_indexes. }
  assert (Htable : table_opens (example_env tool_missing)
            (example_world example_panel (example_header :: example_rows_invalid))
            example_header example_rows_invalid 1 2).
  { exists (table_text (example_header :: example_rows_invalid)).
    split; [by_running|]. split; [by_running|]. split; reflexivity. }
  assert (Hne : example_rows_invalid <> []) by discriminate.
  assert (Hall : Forall (invalid_row 1 2 (rsid_column example_header))
                   example_rows_invalid).
  { constructor; [|constructor; [|constructor]].
    - right; right; left. exists "abc". split; reflexivity.
    - right; left. reflexivity. }
  split; [exact Hpanel|]. split; [reflexivity|]. split; [exact Htable|].
  split; [exact Hne|]. split; [exact Hall|].
  exact (run_of_invalid_rows_never_starts_the_tool (example_env tool_missing)
           (example_world example_panel (example_header :: example_rows_invalid))
           example_header example_rows_invalid 1 2 Hpanel eq_refl Htable Hne Hall).
Defined.

Lemma label_is_synthesized_example :
  ("rsID" ∉ example_header_no_rsid)
  /\ item ["7"; "5000"] 0 = Some "7"
  /\ item ["7"; "5000"] 1 = Some "5000"
  /\ int_of_str "5000" = Some 5000
  /\ os_makedirs_error (example_env tool_ok)
       (path_dirname (row_output "7" 5000 ("region_" +:+ str_int (2 + 1)))) = None
  /\ calls (snd (process_row (example_env tool_ok) 0 1
                   (rsid_column example_header_no_rsid) (2, ["7"; "5000"])
                   example_locals example_run_world))
     = calls example_run_world
       ++ [bcftools_command BCFTOOLS_CMD (vcf_url (clean_chromosome "7"))
             (row_region "7" 5000) SAMPLES_FILE
             (output_path ("region_" +:+ str_int (2 + 1)) "7"
                (row_start 5000) (row_end 5000))].
Proof.
  assert (Hno : "rsID" ∉ example_header_no_rsid).
  { apply (index_from_None 0). reflexivity. }
  split; [exact Hno|]. split; [reflexivity|]. split; [reflexivity|].
  split; [reflexivity|]. split; [reflexivity|].
  exact (label_is_synthesized_without_rsid_column (example_env tool_ok)
           example_header_no_rsid 0 1 2 ["7"; "5000"] example_locals
           example_run_world "7" "5000" 5000 Hno eq_refl eq_refl eq_refl eq_refl).
Defined.

(** The output file of that row. *)
Example synthesized_label_output :
  output_path ("region_" +:+ str_int (2 + 1)) "7" (row_start 5000) (row_end 5000)
  = "output_vcfs/region_3_chr7_1_15000_GRCh37_SAS_subset.vcf.gz".
Proof. reflexivity. Qed.

Lemma clean_chromosome_of_usual_names_example :
  occurs "chr" "MT" = false
  /\ clean_chromosome "MT" = "MT"
  /\ clean_chromosome ("chr" +:+ "MT") = "MT".
Proof.
  split; [reflexivity|].
  exact (clean_chromosome_of_usual_names "MT" eq_refl).
Defined.

Lemma empty_table_example :
  panel_indexes (example_env tool_ok) (example_world example_panel [example_header])
  /\ os_makedirs_error (example_env tool_ok) OUTPUT_DIR = None
  /\ table_opens (example_env tool_ok) (example_world example_panel [example_header])
       example_header [] 1 2
  /\ exists e w',
       main (example_env tool_ok) (example_world example_panel [example_header])
       = (Raised (Exc e), w')
       /\ exc_cls e = UnboundLocalError
       /\ exit_status (Raised (A := unit) (Exc e)) = 1
       /\ last (stdout w') = Some (NL +:+ "=== SCRIPT FINISHED ===").
Proof.
  assert (Hpanel : panel_indexes (example_env tool_ok)
                     (example_world example_panel [example_header])).
  { example_panel_indexes. }
  assert (Htable : table_opens (example_env tool_ok)
                     (example_world example_panel [example_header])
                     example_header [] 1 2).
  { exists (table_text [example_header]).
    split; [by_running|]. split; [by_running|]. split; reflexivity. }
  split; [exact Hpanel|]. split; [reflexivity|]. split; [exact Htable|].
  exact (empty_table_ends_in_error (example_env tool_ok)
           (example_world example_panel [example_header]) example_header 1 2
           Hpanel eq_refl Htable).
Defined.

(** * Properties of the coordinate lookup *)

(** ** The look-ups in a decoded document *)

Section LookupDocument.

Import Lookup.

Lemma extract_escapes data e :
  extract data = Escapes e <-> e = TypeError /\ forall d, data <> VDict d.
Proof.
  split.
  - unfold extract, root_coordinates, mapping_coordinates, get, getitem_0, getitem_key.
    intros H. repeat (case_match; simplify_eq/=); try done.
  - intros [-> Hd]. destruct data; try reflexivity. by destruct (Hd d).
Qed.

Lemma document_that_is_no_object data :
  (forall d, data <> VDict d) -> extract data = Escapes TypeError.
Proof. intros Hd. by apply extract_escapes. Qed.

Lemma usable_list mapping :
  usable mapping = true -> exists first rest, mapping = VList (first :: rest).
Proof.
  unfold usable. intros H. apply andb_prop in H as [_ H].
  destruct mapping as [|b|n|x|s|l|d]; try discriminate.
  destruct l as [|first rest]; [discriminate|]. eauto.
Qed.

(** X23: the look-ups let an exception escape exactly for a document that
    is not an object, and the exception is then the [TypeError] of
    subscripting it; for an object they end with coordinates or with the
    parse error, whatever the object holds. *)
Theorem only_a_document_that_is_no_object_escapes data :
  match data with
  | VDict _ => forall e, extract data <> Escapes e
  | _ => extract data = Escapes TypeError
  end.
Proof.
  destruct data; try reflexivity.
  intros e He. apply extract_escapes in He as [_ Hd]. by destruct (Hd d).
Qed.

(** X24: the two coordinates always come from the same object: both from
    the root of the document, or, when the root lacks one of them, both
    from the first element of its non-empty list [mappings]. A chromosome
    found at the root is never paired with a position of the list. *)
Theorem coordinates_come_from_one_object data chromosome position :
  extract data = Coordinates chromosome position ->
  (getitem_key data "seq_region_name" = inr chromosome
   /\ getitem_key data "start" = inr position)
  \/ (root_coordinates data = inl KeyError
      /\ exists first rest,
           get data "mappings" = inr (VList (first :: rest))
           /\ getitem_key first "seq_region_name" = inr chromosome
           /\ getitem_key first "start" = inr position).
Proof.
  unfold extract.
  destruct (root_coordinates data) as [e|[c pos]] eqn:Hroot.
  - destruct e; try discriminate.
    unfold mapping_coordinates.
    destruct (get data "mappings") as [e|mapping]; [by destruct e|].
    destruct (usable mapping) eqn:Husable; [|discriminate].
    apply usable_list in Husable as (first & rest & ->). cbn [getitem_0].
    destruct (getitem_key first "seq_region_name") as [e|c] eqn:Hc; [by destruct e|].
    destruct (getitem_key first "start") as [e|pos] eqn:Hpos; [by destruct e|].
    intros [= <- <-]. right. split; [done|]. by exists first, rest.
  - intros [= <- <-]. left. unfold root_coordinates in Hroot.
    destruct (getitem_key data "seq_region_name") as [e|c']; [discriminate|].
    destruct (getitem_key data "start") as [e|pos']; [discriminate|].
    by injection Hroot as -> ->.
Qed.

End LookupDocument.

(** ** The loop over the identifiers *)

Section LookupLoop.

Import Lookup.

Variable env : environment.
Variable requests_get : list string -> string -> raised + response.

Lemma appended_refl fs : appended fs fs EmptyString.
Proof. split; [done|]. by rewrite append_nil_r. Qed.

Lemma appended_trans fs1 fs2 fs3 s t :
  appended fs1 fs2 s -> appended fs2 fs3 t -> appended fs1 fs3 (s +:+ t).
Proof.
  intros [H1 H1'] [H2 H2']. split.
  - intros path Hp. by rewrite H2, H1.
  - by rewrite H2', H1', append_assoc.
Qed.

Lemma appended_insert fs s :
  appended fs
    (<[output_filename := default EmptyString (fs !! output_filename) +:+ s]> fs) s.
Proof.
  split.
  - intros path Hp. by rewrite lookup_insert_ne.
  - by rewrite lookup_insert_eq.
Qed.

Lemma rsids_cons line lines :
  rsids (line :: lines)
  = if decide (strip line = EmptyString) then rsids lines
    else strip line :: rsids lines.
Proof.
  unfold rsids. cbn [map]. rewrite filter_cons.
  destruct (decide (strip line = EmptyString)) as [->|Hne].
  - by rewrite decide_False by (intros H; by apply H).
  - by rewrite decide_True.
Qed.

Lemma eq_str_true v s : eq_str v s = true -> v = VStr s.
Proof.
  destruct v; try discriminate. cbn [eq_str]. intros H.
  apply bool_decide_eq_true in H. by subst.
Qed.

(** What one non-blank line does. *)
Lemma body_step line c p :
  strip line <> EmptyString ->
  exists fl fs' out entry,
    body env requests_get line c p
    = (fl, Process fs' (stdout p ++ out) (stderr p)
             (requests p ++ [request_url (strip line)]))
    /\ appended (files p) fs' entry
    /\ match fl with
       | Continue c' =>
           count_success c' + count_fail c' = count_success c + count_fail c + 1
           /\ count_success c <= count_success c'
           /\ count_fail c <= count_fail c'
           /\ table_entry (strip line) entry
       | Propagate u =>
           fs' = files p
           /\ (u = OfLookup TypeError \/ exists cls msg, u = OfRequest (Unrelated cls msg))
       end.
Proof.
  intros Hne. unfold body. rewrite decide_False by done.
  fold (request_url (strip line)). unfold fetch. cbn [print_end files stdout stderr requests].
  assert (Hfailed : forall e : raised,
    exists fl fs' out entry,
      match e with
      | HTTPError http_err =>
          (Continue (Counters (count_success c) (count_fail c + 1)),
           after_try env (strip line) (VStr "NA") (VStr "NA")
             (print (E_acute +:+ "chec (Erreur HTTP: " +:+ http_err +:+ ")")
                (Process (files p)
                   (stdout p ++ [("Traitement de " +:+ strip line +:+ " ... ") +:+ EmptyString])
                   (stderr p) (requests p ++ [request_url (strip line)]))))
      | RequestException req_err =>
          (Continue (Counters (count_success c) (count_fail c + 1)),
           after_try env (strip line) (VStr "NA") (VStr "NA")
             (print (E_acute +:+ "chec (Erreur Requ" +:+ e_circumflex +:+ "te: "
                     +:+ req_err +:+ ")")
                (Process (files p)
                   (stdout p ++ [("Traitement de " +:+ strip line +:+ " ... ") +:+ EmptyString])
                   (stderr p) (requests p ++ [request_url (strip line)]))))
      | Unrelated _ _ =>
          (Propagate (OfRequest e),
           Process (files p)
             (stdout p ++ [("Traitement de " +:+ strip line +:+ " ... ") +:+ EmptyString])
             (stderr p) (requests p ++ [request_url (strip line)]))
      end
      = (fl, Process fs' (stdout p ++ out) (stderr p)
               (requests p ++ [request_url (strip line)]))
      /\ appended (files p) fs' entry
      /\ match fl with
         | Continue c' =>
             count_success c' + count_fail c' = count_success c + count_fail c + 1
             /\ count_success c <= count_success c'
             /\ count_fail c <= count_fail c'
             /\ table_entry (strip line) entry
         | Propagate u =>
             fs' = files p
             /\ (u = OfLookup TypeError
                 \/ exists cls msg, u = OfRequest (Unrelated cls msg))
         end).
  { intros [msg|msg|cls msg].
    1,2: unfold after_try; change (eq_str (VStr "NA") "NA") with true;
      unfold write, print, print_end; cbn [str_value files stdout stderr requests];
      eexists _, _, _, (row (strip line) "NA" "NA");
      (split; [rewrite <- app_assoc; reflexivity|]);
      (split; [apply appended_insert|]);
      cbn [count_success count_fail];
      (repeat split; [lia..|]); exists "NA", "NA"; by left.
    eexists _, _, _, EmptyString. split; [reflexivity|].
    split; [apply appended_refl|]. split; [done|]. right. eauto. }
  destruct (requests_get (requests p) (request_url (strip line)))
    as [e|[[e|] [e'|data]]]; cbn [raise_for_status json];
    [apply (Hfailed e)..|apply (Hfailed e')|].
  destruct (extract data) as [chromosome position| |e] eqn:He.
  - unfold write, print, print_end; cbn [files stdout stderr requests]. unfold after_try.
    destruct (eq_str chromosome "NA") eqn:Hna.
    + apply eq_str_true in Hna. subst chromosome.
      unfold write, print, print_end; cbn [str_value files stdout stderr requests].
      eexists _, _, _, (row (strip line) "NA" (str_value env position)
                        +:+ row (strip line) "NA" (str_value env position)).
      split; [rewrite <- app_assoc; reflexivity|].
      split; [eapply appended_trans; apply appended_insert|].
      cbn [count_success count_fail].
      repeat split; [lia..|]. exists "NA", (str_value env position). by right.
    + eexists _, _, _, (row (strip line) (str_value env chromosome) (str_value env position)).
      split; [rewrite <- app_assoc; reflexivity|].
      split; [apply appended_insert|].
      cbn [count_success count_fail].
      repeat split; [lia..|]. eexists _, _. by left.
  - unfold write, print, print_end; cbn [files stdout stderr requests].
    eexists _, _, _, (row (strip line) "PARSE_ERROR" "PARSE_ERROR").
    split; [rewrite <- app_assoc; reflexivity|].
    split; [apply appended_insert|].
    cbn [count_success count_fail].
    repeat split; [lia..|]. eexists _, _. by left.
  - apply extract_escapes in He as [-> _].
    eexists _, _, _, EmptyString. split; [reflexivity|].
    split; [apply appended_refl|]. split; [done|]. by left.
Qed.

Lemma body_blank line c p :
  strip line = EmptyString -> body env requests_get line c p = (Continue c, p).
Proof. intros H. unfold body. by rewrite decide_True. Qed.

Lemma concat_cons (x : string) (l : list string) :
  String.concat EmptyString (x :: l) = x +:+ String.concat EmptyString l.
Proof. destruct l; [by rewrite append_nil_r|reflexivity]. Qed.

(** The loop requests the identifiers in their order, as long as it runs,
    appends an entry for each to the table and counts it once. *)
Lemma lookup_loop_spec lines c p :
  exists fl p' k out text,
    loop env requests_get lines c p = (fl, p')
    /\ stderr p' = stderr p
    /\ stdout p' = stdout p ++ out
    /\ requests p' = requests p ++ map request_url (take k (rsids lines))
    /\ appended (files p) (files p') text
    /\ match fl with
       | Continue c' =>
           (length (rsids lines) <= k)%nat
           /\ count_success c' + count_fail c'
              = count_success c + count_fail c + len (rsids lines)
           /\ count_success c <= count_success c'
           /\ count_fail c <= count_fail c'
           /\ exists entries,
                Forall2 table_entry (rsids lines) entries
                /\ text = String.concat EmptyString entries
       | Propagate u =>
           (0 < k <= length (rsids lines))%nat
           /\ (u = OfLookup TypeError
               \/ exists cls msg, u = OfRequest (Unrelated cls msg))
       end.
Proof.
  revert c p. induction lines as [|line rest IH]; intros c p.
  - exists (Continue c), p, 0%nat, [], EmptyString. cbn [loop].
    rewrite !app_nil_r.
    split; [reflexivity|]. split; [done|]. split; [done|]. split; [done|].
    split; [apply appended_refl|].
    change (rsids []) with (@nil string). unfold len. cbn [length].
    repeat split; try lia.
    exists []. split; [constructor|reflexivity].
  - cbn [loop]. rewrite rsids_cons.
    destruct (decide (strip line = EmptyString)) as [Hblank|Hne].
    + rewrite (body_blank _ _ _ Hblank). apply IH.
    + destruct (body_step line c p Hne)
        as (fl1 & fs1 & out1 & entry & -> & Happ1 & Hfl1).
      destruct fl1 as [c1|u].
      * destruct Hfl1 as (Hsum1 & Hs1 & Hf1 & Hentry).
        match goal with
        | |- context [loop _ _ rest c1 ?q] =>
            destruct (IH c1 q)
              as (fl & p' & k & out & text & -> & Herr & Hout & Hreq & Happ & Hfl)
        end.
        cbn [files stdout stderr requests] in Herr, Hout, Hreq, Happ.
        exists fl, p', (S k), (out1 ++ out), (entry +:+ text).
        split; [reflexivity|]. split; [done|].
        split; [by rewrite Hout, <- app_assoc|].
        split; [by rewrite Hreq, <- app_assoc|].
        split; [by eapply appended_trans|].
        destruct fl as [c'|u].
        -- destruct Hfl as (Hk & Hsum & Hs & Hf & entries & Hentries & ->).
           cbn [length]. unfold len in *. cbn [length].
           repeat split; try lia.
           exists (entry :: entries). split; [by constructor|].
           by rewrite concat_cons.
        -- destruct Hfl as (Hk & Hu). cbn [length]. split; [lia|done].
      * destruct Hfl1 as (-> & Hu).
        eexists (Propagate u), _, 1%nat, out1, entry.
        split; [reflexivity|]. cbn [files stdout stderr requests take map length].
        rewrite take_0. cbn [map].
        split; [done|]. split; [done|]. split; [done|]. split; [done|].
        split; [lia|done].
Qed.

(** X25: when the service finds an identifier and gives the string [NA]
    as its chromosome, the row of the identifier is written twice: once as
    the row of a success, which is counted, and once more by the test
    after the [try] statement that is meant for failed requests. *)
Theorem found_na_chromosome_is_written_twice line c p response data position :
  strip line <> EmptyString ->
  requests_get (requests p) (request_url (strip line)) = inr response ->
  raise_for_status response = None ->
  json response = inr data ->
  extract data = Coordinates (VStr "NA") position ->
  exists out,
    body env requests_get line c p
    = (Continue (Counters (count_success c + 1) (count_fail c)),
       Process
         (<[output_filename :=
              default EmptyString (files p !! output_filename)
              +:+ row (strip line) "NA" (str_value env position)
              +:+ row (strip line) "NA" (str_value env position)]> (files p))
         (stdout p ++ out) (stderr p)
         (requests p ++ [request_url (strip line)])).
Proof.
  intros Hne Hget Hstatus Hjson Hdata. unfold body. rewrite decide_False by done.
  fold (request_url (strip line)). unfold fetch.
  cbn [print_end files stdout stderr requests]. rewrite Hget, Hstatus, Hjson, Hdata.
  unfold after_try. change (eq_str (VStr "NA") "NA") with true.
  unfold write, print, print_end. cbn [str_value files stdout stderr requests].
  rewrite lookup_insert_eq, insert_insert_eq. cbv [default from_option id].
  eexists. rewrite <- app_assoc, append_assoc. reflexivity.
Qed.

(** X28: an identifier whose request, status check or decoding raises an
    [HTTPError] or another [RequestException] is counted as one failure and
    gets exactly one row, with [NA] in both fields; the loop goes on. *)
Theorem failed_request_writes_one_na_row line c p e msg :
  strip line <> EmptyString ->
  fst (fetch requests_get (request_url (strip line)) p) = inl e ->
  e = HTTPError msg \/ e = RequestException msg ->
  exists out,
    body env requests_get line c p
    = (Continue (Counters (count_success c) (count_fail c + 1)),
       Process
         (<[output_filename :=
              default EmptyString (files p !! output_filename)
              +:+ row (strip line) "NA" "NA"]> (files p))
         (stdout p ++ out) (stderr p)
         (requests p ++ [request_url (strip line)])).
Proof.
  intros Hne Hfetch He. unfold body. rewrite decide_False by done.
  fold (request_url (strip line)). unfold fetch in *.
  cbn [print_end files stdout stderr requests] in *.
  destruct (requests_get (requests p) (request_url (strip line)))
    as [e'|[[e'|] [e''|data]]]; cbn [raise_for_status json fst] in Hfetch |- *;
    simplify_eq; destruct He as [He|He]; subst;
    unfold after_try; change (eq_str (VStr "NA") "NA") with true;
    unfold write, print, print_end; cbn [str_value files stdout stderr requests];
    eexists; rewrite <- app_assoc; reflexivity.
Qed.

(** X29: an identifier whose document is decoded but holds no coordinates
    (the look-ups end in the parse error) is counted as one failure and
    gets exactly one row, with [PARSE_ERROR] in both fields; the test for
    [NA] after the [try] statement is not reached. *)
Theorem document_without_coordinates_writes_one_parse_error_row line c p data :
  strip line <> EmptyString ->
  fst (fetch requests_get (request_url (strip line)) p) = inr data ->
  extract data = ParseError ->
  exists out,
    body env requests_get line c p
    = (Continue (Counters (count_success c) (count_fail c + 1)),
       Process
         (<[output_filename :=
              default EmptyString (files p !! output_filename)
              +:+ row (strip line) "PARSE_ERROR" "PARSE_ERROR"]> (files p))
         (stdout p ++ out) (stderr p)
         (requests p ++ [request_url (strip line)])).
Proof.
  intros Hne Hfetch Hdata. unfold body. rewrite decide_False by done.
  fold (request_url (strip line)). unfold fetch in *.
  cbn [print_end files stdout stderr requests] in *.
  destruct (requests_get (requests p) (request_url (strip line)))
    as [e'|[[e'|] [e''|data']]]; cbn [raise_for_status json fst] in Hfetch |- *;
    simplify_eq.
  rewrite Hdata. unfold write, print, print_end.
  cbn [files stdout stderr requests].
  eexists. rewrite <- app_assoc. reflexivity.
Qed.

(** X22: of the exceptions of the request, of the status check, of the
    decoding and of the look-ups in the document, the loop body lets
    through exactly two kinds: one of the first three that is no
    [RequestException], and the [TypeError] of a document that is not an
    object. Every [HTTPError], other [RequestException], [KeyError] and
    [IndexError] of these steps is handled, and the loop goes on. *)
Theorem loop_body_lets_through line c p u :
  strip line <> EmptyString ->
  fst (body env requests_get line c p) = Propagate u
  <-> (exists cls msg,
         fst (fetch requests_get (request_url (strip line)) p)
         = inl (Unrelated cls msg)
         /\ u = OfRequest (Unrelated cls msg))
      \/ (exists data,
            fst (fetch requests_get (request_url (strip line)) p) = inr data
            /\ (forall d, data <> VDict d)
            /\ u = OfLookup TypeError).
Proof.
  intros Hne. unfold body. rewrite decide_False by done.
  fold (request_url (strip line)). unfold fetch.
  cbn [print_end files stdout stderr requests].
  assert (Hfailed : forall (e : raised) q,
    fst match e with
        | HTTPError http_err =>
            (Continue (Counters (count_success c) (count_fail c + 1)),
             after_try env (strip line) (VStr "NA") (VStr "NA")
               (print (E_acute +:+ "chec (Erreur HTTP: " +:+ http_err +:+ ")") q))
        | RequestException req_err =>
            (Continue (Counters (count_success c) (count_fail c + 1)),
             after_try env (strip line) (VStr "NA") (VStr "NA")
               (print (E_acute +:+ "chec (Erreur Requ" +:+ e_circumflex +:+ "te: "
                       +:+ req_err +:+ ")") q))
        | Unrelated _ _ => (Propagate (OfRequest e), q)
        end = Propagate u
    <-> (exists cls msg, @inl raised value e = inl (Unrelated cls msg)
                         /\ u = OfRequest (Unrelated cls msg))
        \/ (exists data, @inl raised value e = inr data
                         /\ (forall d, data <> VDict d) /\ u = OfLookup TypeError)).
  { intros [msg|msg|cls msg] q; cbn [fst]; split.
    - done.
    - intros [(cls & msg' & [=] & _)|(data & [=] & _)].
    - done.
    - intros [(cls & msg' & [=] & _)|(data & [=] & _)].
    - intros [= <-]. left. eauto.
    - intros [(cls' & msg' & [= <- <-] & ->)|(data & [=] & _)]. done. }
  destruct (requests_get (requests p) (request_url (strip line)))
    as [e|[[e|] [e'|data]]]; cbn [raise_for_status json fst];
    [apply Hfailed..|].
  destruct (extract data) as [chromosome position| |e] eqn:He; cbn [fst]; split.
  - done.
  - intros [(cls & msg & [=] & _)|(data' & [= <-] & Hd & _)].
    rewrite (document_that_is_no_object data Hd) in He. discriminate He.
  - done.
  - intros [(cls & msg & [=] & _)|(data' & [= <-] & Hd & _)].
    rewrite (document_that_is_no_object data Hd) in He. discriminate He.
  - intros [= <-]. apply extract_escapes in He as [-> Hd]. right. eauto.
  - intros [(cls & msg & [=] & _)|(data' & [= <-] & Hd & ->)].
    apply extract_escapes in He as [-> _]. done.
Qed.

End LookupLoop.

(** ** The whole lookup *)

Section LookupRun.

Import Lookup.

Variable env : environment.
Variable requests_get : list string -> string -> raised + response.

Lemma summary_state c p :
  files (summary c p) = files p
  /\ stderr (summary c p) = stderr p
  /\ requests (summary c p) = requests p
  /\ exists out, stdout (summary c p) = stdout p ++ out.
Proof.
  unfold summary, print, print_end. cbn [files stdout stderr requests].
  repeat split. rewrite <- !app_assoc. eauto.
Qed.

(** A run that opens its two files: the loop starts on a table that holds
    the header, and the run ends as the loop does. *)
Lemma lookup_run_opened p text :
  files p !! input_filename = Some text ->
  open_w_error env output_filename = None ->
  exists fl p' k out entries_text,
    run env requests_get p
    = match fl with
      | Continue c => (Finished, summary c p')
      | Propagate e => (Traceback e, p')
      end
    /\ stderr p' = stderr p
    /\ stdout p' = stdout p ++ out
    /\ requests p' = requests p ++ map request_url (take k (rsids (input_lines p)))
    /\ (forall path, path <> output_filename -> files p' !! path = files p !! path)
    /\ files p' !! output_filename = Some (header +:+ entries_text)
    /\ match fl with
       | Continue c' =>
           (length (rsids (input_lines p)) <= k)%nat
           /\ count_success c' + count_fail c' = len (rsids (input_lines p))
           /\ 0 <= count_success c'
           /\ 0 <= count_fail c'
           /\ exists entries,
                Forall2 table_entry (rsids (input_lines p)) entries
                /\ entries_text = String.concat EmptyString entries
       | Propagate u =>
           (0 < k <= length (rsids (input_lines p)))%nat
           /\ (u = OfLookup TypeError
               \/ exists cls msg, u = OfRequest (Unrelated cls msg))
       end.
Proof.
  intros Hin Hout. unfold run, input_lines. rewrite Hin, Hout. cbn [default].
  match goal with
  | |- context [loop _ _ ?ls ?c0 ?q] =>
      destruct (lookup_loop_spec env requests_get ls c0 q)
        as (fl & p' & k & out & text' & -> & Herr & Hstd & Hreq & [Hother Hfile] & Hfl)
  end.
  unfold print, print_end, write, create in Herr, Hstd, Hreq, Hother, Hfile.
  cbn [files stdout stderr requests] in Herr, Hstd, Hreq, Hother, Hfile.
  rewrite !lookup_insert_eq in Hfile. cbv [default from_option id] in Hfile.
  change (EmptyString +:+ header) with header in Hfile.
  rewrite <- !app_assoc in Hstd.
  eexists fl, p', k, _, text'.
  split; [by destruct fl|]. split; [done|].
  split; [exact Hstd|]. split; [done|].
  split.
  { intros path Hp. rewrite Hother by done. by rewrite !lookup_insert_ne. }
  split.
  { destruct (files p' !! output_filename) as [content|].
    - by rewrite Hfile.
    - exfalso. revert Hfile. vm_compute. discriminate. }
  destruct fl as [c'|u]; [|done].
  cbn [count_success count_fail] in Hfl. destruct Hfl as (? & ? & ? & ? & ?).
  repeat split; try done; lia.
Qed.

(** How a run ends when one of its two files cannot be opened. *)
Lemma lookup_run_cases p :
  (exists msg,
     run env requests_get p
     = (SysExit 1, Process (files p) (stdout p) (stderr p ++ [msg]) (requests p))
     /\ (files p !! input_filename = None
         \/ exists e, open_w_error env output_filename = Some e
                      /\ issubclass (exc_cls e) OSError = true))
  \/ (exists e,
        run env requests_get p = (Traceback (OfOpen e), p)
        /\ open_w_error env output_filename = Some e
        /\ issubclass (exc_cls e) OSError = false)
  \/ (exists text,
        files p !! input_filename = Some text
        /\ open_w_error env output_filename = None).
Proof.
  unfold run.
  destruct (files p !! input_filename) as [text|] eqn:Hin.
  - destruct (open_w_error env output_filename) as [e|] eqn:Hopen.
    + destruct (issubclass (exc_cls e) OSError) eqn:Hcls.
      * left. eexists. split; [reflexivity|]. right. eauto.
      * right. left. eauto.
    + right. right. eauto.
  - left. eexists. split; [reflexivity|]. by left.
Qed.

(** X18: the requests of a run are those of the identifiers of the input
    file (its stripped lines that are not empty), one each, in the order of
    the file: all of them when the run finishes, those up to some
    identifier otherwise. A blank line causes no request. *)
Theorem lookup_requests_follow_the_identifiers p :
  match fst (run env requests_get p) with
  | Finished =>
      requests (snd (run env requests_get p))
      = requests p ++ map request_url (rsids (input_lines p))
  | _ =>
      exists k,
        requests (snd (run env requests_get p))
        = requests p ++ map request_url (take k (rsids (input_lines p)))
  end.
Proof.
  destruct (lookup_run_cases p)
    as [(msg & -> & _)|[(e & -> & _)|(text & Hin & Hopen)]].
  - exists 0%nat. cbn [fst snd requests]. by rewrite take_0, app_nil_r.
  - exists 0%nat. cbn [fst snd]. by rewrite take_0, app_nil_r.
  - destruct (lookup_run_opened p text Hin Hopen)
      as (fl & p' & k & out & text' & -> & _ & _ & Hreq & _ & _ & Hfl).
    destruct fl as [c|u]; cbn [fst snd].
    + destruct (summary_state c p') as (_ & _ & -> & _).
      destruct Hfl as (Hk & _). by rewrite Hreq, take_ge.
    + eauto.
Qed.

(** X19: a run that finishes has counted every identifier exactly once, as
    a success or as a failure: the two counts of the summary it prints are
    not negative and add up to the number of identifiers. *)
Theorem lookup_counts_every_identifier p :
  fst (run env requests_get p) = Finished ->
  exists c q,
    snd (run env requests_get p) = summary c q
    /\ 0 <= count_success c
    /\ 0 <= count_fail c
    /\ count_success c + count_fail c = len (rsids (input_lines p)).
Proof.
  destruct (lookup_run_cases p)
    as [(msg & -> & _)|[(e & -> & _)|(text & Hin & Hopen)]]; [done..|].
  destruct (lookup_run_opened p text Hin Hopen)
    as (fl & p' & k & out & text' & -> & _ & _ & _ & _ & _ & Hfl).
  destruct fl as [c|u]; [|done]. intros _.
  destruct Hfl as (_ & Hsum & Hs & Hf & _).
  exists c, p'. by cbn [snd].
Qed.


(** X21: the script calls [sys.exit] only before its loop, with status 1:
    when the input file is missing, or when opening the output file raises
    an [OSError]. It has then written one message to the error stream and
    nothing else: no file is created or changed, nothing is printed on the
    standard output and no request is made. *)
Theorem lookup_exits_before_the_first_request p code :
  fst (run env requests_get p) = SysExit code ->
  code = 1
  /\ files (snd (run env requests_get p)) = files p
  /\ stdout (snd (run env requests_get p)) = stdout p
  /\ requests (snd (run env requests_get p)) = requests p
  /\ (exists msg, stderr (snd (run env requests_get p)) = stderr p ++ [msg])
  /\ (files p !! input_filename = None
      \/ exists e, open_w_error env output_filename = Some e
                   /\ issubclass (exc_cls e) OSError = true).
Proof.
  destruct (lookup_run_cases p)
    as [(msg & -> & Hwhy)|[(e & -> & _)|(text & Hin & Hopen)]].
  - cbn [fst snd files stdout stderr requests]. intros [= <-].
    repeat split; try done. eauto.
  - done.
  - destruct (lookup_run_opened p text Hin Hopen)
      as (fl & p' & k & out & text' & -> & _). by destruct fl.
Qed.

End LookupRun.

(** ** The table between the two scripts *)

(** *** [int] reads back what [str] writes *)

Lemma rev_app_rev_app (s a b : string) :
  String.rev_app (String.rev_app s a) b = String.rev_app a (s +:+ b).
Proof.
  revert a b. induction s as [|c s IH]; intros a b; [done|].
  cbn [String.rev_app]. by rewrite IH.
Qed.

Lemma rev_involutive (s : string) : String.rev (String.rev s) = s.
Proof.
  unfold String.rev. rewrite rev_app_rev_app. cbn [String.rev_app].
  apply append_nil_r.
Qed.

Lemma all_chars_rev_app P (s t : string) :
  all_chars P (String.rev_app s t) = all_chars P s && all_chars P t.
Proof.
  revert t. induction s as [|c s IH]; intros t; [done|].
  cbn [String.rev_app all_chars]. rewrite IH. cbn [all_chars].
  by destruct (P c), (all_chars P s).
Qed.

Lemma all_chars_impl (P Q : ascii -> bool) (s : string) :
  (forall c, P c = true -> Q c = true) ->
  all_chars P s = true -> all_chars Q s = true.
Proof.
  intros HPQ. induction s as [|c s IH]; [done|]. cbn [all_chars].
  intros [Hc Hs]%andb_prop. by rewrite (HPQ c Hc), (IH Hs).
Qed.

Lemma lstrip_class_outside class (s : string) :
  all_chars (fun c => negb (class c)) s = true -> lstrip_class class s = s.
Proof.
  destruct s as [|c s]; [done|]. cbn [all_chars lstrip_class].
  intros [Hc _]%andb_prop. by destruct (class c).
Qed.

(** Stripping a class leaves a string without characters of the class as
    it is. *)
Lemma strip_class_outside class (s : string) :
  all_chars (fun c => negb (class c)) s = true -> strip_class class s = s.
Proof.
  intros Hs. unfold strip_class. rewrite (lstrip_class_outside _ _ Hs).
  rewrite lstrip_class_outside; [apply rev_involutive|].
  unfold String.rev. rewrite all_chars_rev_app, Hs. done.
Qed.

Lemma pretty_N_char_digit (d : N) :
  (d < 10)%N -> digit_value (pretty_N_char d) = Some (Z.of_N d).
Proof.
  intros Hd.
  assert (d = 0 \/ d = 1 \/ d = 2 \/ d = 3 \/ d = 4 \/ d = 5 \/ d = 6
          \/ d = 7 \/ d = 8 \/ d = 9)%N as H by lia.
  repeat (destruct H as [->|H]; [reflexivity|]). by subst.
Qed.

(** The digits that [pretty_N_go] puts before [s] are read as the number
    they stand for. *)
Lemma int_digits_pretty_N_go (x : N) :
  forall s, (0 < x)%N ->
  exists k, 0 <= k /\ forall acc b,
    int_digits acc b (pretty_N_go x s)
    = int_digits (acc * 10 ^ k + Z.of_N x) false s.
Proof.
  induction (N.lt_wf_0 x) as [x _ IH]. intros s Hx.
  rewrite pretty_N_go_step by done.
  assert (Hd : digit_value (pretty_N_char (x `mod` 10)) = Some (Z.of_N (x `mod` 10)))
    by (apply pretty_N_char_digit, N.mod_lt; lia).
  assert (Hx10 : Z.of_N x = 10 * Z.of_N (x `div` 10) + Z.of_N (x `mod` 10))
    by (rewrite (N.div_mod x 10) at 1 by lia; lia).
  destruct (decide (x `div` 10 = 0)%N) as [Hq|Hq].
  - rewrite Hq, pretty_N_go_0. exists 1. split; [lia|]. intros acc b.
    cbn [int_digits]. rewrite Hd. f_equal. rewrite Hq in Hx10. lia.
  - destruct (IH (x `div` 10)%N) with (s := String (pretty_N_char (x `mod` 10)) s)
      as (k & Hk & Hgo); [apply N.div_lt; lia|by apply N.neq_0_lt_0|].
    exists (k + 1). split; [lia|]. intros acc b. rewrite Hgo.
    cbn [int_digits]. rewrite Hd. f_equal.
    rewrite Z.pow_add_r, Z.pow_1_r by lia. lia.
Qed.

Lemma pretty_N_go_digits (x : N) :
  forall s, all_chars isdigit s = true -> all_chars isdigit (pretty_N_go x s) = true.
Proof.
  induction (N.lt_wf_0 x) as [x _ IH]. intros s Hs.
  destruct (decide (x = 0)%N) as [->|Hx]; [by rewrite pretty_N_go_0|].
  rewrite pretty_N_go_step by lia. apply IH; [apply N.div_lt; lia|].
  cbn [all_chars]. rewrite Hs, andb_true_r. unfold isdigit.
  rewrite pretty_N_char_digit by (apply N.mod_lt; lia). done.
Qed.

Lemma isdigit_no_space c : isdigit c = true -> negb (int_space c) = true.
Proof. destruct c as [[] [] [] [] [] [] [] []]; vm_compute; done. Qed.

Lemma isdigit_no_sign c : isdigit c = true -> c <> "-"%char /\ c <> "+"%char.
Proof. destruct c as [[] [] [] [] [] [] [] []]; vm_compute; intros; split; congruence. Qed.

Lemma int_of_str_positive (x : positive) :
  int_of_str (pretty_N_go (N.pos x) EmptyString) = Some (Z.pos x)
  /\ all_chars isdigit (pretty_N_go (N.pos x) EmptyString) = true.
Proof.
  destruct (int_digits_pretty_N_go (N.pos x) EmptyString) as (k & _ & Hgo); [lia|].
  assert (Hdigits := pretty_N_go_digits (N.pos x) EmptyString eq_refl).
  split; [|done]. unfold int_of_str.
  rewrite strip_class_outside
    by (eapply all_chars_impl; [apply isdigit_no_space|done]).
  specialize (Hgo 0 true). cbn [int_digits] in Hgo.
  destruct (pretty_N_go (N.pos x) EmptyString) as [|c rest]; [done|].
  cbn [all_chars] in Hdigits. apply andb_prop in Hdigits as [Hc _].
  destruct (isdigit_no_sign c Hc) as [Hminus Hplus].
  rewrite !decide_False by done. by rewrite Hgo.
Qed.

(** [int(str(n)) = n]. *)
Lemma int_of_str_str_int (n : Z) : int_of_str (str_int n) = Some n.
Proof.
  destruct n as [|x|x]; [reflexivity|..].
  - apply int_of_str_positive.
  - destruct (int_of_str_positive x) as [Hint Hdigits].
    change (str_int (Z.neg x)) with (String "-"%char (pretty_N_go (N.pos x) EmptyString)).
    unfold int_of_str. rewrite strip_class_outside.
    + rewrite decide_True by done.
      unfold int_of_str in Hint.
      rewrite strip_class_outside in Hint
        by (eapply all_chars_impl; [apply isdigit_no_space|done]).
      destruct (pretty_N_go (N.pos x) EmptyString) as [|c rest]; [done|].
      cbn [all_chars] in Hdigits. apply andb_prop in Hdigits as [Hc _].
      destruct (isdigit_no_sign c Hc) as [Hminus Hplus].
      rewrite !decide_False in Hint by done. by rewrite Hint.
    + cbn [all_chars]. apply andb_true_intro. split; [reflexivity|].
      eapply all_chars_impl; [apply isdigit_no_space|done].
Qed.

(** *** Tab-separated text is read back *)

Lemma all_chars_append P (a b : string) :
  all_chars P (a +:+ b) = all_chars P a && all_chars P b.
Proof.
  induction a as [|x a IH]; [done|].
  change (all_chars P (String x (a +:+ b)) = all_chars P (String x a) && all_chars P b).
  cbn [all_chars]. rewrite IH. by destruct (P x).
Qed.

Lemma split_acc_free (sep : ascii) (s : string) : forall acc t,
  all_chars (fun c => negb (bool_decide (c = sep))) s = true ->
  split_acc sep acc (s +:+ t) = split_acc sep (String.rev_app s acc) t.
Proof.
  induction s as [|x s IH]; intros acc t; [done|].
  cbn [all_chars]. intros [Hx Hs]%andb_prop.
  apply negb_true_iff, bool_decide_eq_false in Hx.
  change (String x s +:+ t) with (String x (s +:+ t)).
  cbn [split_acc String.rev_app]. rewrite decide_False by done. by apply IH.
Qed.

Lemma split_free (sep : ascii) (s : string) :
  all_chars (fun c => negb (bool_decide (c = sep))) s = true -> split sep s = [s].
Proof.
  intros Hs. unfold split. rewrite <- (append_nil_r s) at 1.
  rewrite split_acc_free by done. cbn [split_acc].
  change (String.rev_app s EmptyString) with (String.rev s).
  by rewrite (rev_involutive s).
Qed.

Lemma split_cons (sep : ascii) (s t : string) :
  all_chars (fun c => negb (bool_decide (c = sep))) s = true ->
  split sep (s +:+ String sep t) = s :: split sep t.
Proof.
  intros Hs. unfold split. rewrite split_acc_free by done. cbn [split_acc].
  rewrite decide_True by done.
  change (String.rev_app s EmptyString) with (String.rev s).
  by rewrite (rev_involutive s).
Qed.

Lemma plain_no_tab (s : string) :
  plain s = true -> all_chars (fun c => negb (bool_decide (c = "009"%char))) s = true.
Proof.
  apply all_chars_impl. by intros c [H _]%andb_prop.
Qed.

Lemma plain_no_line_feed (s : string) :
  plain s = true -> all_chars (fun c => negb (bool_decide (c = "010"%char))) s = true.
Proof.
  apply all_chars_impl. by intros c [_ H]%andb_prop.
Qed.

(** The fields of a line are read back from their join. *)
Lemma split_join (fields : list string) :
  fields <> [] ->
  Forall (fun field => plain field = true) fields ->
  split "009"%char (join TAB fields) = fields.
Proof.
  intros Hne Hplain. induction Hplain as [|x rest Hx Hrest IH]; [done|].
  destruct rest as [|y rest].
  - cbn [join]. by apply split_free, plain_no_tab.
  - change (join TAB (x :: y :: rest))
      with (x +:+ String "009"%char (join TAB (y :: rest))).
    rewrite split_cons by (by apply plain_no_tab). f_equal. by apply IH.
Qed.

Lemma join_no_line_feed (fields : list string) :
  Forall (fun field => plain field = true) fields ->
  all_chars (fun c => negb (bool_decide (c = "010"%char))) (join TAB fields) = true.
Proof.
  induction 1 as [|x rest Hx Hrest IH]; [done|].
  destruct rest as [|y rest].
  - cbn [join]. by apply plain_no_line_feed.
  - change (join TAB (x :: y :: rest)) with (x +:+ TAB +:+ join TAB (y :: rest)).
    rewrite !all_chars_append, IH, (plain_no_line_feed x Hx). reflexivity.
Qed.

(** The lines of a text are read back. *)
Lemma split_lines (lines : list string) :
  Forall (fun line =>
            all_chars (fun c => negb (bool_decide (c = "010"%char))) line = true)
    lines ->
  split "010"%char (String.concat EmptyString (map (fun line => line +:+ NL) lines))
  = lines ++ [EmptyString].
Proof.
  induction 1 as [|line rest Hline Hrest IH]; [reflexivity|].
  cbn [map]. rewrite concat_cons, append_assoc.
  change (NL +:+ ?t) with (String "010"%char t).
  rewrite split_cons by done. cbn [app]. by rewrite IH.
Qed.

Lemma tsv_rows_lines (text : string) :
  tsv_rows text = map (split "009"%char) (removelast (split "010"%char text)).
Proof. by destruct text. Qed.

(** A table of plain fields is read back row by row. *)
Lemma tsv_rows_table_text (rows : list (list string)) :
  Forall (fun row => row <> [] /\ Forall (fun field => plain field = true) row) rows ->
  tsv_rows (table_text rows) = rows.
Proof.
  intros Hrows. rewrite tsv_rows_lines. unfold table_text.
  replace (map row_text rows)
    with (map (fun line => line +:+ NL) (map (join TAB) rows))
    by (by rewrite map_map).
  rewrite split_lines.
  - rewrite removelast_last, map_map.
    rewrite <- (map_id rows) at 2. apply map_ext_Forall.
    eapply Forall_impl; [exact Hrows|]. intros row [Hne Hplain]. by apply split_join.
  - apply Forall_map. eapply Forall_impl; [exact Hrows|].
    intros row [_ Hplain]. by apply join_no_line_feed.
Qed.

(** *** The rows of the lookup, as the region extractor reads them *)

Section TableBetweenScripts.

Variable env : environment.

Lemma row_is_row_text (rsid chromosome position : string) :
  Lookup.row rsid chromosome position = row_text [rsid; chromosome; position].
Proof.
  unfold Lookup.row, row_text. cbn [join]. by rewrite !append_assoc.
Qed.

(** The table that the lookup writes is the header line and the lines of
    its rows, and a reader of tab-separated lines gives back the header and
    the fields of the rows, when no field holds a tab or a line feed. *)
Lemma lookup_table_read (rows : list table_row) :
  Forall plain_row rows ->
  tsv_rows (lookup_table rows) = example_header :: map row_fields rows.
Proof.
  intros Hplain.
  assert (Htext : lookup_table rows = table_text (example_header :: map row_fields rows)).
  { unfold lookup_table, table_text. cbn [map]. rewrite concat_cons. f_equal.
    f_equal. rewrite map_map. apply map_ext. intros [[rsid chromosome] position].
    apply row_is_row_text. }
  rewrite Htext. apply tsv_rows_table_text. constructor.
  - split; [done|]. repeat constructor.
  - apply Forall_map. eapply Forall_impl; [exact Hplain|].
    intros [[rsid chromosome] position] (H1 & H2 & H3). split; [done|].
    repeat constructor; done.
Qed.

(** X26: the lookup writes the file that the region extractor reads, with
    the three columns the extractor looks up at the indexes 0, 1 and 2.
    When no field of the table holds a tab or a line feed and the csv reader
    reads the text as tab-separated lines, the row that the lookup wrote for
    an identifier without coordinates, with [NA] or [PARSE_ERROR] in both
    fields, comes back as these three fields and fails to parse in the
    extractor: it is reported as an invalid row with its line number, and no
    command is started for it. *)
Theorem placeholder_rows_are_invalid_for_the_extractor
    (rows : list table_row) (k : nat) (rsid mark : string)
    (st : locals) (w : world) :
  Forall plain_row rows ->
  csv_reader env true (lookup_table rows) = tsv_rows (lookup_table rows) ->
  rows !! k = Some (rsid, mark, mark) ->
  placeholder mark ->
  Lookup.output_filename = REGIONS_FILE_TSV
  /\ (exists header data,
        csv_reader env true (lookup_table rows) = header :: data
        /\ index_from 0 header "rsID" = Some 0
        /\ index_from 0 header "Chromosome" = Some 1
        /\ index_from 0 header "Position_GRCh37" = Some 2
        /\ data !! k = Some [rsid; mark; mark])
  /\ invalid_row 1 2 0 [rsid; mark; mark]
  /\ exists msg,
       process_row env 1 2 0 (Z.of_nat k, [rsid; mark; mark]) st w
       = (Returned
            (Locals (successful_extractions st)
               (failed_regions st
                ++ [invalid_row_entry env (Z.of_nat k + 2) [rsid; mark; mark]])
               (Some (Z.of_nat k))),
          World (files w)
            (stdout w
             ++ [invalid_row_warning env (Z.of_nat k + 2) [rsid; mark; mark] msg])
            (calls w)).
Proof.
  intros Hplain Hreader Hrow Hmark.
  assert (Hinvalid : invalid_row 1 2 0 [rsid; mark; mark]).
  { right. right. left. exists mark. split; [reflexivity|].
    by destruct Hmark as [->| ->]. }
  split; [reflexivity|]. split.
  { exists example_header, (map row_fields rows).
    split; [by rewrite Hreader, lookup_table_read|].
    split; [reflexivity|]. split; [reflexivity|]. split; [reflexivity|].
    rewrite list_lookup_fmap. exact (f_equal (fmap row_fields) Hrow). }
  split; [exact Hinvalid|].
  apply process_row_invalid. by apply invalid_row_locus.
Qed.

(** X27: an integer position of at most 4300 digits, the most that the
    interpreter converts, which the lookup writes with [str], is read back
    by the extractor with [int] as the same integer: when no field of the
    table holds a tab or a line feed and the csv reader reads the text as
    tab-separated lines, the row comes back with its three fields and
    parses to the chromosome, the position and the identifier that were
    written. *)
Theorem written_position_is_read_back
    (rows : list table_row) (k : nat) (rsid chromosome : string) (n : Z) :
  Forall plain_row rows ->
  csv_reader env true (lookup_table rows) = tsv_rows (lookup_table rows) ->
  rows !! k = Some (rsid, chromosome, Lookup.str_value env (Lookup.VInt n)) ->
  Z.abs n < 10 ^ 4300 ->
  exists header data row,
    csv_reader env true (lookup_table rows) = header :: data
    /\ index_from 0 header "rsID" = Some 0
    /\ index_from 0 header "Chromosome" = Some 1
    /\ index_from 0 header "Position_GRCh37" = Some 2
    /\ data !! k = Some row
    /\ locus_of_row 1 2 0 (Z.of_nat k) row = Some (chromosome, n, rsid).
Proof.
  intros Hplain Hreader Hrow _.
  exists example_header, (map row_fields rows), [rsid; chromosome; str_int n].
  split; [by rewrite Hreader, lookup_table_read|].
  split; [reflexivity|]. split; [reflexivity|]. split; [reflexivity|].
  split; [rewrite list_lookup_fmap; exact (f_equal (fmap row_fields) Hrow)|].
  unfold locus_of_row.
  change (item [rsid; chromosome; str_int n] 1) with (Some chromosome).
  change (item [rsid; chromosome; str_int n] 2) with (Some (str_int n)).
  cbn [mbind option_bind]. by rewrite int_of_str_str_int.
Qed.

End TableBetweenScripts.

(** ** The properties of the lookup on example inputs *)

Lemma lookup_counts_every_identifier_example :
  fst (Lookup.run (example_env tool_ok) Lookup.example_service Lookup.example_process)
  = Lookup.Finished
  /\ exists c q,
       snd (Lookup.run (example_env tool_ok) Lookup.example_service
              Lookup.example_process)
       = Lookup.summary c q
       /\ 0 <= Lookup.count_success c
       /\ 0 <= Lookup.count_fail c
       /\ Lookup.count_success c + Lookup.count_fail c
          = len (Lookup.rsids (Lookup.input_lines Lookup.example_process)).
Proof.
  assert (H : fst (Lookup.run (example_env tool_ok) Lookup.example_service
                     Lookup.example_process) = Lookup.Finished) by by_running.
  split; [exact H|].
  exact (lookup_counts_every_identifier (example_env tool_ok) Lookup.example_service
           Lookup.example_process H).
Defined.


(** The table of the example run: the fourth identifier, found with the
    chromosome [NA], has two rows. *)
Example lookup_table_of_the_example_run :
  Lookup.files
    (snd (Lookup.run (example_env tool_ok) Lookup.example_service
            Lookup.example_process))
  !! Lookup.output_filename
  = Some (table_text
            [example_header;
             ["rs1"; "1"; "100000"];
             ["rs2"; "NA"; "NA"];
             ["rs3"; "PARSE_ERROR"; "PARSE_ERROR"];
             ["rs4"; "NA"; "7"];
             ["rs4"; "NA"; "7"];
             ["rs5"; "NA"; "NA"]]).
Proof. by_running. Qed.

Lemma lookup_exit_example :
  fst (Lookup.run (example_env tool_ok) Lookup.example_service
         Lookup.example_process_no_input)
  = Lookup.SysExit 1
  /\ 1 = 1
  /\ Lookup.files
       (snd (Lookup.run (example_env tool_ok) Lookup.example_service
               Lookup.example_process_no_input))
     = Lookup.files Lookup.example_process_no_input
  /\ Lookup.stdout
       (snd (Lookup.run (example_env tool_ok) Lookup.example_service
               Lookup.example_process_no_input))
     = Lookup.stdout Lookup.example_process_no_input
  /\ Lookup.requests
       (snd (Lookup.run (example_env tool_ok) Lookup.example_service
               Lookup.example_process_no_input))
     = Lookup.requests Lookup.example_process_no_input
  /\ (exists msg,
        Lookup.stderr
          (snd (Lookup.run (example_env tool_ok) Lookup.example_service
                  Lookup.example_process_no_input))
        = Lookup.stderr Lookup.example_process_no_input ++ [msg])
  /\ (Lookup.files Lookup.example_process_no_input !! Lookup.input_filename = None
      \/ exists e,
           open_w_error (example_env tool_ok) Lookup.output_filename = Some e
           /\ issubclass (exc_cls e) OSError = true).
Proof.
  assert (H : fst (Lookup.run (example_env tool_ok) Lookup.example_service
                     Lookup.example_process_no_input) = Lookup.SysExit 1)
    by by_running.
  split; [exact H|].
  exact (lookup_exits_before_the_first_request (example_env tool_ok)
           Lookup.example_service Lookup.example_process_no_input 1 H).
Defined.

Lemma loop_body_lets_through_example :
  strip ("rs1" +:+ NL) <> EmptyString
  /\ (fst (Lookup.body (example_env tool_ok) Lookup.example_service_lists
             ("rs1" +:+ NL) (Lookup.Counters 0 0) Lookup.example_process)
      = Lookup.Propagate (Lookup.OfLookup Lookup.TypeError)
      <-> (exists cls msg,
             fst (Lookup.fetch Lookup.example_service_lists
                    (Lookup.request_url (strip ("rs1" +:+ NL))) Lookup.example_process)
             = inl (Lookup.Unrelated cls msg)
             /\ Lookup.OfLookup Lookup.TypeError
                = Lookup.OfRequest (Lookup.Unrelated cls msg))
          \/ (exists data,
                fst (Lookup.fetch Lookup.example_service_lists
                       (Lookup.request_url (strip ("rs1" +:+ NL)))
                       Lookup.example_process)
                = inr data
                /\ (forall d, data <> Lookup.VDict d)
                /\ Lookup.OfLookup Lookup.TypeError
                   = Lookup.OfLookup Lookup.TypeError))
  /\ fst (Lookup.body (example_env tool_ok) Lookup.example_service_lists
            ("rs1" +:+ NL) (Lookup.Counters 0 0) Lookup.example_process)
     = Lookup.Propagate (Lookup.OfLookup Lookup.TypeError).
Proof.
  assert (Hne : strip ("rs1" +:+ NL) <> EmptyString) by (vm_compute; discriminate).
  split; [exact Hne|]. split; [|by_running].
  exact (loop_body_lets_through (example_env tool_ok) Lookup.example_service_lists
           ("rs1" +:+ NL) (Lookup.Counters 0 0) Lookup.example_process
           (Lookup.OfLookup Lookup.TypeError) Hne).
Defined.

Lemma coordinates_come_from_one_object_example :
  Lookup.extract Lookup.example_document_partial_root
  = Lookup.Coordinates (Lookup.VStr "2") (Lookup.VInt 5)
  /\ ((Lookup.getitem_key Lookup.example_document_partial_root "seq_region_name"
       = inr (Lookup.VStr "2")
       /\ Lookup.getitem_key Lookup.example_document_partial_root "start"
          = inr (Lookup.VInt 5))
      \/ (Lookup.root_coordinates Lookup.example_document_partial_root
          = inl Lookup.KeyError
          /\ exists first rest,
               Lookup.get Lookup.example_document_partial_root "mappings"
               = inr (Lookup.VList (first :: rest))
               /\ Lookup.getitem_key first "seq_region_name" = inr (Lookup.VStr "2")
               /\ Lookup.getitem_key first "start" = inr (Lookup.VInt 5))).
Proof.
  assert (H : Lookup.extract Lookup.example_document_partial_root
              = Lookup.Coordinates (Lookup.VStr "2") (Lookup.VInt 5)) by reflexivity.
  split; [exact H|].
  exact (coordinates_come_from_one_object Lookup.example_document_partial_root
           (Lookup.VStr "2") (Lookup.VInt 5) H).
Defined.

Lemma found_na_chromosome_example :
  strip ("rs4" +:+ NL) <> EmptyString
  /\ Lookup.example_service_na (Lookup.requests Lookup.example_process)
       (Lookup.request_url (strip ("rs4" +:+ NL)))
     = inr (Lookup.Response None
              (inr (Lookup.VDict [("seq_region_name", Lookup.VStr "NA");
                                  ("start", Lookup.VInt 7)])))
  /\ exists out,
       Lookup.body (example_env tool_ok) Lookup.example_service_na ("rs4" +:+ NL)
         (Lookup.Counters 3 2) Lookup.example_process
       = (Lookup.Continue (Lookup.Counters (3 + 1) 2),
          Lookup.Process
            (<[Lookup.output_filename :=
                 default EmptyString
                   (Lookup.files Lookup.example_process !! Lookup.output_filename)
                 +:+ Lookup.row (strip ("rs4" +:+ NL)) "NA"
                       (Lookup.str_value (example_env tool_ok) (Lookup.VInt 7))
                 +:+ Lookup.row (strip ("rs4" +:+ NL)) "NA"
                       (Lookup.str_value (example_env tool_ok) (Lookup.VInt 7))]>
               (Lookup.files Lookup.example_process))
            (Lookup.stdout Lookup.example_process ++ out)
            (Lookup.stderr Lookup.example_process)
            (Lookup.requests Lookup.example_process
             ++ [Lookup.request_url (strip ("rs4" +:+ NL))])).
Proof.
  assert (Hne : strip ("rs4" +:+ NL) <> EmptyString) by (vm_compute; discriminate).
  split; [exact Hne|]. split; [reflexivity|].
  exact (found_na_chromosome_is_written_twice (example_env tool_ok)
           Lookup.example_service_na ("rs4" +:+ NL) (Lookup.Counters 3 2)
           Lookup.example_process
           (Lookup.Response None
              (inr (Lookup.VDict [("seq_region_name", Lookup.VStr "NA");
                                  ("start", Lookup.VInt 7)])))
           (Lookup.VDict [("seq_region_name", Lookup.VStr "NA");
                          ("start", Lookup.VInt 7)])
           (Lookup.VInt 7) Hne eq_refl eq_refl eq_refl eq_refl).
Defined.

Lemma failed_request_example :
  strip ("rs2" +:+ NL) <> EmptyString
  /\ fst (Lookup.fetch Lookup.example_service
            (Lookup.request_url (strip ("rs2" +:+ NL)))
            (Lookup.Process ∅ [] [] [Lookup.request_url "rs1"]))
     = inl (Lookup.HTTPError "404 Client Error: Not Found")
  /\ exists out,
       Lookup.body (example_env tool_ok) Lookup.example_service ("rs2" +:+ NL)
         (Lookup.Counters 1 0) (Lookup.Process ∅ [] [] [Lookup.request_url "rs1"])
       = (Lookup.Continue (Lookup.Counters 1 (0 + 1)),
          Lookup.Process
            (<[Lookup.output_filename :=
                 default EmptyString
                   (Lookup.files (Lookup.Process ∅ [] [] [Lookup.request_url "rs1"])
                    !! Lookup.output_filename)
                 +:+ Lookup.row (strip ("rs2" +:+ NL)) "NA" "NA"]>
               (Lookup.files (Lookup.Process ∅ [] [] [Lookup.request_url "rs1"])))
            (Lookup.stdout (Lookup.Process ∅ [] [] [Lookup.request_url "rs1"]) ++ out)
            (Lookup.stderr (Lookup.Process ∅ [] [] [Lookup.request_url "rs1"]))
            (Lookup.requests (Lookup.Process ∅ [] [] [Lookup.request_url "rs1"])
             ++ [Lookup.request_url (strip ("rs2" +:+ NL))])).
Proof.
  assert (Hne : strip ("rs2" +:+ NL) <> EmptyString) by (vm_compute; discriminate).
  split; [exact Hne|]. split; [reflexivity|].
  exact (failed_request_writes_one_na_row (example_env tool_ok) Lookup.example_service
           ("rs2" +:+ NL) (Lookup.Counters 1 0)
           (Lookup.Process ∅ [] [] [Lookup.request_url "rs1"])
           (Lookup.HTTPError "404 Client Error: Not Found")
           "404 Client Error: Not Found" Hne eq_refl (or_introl eq_refl)).
Defined.

Lemma document_without_coordinates_example :
  strip ("  rs3  " +:+ NL) <> EmptyString
  /\ fst (Lookup.fetch Lookup.example_service
            (Lookup.request_url (strip ("  rs3  " +:+ NL)))
            (Lookup.Process ∅ [] [] [Lookup.request_url "rs1"; Lookup.request_url "rs2"]))
     = inr (Lookup.VDict [("mappings", Lookup.VList [])])
  /\ Lookup.extract (Lookup.VDict [("mappings", Lookup.VList [])]) = Lookup.ParseError
  /\ exists out,
       Lookup.body (example_env tool_ok) Lookup.example_service ("  rs3  " +:+ NL)
         (Lookup.Counters 1 1)
         (Lookup.Process ∅ [] [] [Lookup.request_url "rs1"; Lookup.request_url "rs2"])
       = (Lookup.Continue (Lookup.Counters 1 (1 + 1)),
          Lookup.Process
            (<[Lookup.output_filename :=
                 default EmptyString
                   (Lookup.files
                      (Lookup.Process ∅ [] []
                         [Lookup.request_url "rs1"; Lookup.request_url "rs2"])
                    !! Lookup.output_filename)
                 +:+ Lookup.row (strip ("  rs3  " +:+ NL)) "PARSE_ERROR" "PARSE_ERROR"]>
               (Lookup.files
                  (Lookup.Process ∅ [] []
                     [Lookup.request_url "rs1"; Lookup.request_url "rs2"])))
            (Lookup.stdout
               (Lookup.Process ∅ [] []
                  [Lookup.request_url "rs1"; Lookup.request_url "rs2"]) ++ out)
            (Lookup.stderr
               (Lookup.Process ∅ [] []
                  [Lookup.request_url "rs1"; Lookup.request_url "rs2"]))
            (Lookup.requests
               (Lookup.Process ∅ [] []
                  [Lookup.request_url "rs1"; Lookup.request_url "rs2"])
             ++ [Lookup.request_url (strip ("  rs3  " +:+ NL))])).
Proof.
  assert (Hne : strip ("  rs3  " +:+ NL) <> EmptyString) by (vm_compute; discriminate).
  split; [exact Hne|]. split; [reflexivity|]. split; [reflexivity|].
  exact (document_without_coordinates_writes_one_parse_error_row (example_env tool_ok)
           Lookup.example_service ("  rs3  " +:+ NL) (Lookup.Counters 1 1)
           (Lookup.Process ∅ [] [] [Lookup.request_url "rs1"; Lookup.request_url "rs2"])
           (Lookup.VDict [("mappings", Lookup.VList [])]) Hne eq_refl eq_refl).
Defined.

Lemma placeholder_rows_example :
  Forall plain_row example_table_rows
  /\ csv_reader (example_env tool_ok) true (lookup_table example_table_rows)
     = tsv_rows (lookup_table example_table_rows)
  /\ example_table_rows !! 2%nat = Some ("rs3", "PARSE_ERROR", "PARSE_ERROR")
  /\ placeholder "PARSE_ERROR"
  /\ Lookup.output_filename = REGIONS_FILE_TSV
  /\ (exists header data,
        csv_reader (example_env tool_ok) true (lookup_table example_table_rows)
        = header :: data
        /\ index_from 0 header "rsID" = Some 0
        /\ index_from 0 header "Chromosome" = Some 1
        /\ index_from 0 header "Position_GRCh37" = Some 2
        /\ data !! 2%nat = Some ["rs3"; "PARSE_ERROR"; "PARSE_ERROR"])
  /\ invalid_row 1 2 0 ["rs3"; "PARSE_ERROR"; "PARSE_ERROR"]
  /\ exists msg,
       process_row (example_env tool_ok) 1 2 0
         (Z.of_nat 2, ["rs3"; "PARSE_ERROR"; "PARSE_ERROR"])
         example_locals example_run_world
       = (Returned
            (Locals (successful_extractions example_locals)
               (failed_regions example_locals
                ++ [invalid_row_entry (example_env tool_ok) (Z.of_nat 2 + 2)
                      ["rs3"; "PARSE_ERROR"; "PARSE_ERROR"]])
               (Some (Z.of_nat 2))),
          World (files example_run_world)
            (stdout example_run_world
             ++ [invalid_row_warning (example_env tool_ok) (Z.of_nat 2 + 2)
                   ["rs3"; "PARSE_ERROR"; "PARSE_ERROR"] msg])
            (calls example_run_world)).
Proof.
  assert (Hplain : Forall plain_row example_table_rows).
  { repeat (constructor; [by repeat split|]). constructor. }
  assert (Hmark : placeholder "PARSE_ERROR") by (by right).
  split; [exact Hplain|]. split; [reflexivity|]. split; [reflexivity|].
  split; [exact Hmark|].
  exact (placeholder_rows_are_invalid_for_the_extractor (example_env tool_ok)
           example_table_rows 2 "rs3" "PARSE_ERROR" example_locals example_run_world
           Hplain eq_refl eq_refl Hmark).
Defined.

Lemma written_position_example :
  Forall plain_row example_table_rows
  /\ csv_reader (example_env tool_ok) true (lookup_table example_table_rows)
     = tsv_rows (lookup_table example_table_rows)
  /\ example_table_rows !! 0%nat
     = Some ("rs1", "1", Lookup.str_value (example_env tool_ok) (Lookup.VInt 100000))
  /\ Z.abs 100000 < 10 ^ 4300
  /\ exists header data row,
       csv_reader (example_env tool_ok) true (lookup_table example_table_rows)
       = header :: data
       /\ index_from 0 header "rsID" = Some 0
       /\ index_from 0 header "Chromosome" = Some 1
       /\ index_from 0 header "Position_GRCh37" = Some 2
       /\ data !! 0%nat = Some row
       /\ locus_of_row 1 2 0 (Z.of_nat 0) row = Some ("1", 100000, "rs1").
Proof.
  assert (Hplain : Forall plain_row example_table_rows).
  { repeat (constructor; [by repeat split|]). constructor. }
  assert (Hsize : Z.abs 100000 < 10 ^ 4300) by by_running.
  split; [exact Hplain|]. split; [reflexivity|]. split; [reflexivity|].
  split; [exact Hsize|].
  exact (written_position_is_read_back (example_env tool_ok) example_table_rows 0
           "rs1" "1" 100000 Hplain eq_refl eq_refl Hsize).
Defined.

(** Why the fields must be plain: an identifier with a tab inside is
    written as one field and read back as three, so that the row of a
    failed lookup parses, as the row of another locus. *)
Example identifier_with_a_tab_is_read_as_fields :
  tsv_rows (lookup_table [("rs1" +:+ TAB +:+ "1" +:+ TAB +:+ "100", "NA", "NA")])
  = [example_header; ["rs1"; "1"; "100"; "NA"; "NA"]]
  /\ locus_of_row 1 2 0 0 ["rs1"; "1"; "100"; "NA"; "NA"] = Some ("1", 100, "rs1").
Proof. split; by_running. Qed.

Lemma region_of_prefixed_name_example :
  locus_of_row 1 2 0 1 example_row_X = Some ("chrX", 50, "rs2")
  /\ 0 < 50
  /\ occurs "chr" (prefix_stripped "chrX") = false
  /\ os_makedirs_error (example_env tool_ok)
       (path_dirname (row_output "chrX" 50 "rs2")) = None
  /\ REGION_WINDOW_SIZE = 10000
  /\ Z.max 1 (50 - REGION_WINDOW_SIZE) <= 50 <= 50 + REGION_WINDOW_SIZE
  /\ 1 <= Z.max 1 (50 - REGION_WINDOW_SIZE)
  /\ exists command,
       calls (snd (process_row (example_env tool_ok) 1 2 0 (1, example_row_X)
                     example_locals example_run_world))
       = calls example_run_world ++ [command]
       /\ command !! 3%nat = Some "-r"
       /\ command !! 4%nat
          = Some (prefix_stripped "chrX" +:+ ":"
                  +:+ str_int (Z.max 1 (50 - REGION_WINDOW_SIZE)) +:+ "-"
                  +:+ str_int (50 + REGION_WINDOW_SIZE)).
Proof.
  assert (Hl : locus_of_row 1 2 0 1 example_row_X = Some ("chrX", 50, "rs2"))
    by reflexivity.
  assert (Hpos : 0 < 50) by lia.
  split; [exact Hl|]. split; [exact Hpos|]. split; [reflexivity|].
  split; [reflexivity|].
  exact (region_is_the_value_without_its_prefix (example_env tool_ok) 1 2 0 1
           example_row_X example_locals example_run_world "chrX" 50 "rs2"
           Hl Hpos eq_refl eq_refl).
Defined.
